(** * pm2-monitor: restart detection, stabilization polling, threshold
      alerts, alert throttling and the bounded status history

    A shallow embedding of [pm2-monitor.js].  The script is a single-threaded
    Node.js program: synchronous stretches of code run to completion, and the
    environment (clock, cron trigger, interval timers, the Slack web hook, the
    file system, [pm2 jlist]) answers between them.  The embedding keeps that
    shape: every synchronous stretch is a function on a [World], and every
    answer of the environment is an explicit argument of the function that
    consumes it. *)

From Stdlib Require Import ZArith QArith String List Lia.
From stdpp Require Import base option list gmap strings pretty.

Set Warnings "-clear-no-such-hyp".

Local Open Scope string_scope.
Local Open Scope list_scope.
Local Open Scope Z_scope.

(** ** Numbers and strings of the host language *)

(** [a < b] on JavaScript numbers that are finite: exact on rationals. *)
Definition Qltb (a b : Q) : bool :=
  (Qnum a * QDen b <? Qnum b * QDen a)%Z.

Definition nl : string := String (Ascii.ascii_of_nat 10) EmptyString.
Definition backtick : string := String (Ascii.ascii_of_nat 96) EmptyString.

(** [Array.prototype.join] on strings. *)
Fixpoint join (sep : string) (l : list string) : string :=
  match l with
  | [] => ""
  | [x] => x
  | x :: rest => x +:+ sep +:+ join sep rest
  end.

(** [Array.prototype.slice(0, e)]: a negative [e] counts from the end. *)
Definition slice0 {A} (l : list A) (e : Z) : list A :=
  if e <? 0 then take (Z.to_nat (Z.of_nat (length l) + e)) l
  else take (Z.to_nat e) l.

(** ** Data model *)

(** A record as [getPm2Processes] returns it. *)
Record Proc := {
  pm_id : Z;
  name : string;
  status : string;
  restarts : Z;
  cpu : Q;
  memory : Q;
}.

(** The answer of [await getPm2Processes()]: a snapshot, or a thrown error
    with its message. *)
Inductive Fetch :=
| FetchOk (processes : list Proc)
| FetchErr (message : string).

(** The part of [CONFIG] the monitoring logic reads. *)
Record Config := {
  THRESHOLDS_CPU : Q;
  THRESHOLDS_MEMORY : Q;
  THROTTLE_DURATION_MS : Z;
  RECHECK_INTERVAL_MS : Z;
  RECHECK_MAX_ATTEMPTS : Z;
  WEB_SERVER_ENABLED : bool;
  MAX_HISTORY : Z;
}.

(** The values written in the source. *)
Definition CONFIG : Config := {|
  THRESHOLDS_CPU := 80 # 1;
  THRESHOLDS_MEMORY := 450 # 1;
  THROTTLE_DURATION_MS := 30 * 1000;
  RECHECK_INTERVAL_MS := 5 * 1000;
  RECHECK_MAX_ATTEMPTS := 12;
  WEB_SERVER_ENABLED := true;
  MAX_HISTORY := 1440;
|}.

(** The getter [RECHECK_TIMEOUT_SEC]. *)
Definition RECHECK_TIMEOUT_SEC (cfg : Config) : Q :=
  ((inject_Z (RECHECK_INTERVAL_MS cfg) / (1000 # 1)) *
   inject_Z (RECHECK_MAX_ATTEMPTS cfg))%Q.

Inductive Level := LOG | ERROR.

(** What [createSlackPayload] builds: the attachment colour and the four
    texts of its blocks. *)
Record Payload := {
  pl_color : string;
  pl_header : string;
  pl_app : string;
  pl_time : string;
  pl_body : string;
}.

(** The phases of one interval timer started by [startPollingAppStatus].
    The source has no such variable: [Polling] is a live timer, and each of
    the other three is one of the three places that call [clearInterval]. *)
Inductive Phase := Polling | Stabilized | Failed | Errored.

Record Poller := {
  p_appName : string;
  p_attempts : Z;
  p_phase : Phase;
}.

(** One entry of the status history file. *)
Record HistoryEntry := {
  h_timestamp : string;
  h_processes : list Proc;
}.

(** What the program does, in order.  [Notify] records a call of
    [sendSlackNotification] (a notification attempt), [Post] a call of
    [axios.post] (a delivery attempt), [Sample] a call of [getPm2Processes]
    made by the timer with that index, [Evaluate] that the loop of
    [checkStableProcesses] did not skip that record. *)
Inductive Event :=
| Notify (appName title message color : string)
| Post (key : string) (payload : Payload)
| SetInterval (appName : string)
| ClearInterval (timer : nat)
| Sample (timer : nat)
| Evaluate (proc : Proc)
| Console (level : Level) (text : string).

(** A call of [sendSlackNotification] suspended at [await axios.post]: the
    [key] and [now] its continuation closes over. *)
Record Suspended := {
  s_key : string;
  s_now : Z;
}.

Record World := {
  appRestartHistory : gmap string Z;
  notificationThrottleCache : gmap string Z;
  clock : Z;
  inflight : list Suspended;
  pollers : list Poller;
  statusFile : option (list HistoryEntry);
  trace : list Event;
}.

Definition emit (e : Event) (w : World) : World :=
  {| appRestartHistory := appRestartHistory w;
     notificationThrottleCache := notificationThrottleCache w;
     clock := clock w; inflight := inflight w; pollers := pollers w;
     statusFile := statusFile w; trace := trace w ++ [e] |}.

Definition with_history (h : gmap string Z) (w : World) : World :=
  {| appRestartHistory := h;
     notificationThrottleCache := notificationThrottleCache w;
     clock := clock w; inflight := inflight w; pollers := pollers w;
     statusFile := statusFile w; trace := trace w |}.

Definition with_cache (c : gmap string Z) (w : World) : World :=
  {| appRestartHistory := appRestartHistory w;
     notificationThrottleCache := c;
     clock := clock w; inflight := inflight w; pollers := pollers w;
     statusFile := statusFile w; trace := trace w |}.

Definition with_clock (t : Z) (w : World) : World :=
  {| appRestartHistory := appRestartHistory w;
     notificationThrottleCache := notificationThrottleCache w;
     clock := t; inflight := inflight w; pollers := pollers w;
     statusFile := statusFile w; trace := trace w |}.

Definition with_inflight (l : list Suspended) (w : World) : World :=
  {| appRestartHistory := appRestartHistory w;
     notificationThrottleCache := notificationThrottleCache w;
     clock := clock w; inflight := l; pollers := pollers w;
     statusFile := statusFile w; trace := trace w |}.

Definition with_pollers (l : list Poller) (w : World) : World :=
  {| appRestartHistory := appRestartHistory w;
     notificationThrottleCache := notificationThrottleCache w;
     clock := clock w; inflight := inflight w; pollers := l;
     statusFile := statusFile w; trace := trace w |}.

Definition with_statusFile (f : option (list HistoryEntry)) (w : World) : World :=
  {| appRestartHistory := appRestartHistory w;
     notificationThrottleCache := notificationThrottleCache w;
     clock := clock w; inflight := inflight w; pollers := pollers w;
     statusFile := f; trace := trace w |}.

(** The state of a freshly loaded script at time [t]: both maps empty, no
    timer, no history file. *)
Definition boot (t : Z) : World :=
  {| appRestartHistory := ∅; notificationThrottleCache := ∅; clock := t;
     inflight := []; pollers := []; statusFile := None; trace := [] |}.

(** The outcome of an [async] function's promise. *)
Inductive Completion :=
| Fulfilled
| Rejected (reason : string).

(** ** Reading the trace *)

Fixpoint count_events (f : Event -> bool) (tr : list Event) : nat :=
  match tr with
  | [] => 0%nat
  | e :: tr' => ((if f e then 1 else 0) + count_events f tr')%nat
  end.

Definition is_notify (appName title : string) (e : Event) : bool :=
  match e with
  | Notify a t _ _ => bool_decide (a = appName) && bool_decide (t = title)
  | _ => false
  end.

Definition is_post (key : string) (e : Event) : bool :=
  match e with
  | Post k _ => bool_decide (k = key)
  | _ => false
  end.

Definition is_set_interval (appName : string) (e : Event) : bool :=
  match e with
  | SetInterval a => bool_decide (a = appName)
  | _ => false
  end.

Definition is_sample (i : nat) (e : Event) : bool :=
  match e with
  | Sample j => bool_decide (j = i)
  | _ => false
  end.

Definition is_evaluate (appName : string) (e : Event) : bool :=
  match e with
  | Evaluate p => bool_decide (name p = appName)
  | _ => false
  end.

(** Notification attempts for a subject under a title, delivery attempts for
    a throttle key, timers started for a name, snapshots taken by a timer. *)
Definition attempts_of (appName title : string) (tr : list Event) : nat :=
  count_events (is_notify appName title) tr.
Definition posts_of (key : string) (tr : list Event) : nat :=
  count_events (is_post key) tr.
Definition timers_of (appName : string) (tr : list Event) : nat :=
  count_events (is_set_interval appName) tr.
Definition samples_of (i : nat) (tr : list Event) : nat :=
  count_events (is_sample i) tr.
(** Records of a name that the threshold evaluation did not skip. *)
Definition evaluated_of (appName : string) (tr : list Event) : nat :=
  count_events (is_evaluate appName) tr.

(** The notification attempts of a trace, in order. *)
Definition notifications (tr : list Event)
    : list (string * string * string * string) :=
  omap (fun e => match e with
                 | Notify a t m c => Some (a, t, m, c)
                 | _ => None
                 end) tr.

(** The aggregated restart count of a name: the sum of the [restarts] field
    over the records of the snapshot that carry the name. *)
Definition aggregated (appName : string) (processes : list Proc) : Z :=
  foldr Z.add 0 (map restarts (filter (fun p => name p = appName) processes)).

(** A sample in which the name is stable: it has an instance, and every
    instance is online. *)
Definition stable_sample (appName : string) (processes : list Proc) : Prop :=
  (exists p, p ∈ processes /\ name p = appName) /\
  (forall p, p ∈ processes -> name p = appName -> status p = "online").

(** The phase and the attempt counter of the timer with index [i]. *)
Definition phase_of (i : nat) (w : World) : option Phase :=
  p_phase <$> pollers w !! i.
Definition attempts_made (i : nat) (w : World) : option Z :=
  p_attempts <$> pollers w !! i.

Section Monitor.

(** [String(x)] for a number [x], and
    [new Date(t).toLocaleString('en-US', { timeZone: 'America/New_York' })]:
    both belong to the host language. *)
Variable num_to_string : Q -> string.
Variable toLocaleString : Z -> string.

(** The configuration object; [CONFIG] above is the one in the source. *)
Variable cfg : Config.

(** ** Notifications *)

Definition createSlackPayload (appName title message color : string)
    (w : World) : Payload :=
  let emoji := if String.eqb color "good" then "✅"
               else if String.eqb color "warning" then "⚠️" else "🚨" in
  {| pl_color := color;
     pl_header := emoji +:+ " [PM2] " +:+ title;
     pl_app := "*App Name:*" +:+ nl +:+ backtick +:+ appName +:+ backtick;
     pl_time := "*Time:*" +:+ nl +:+ toLocaleString (clock w);
     pl_body := message |}.

Definition throttle_key (appName title : string) : string :=
  appName +:+ "::" +:+ title.

(** [cache.has(key) && (now - cache.get(key) < THROTTLE_DURATION_MS)] *)
Definition throttled (key : string) (now : Z) (w : World) : bool :=
  match notificationThrottleCache w !! key with
  | Some last => bool_decide (now - last < THROTTLE_DURATION_MS cfg)
  | None => false
  end.

(** [sendSlackNotification] up to its [await]: the throttle test, the log
    line, the payload and the call of [axios.post].  No caller awaits the
    promise, so the rest of the function runs in a later turn ([settle]). *)
Definition sendSlackNotification (appName title message color : string)
    (w : World) : World :=
  let w := emit (Notify appName title message color) w in
  let key := throttle_key appName title in
  let now := clock w in
  if throttled key now w then w
  else
    let w := emit (Console LOG ("[Notification] Sending to Slack: [" +:+
                                appName +:+ "] " +:+ title)) w in
    let payload := createSlackPayload appName title message color w in
    let w := emit (Post key payload) w in
    with_inflight (inflight w ++ [{| s_key := key; s_now := now |}]) w.

(** What one call of [sendSlackNotification] adds to the trace. *)
Definition send_events (appName title message color : string) (w : World)
    : list Event :=
  Notify appName title message color ::
  (if throttled (throttle_key appName title) (clock w) w then []
   else [Console LOG ("[Notification] Sending to Slack: [" +:+ appName +:+
                      "] " +:+ title);
         Post (throttle_key appName title)
              (createSlackPayload appName title message color w)]).

(** The answer of the web hook to one [axios.post]. *)
Inductive PostResult :=
| PostOk
| PostFailed (message : string).

(** [sendSlackNotification] after its [await], for the suspended call at
    index [i]: on success the cache is written, on failure the [catch] logs.
    Either way the promise of the call is fulfilled. *)
Definition settle (i : nat) (r : PostResult) (w : World) : Completion * World :=
  match inflight w !! i with
  | None => (Fulfilled, w)
  | Some s =>
    let w := with_inflight (delete i (inflight w)) w in
    match r with
    | PostOk =>
      (Fulfilled,
       with_cache (<[s_key s := s_now s]> (notificationThrottleCache w)) w)
    | PostFailed message =>
      (Fulfilled,
       emit (Console ERROR ("[Error] Failed to send Slack notification: " +:+
                            message)) w)
    end
  end.

(** ** Restart detection *)

(** [currentRestartsByApp] is a [Map] that is iterated: its entries come in
    the order of first insertion, so it is kept as a list of entries with
    distinct keys. *)
Fixpoint Map_get (k : string) (m : list (string * Z)) : option Z :=
  match m with
  | [] => None
  | (k', v) :: m' => if decide (k = k') then Some v else Map_get k m'
  end.

Fixpoint Map_set (k : string) (v : Z) (m : list (string * Z)) : list (string * Z) :=
  match m with
  | [] => [(k, v)]
  | (k', v') :: m' =>
    if decide (k = k') then (k, v) :: m' else (k', v') :: Map_set k v m'
  end.

(** The first loop of [detectAndHandleRestarts]. *)
Definition currentRestartsByApp (processes : list Proc) : list (string * Z) :=
  foldl (fun m proc =>
           let count := default 0 (Map_get (name proc) m) in
           Map_set (name proc) (count + restarts proc) m)
        [] processes.

(** [startPollingAppStatus]: [attempts = 0] and a new interval timer.  The
    timer's callback is [interval_tick] below. *)
Definition fresh_poller (appName : string) : Poller :=
  {| p_appName := appName; p_attempts := 0; p_phase := Polling |}.

Definition startPollingAppStatus (appName : string) (w : World) : World :=
  let w := emit (SetInterval appName) w in
  with_pollers (pollers w ++ [fresh_poller appName]) w.

(** The message of the 'Process Restart Detected' notification. *)
Definition restart_message (appName : string) : string :=
  "A restart was detected for '" +:+ appName +:+
  "'. Monitoring status for up to " +:+
  num_to_string (RECHECK_TIMEOUT_SEC cfg) +:+ " seconds.".

(** The body of the second loop of [detectAndHandleRestarts]. *)
Definition detect_entry (acc : gset string * World) (entry : string * Z)
    : gset string * World :=
  let '(restartedApps, w) := acc in
  let '(appName, totalRestarts) := entry in
  let '(restartedApps, w) :=
    match appRestartHistory w !! appName with
    | Some prevRestarts =>
      if bool_decide (prevRestarts < totalRestarts) then
        let w := sendSlackNotification appName "Process Restart Detected"
                   (restart_message appName) "warning" w in
        ({[appName]} ∪ restartedApps, startPollingAppStatus appName w)
      else (restartedApps, w)
    | None => (restartedApps, w)
    end in
  (restartedApps,
   with_history (<[appName := totalRestarts]> (appRestartHistory w)) w).

Definition detectAndHandleRestarts (processes : list Proc) (w : World)
    : gset string * World :=
  foldl detect_entry (∅, w) (currentRestartsByApp processes).

(** ** Stabilization polling *)

Definition with_poller (i : nat) (p : Poller) (w : World) : World :=
  with_pollers (<[i := p]> (pollers w)) w.

Definition is_online (p : Proc) : bool := String.eqb (status p) "online".

(** The [catch] of the timer callback. *)
Definition poll_catch (i : nat) (appName : string) (attempts : Z)
    (message : string) (w : World) : World :=
  let w := emit (ClearInterval i) w in
  let w := with_poller i {| p_appName := appName; p_attempts := attempts;
                            p_phase := Errored |} w in
  let w := emit (Console ERROR ("[Error] Polling for '" +:+ appName +:+
                                "' failed: " +:+ message)) w in
  sendSlackNotification appName
    ("Status Polling Error for '" +:+ appName +:+ "'") message "danger" w.

(** [processes.filter(p => p.name === appName)] *)
Definition appInstances_of (appName : string) (processes : list Proc)
    : list Proc :=
  filter (fun p => name p = appName) processes.

(** [appInstances.length > 0 && appInstances.every(p => p.status === 'online')] *)
Definition isAllOnline (appInstances : list Proc) : bool :=
  bool_decide (0 < length appInstances)%nat && forallb is_online appInstances.

(** The message of the 'Restart Successful' notification. *)
Definition success_message (appName : string) (first : Proc) : string :=
  "App '" +:+ appName +:+ "' successfully restarted and is now 'online'." +:+
  nl +:+ "(CPU: " +:+ num_to_string (cpu first) +:+ "%, Memory: " +:+
  num_to_string (memory first) +:+ "MB)".

(** The message of the 'Restart Failed' notification. *)
Definition failure_reason (appInstances : list Proc) : string :=
  if bool_decide (0 < length appInstances)%nat then
    "Current status:" +:+ nl +:+ "- " +:+
    join (nl +:+ "- ")
         (map (fun p => "ID " +:+ num_to_string (inject_Z (pm_id p)) +:+
                        ": " +:+ status p) appInstances)
  else "Could not find process.".

Definition failure_message (appName : string) (appInstances : list Proc)
    : string :=
  "App '" +:+ appName +:+
  "' failed to become 'online' within the time limit." +:+ nl +:+
  failure_reason appInstances.

(** One firing of the interval timer with index [i] whose
    [getPm2Processes] call is answered, by [f], before the timer fires
    again: the callback from its first line to its last.  A cleared timer no
    longer fires.  The two halves of the callback, which the source lets
    overlap when the answer is late, are [timer_fire] and [fetch_answer]
    below. *)
Definition interval_tick (i : nat) (f : Fetch) (w : World) : World :=
  match pollers w !! i with
  | Some {| p_appName := appName; p_attempts := attempts0; p_phase := Polling |} =>
    let attempts := attempts0 + 1 in
    let w := with_poller i {| p_appName := appName; p_attempts := attempts;
                              p_phase := Polling |} w in
    let w := emit (Console LOG ("[Polling] Checking status for '" +:+ appName
               +:+ "'... (" +:+ num_to_string (inject_Z attempts) +:+ "/" +:+
               num_to_string (inject_Z (RECHECK_MAX_ATTEMPTS cfg)) +:+ ")")) w in
    let w := emit (Sample i) w in
    match f with
    | FetchErr message => poll_catch i appName attempts message w
    | FetchOk processes =>
      let appInstances := appInstances_of appName processes in
      if isAllOnline appInstances then
        let w := emit (ClearInterval i) w in
        let w := with_poller i {| p_appName := appName; p_attempts := attempts;
                                  p_phase := Stabilized |} w in
        match head appInstances with
        | None =>
          poll_catch i appName attempts
            "Cannot destructure property 'cpu' of 'appInstances[0]' as it is undefined." w
        | Some first =>
          let w := emit (Console LOG ("[Success] App '" +:+ appName +:+
                     "' has stabilized with 'online' status.")) w in
          sendSlackNotification appName "Restart Successful"
                                (success_message appName first) "good" w
        end
      else if bool_decide (RECHECK_MAX_ATTEMPTS cfg <= attempts) then
        let w := emit (ClearInterval i) w in
        let w := with_poller i {| p_appName := appName; p_attempts := attempts;
                                  p_phase := Failed |} w in
        let w := emit (Console ERROR ("[Failure] App '" +:+ appName +:+
                   "' did not stabilize within the time limit.")) w in
        sendSlackNotification appName "Restart Failed"
                              (failure_message appName appInstances) "danger" w
      else w
    end
  | _ => w
  end.

(** The timer with index [i] fires once for every answer in [fs]. *)
Definition run_ticks (i : nat) (fs : list Fetch) (w : World) : World :=
  foldl (fun w f => interval_tick i f w) w fs.

(** The timer callback up to its [await]: a live timer fires, [attempts++],
    the log line, and the call of [getPm2Processes].  A cleared timer does
    not fire. *)
Definition timer_fire (i : nat) (w : World) : World :=
  match pollers w !! i with
  | Some {| p_appName := appName; p_attempts := attempts0; p_phase := Polling |} =>
    let attempts := attempts0 + 1 in
    let w := with_poller i {| p_appName := appName; p_attempts := attempts;
                              p_phase := Polling |} w in
    let w := emit (Console LOG ("[Polling] Checking status for '" +:+ appName
               +:+ "'... (" +:+ num_to_string (inject_Z attempts) +:+ "/" +:+
               num_to_string (inject_Z (RECHECK_MAX_ATTEMPTS cfg)) +:+ ")")) w in
    emit (Sample i) w
  | _ => w
  end.

(** The timer callback after its [await], with the answer [f].  It reads
    [attempts] as it stands when the answer arrives: the variable is shared
    by all the callbacks of the timer, and firings that came in between have
    counted it up.  A callback that was pending when the timer was cleared
    still runs. *)
Definition fetch_answer (i : nat) (f : Fetch) (w : World) : World :=
  match pollers w !! i with
  | Some {| p_appName := appName; p_attempts := attempts |} =>
    match f with
    | FetchErr message => poll_catch i appName attempts message w
    | FetchOk processes =>
      let appInstances := appInstances_of appName processes in
      if isAllOnline appInstances then
        let w := emit (ClearInterval i) w in
        let w := with_poller i {| p_appName := appName; p_attempts := attempts;
                                  p_phase := Stabilized |} w in
        match head appInstances with
        | None =>
          poll_catch i appName attempts
            "Cannot destructure property 'cpu' of 'appInstances[0]' as it is undefined." w
        | Some first =>
          let w := emit (Console LOG ("[Success] App '" +:+ appName +:+
                     "' has stabilized with 'online' status.")) w in
          sendSlackNotification appName "Restart Successful"
                                (success_message appName first) "good" w
        end
      else if bool_decide (RECHECK_MAX_ATTEMPTS cfg <= attempts) then
        let w := emit (ClearInterval i) w in
        let w := with_poller i {| p_appName := appName; p_attempts := attempts;
                                  p_phase := Failed |} w in
        let w := emit (Console ERROR ("[Failure] App '" +:+ appName +:+
                   "' did not stabilize within the time limit.")) w in
        sendSlackNotification appName "Restart Failed"
                              (failure_message appName appInstances) "danger" w
      else w
    end
  | None => w
  end.

(** The timer with index [i] fires [k] times in a row, no answer arriving
    in between. *)
Definition fires (k : nat) (i : nat) (w : World) : World :=
  Nat.iter k (timer_fire i) w.

(** ** Threshold evaluation *)

(** The three notifications of [checkStableProcesses]. *)
Definition status_alert (proc : Proc) : string * string * string * string :=
  (name proc, "Process Status Alert",
   "Instance " +:+ backtick +:+ num_to_string (inject_Z (pm_id proc)) +:+
   backtick +:+ " has a status of " +:+ backtick +:+ status proc +:+
   backtick +:+ ".", "danger").

Definition cpu_alert (proc : Proc) : string * string * string * string :=
  (name proc, "High CPU Usage",
   "Instance " +:+ backtick +:+ num_to_string (inject_Z (pm_id proc)) +:+
   backtick +:+ " is using " +:+ backtick +:+ num_to_string (cpu proc) +:+
   "%" +:+ backtick +:+ " CPU.", "warning").

Definition memory_alert (proc : Proc) : string * string * string * string :=
  (name proc, "High Memory Usage",
   "Instance " +:+ backtick +:+ num_to_string (inject_Z (pm_id proc)) +:+
   backtick +:+ " is using " +:+ backtick +:+ num_to_string (memory proc) +:+
   "MB" +:+ backtick +:+ " of memory.", "warning").

Definition send_alert (n : string * string * string * string) (w : World)
    : World :=
  let '(appName, title, message, color) := n in
  sendSlackNotification appName title message color w.

(** The body of the loop of [checkStableProcesses] after the [continue]. *)
Definition check_proc (proc : Proc) (w : World) : World :=
  let w := emit (Evaluate proc) w in
  let w := emit (Console LOG ("[Check] " +:+ name proc +:+ "(" +:+
             num_to_string (inject_Z (pm_id proc)) +:+ "): Status(" +:+
             status proc +:+ "), CPU(" +:+ num_to_string (cpu proc) +:+
             "%), Memory(" +:+ num_to_string (memory proc) +:+ "MB)")) w in
  if negb (String.eqb (status proc) "online") then
    send_alert (status_alert proc) w
  else
    let w := if Qltb (THRESHOLDS_CPU cfg) (cpu proc)
             then send_alert (cpu_alert proc) w else w in
    if Qltb (THRESHOLDS_MEMORY cfg) (memory proc)
    then send_alert (memory_alert proc) w else w.

Definition checkStableProcesses (processes : list Proc)
    (restartedApps : gset string) (w : World) : World :=
  foldl (fun w proc =>
           if bool_decide (name proc ∈ restartedApps) then w
           else check_proc proc w)
        w processes.

(** ** Status history *)

(** What [fs.readFile] followed by [JSON.parse] gives: the stored array, or
    an error with its [code] (absent for a parse error).  A file that parses
    is taken to hold an array of entries, which is all this script writes. *)
Inductive ReadResult :=
| ReadOk (history : list HistoryEntry)
| ReadError (code : option string) (message : string).

(** The file answers with its content, with [ENOENT] when it does not exist,
    or with the fault the environment injects. *)
Definition readHistory (fault : option (option string * string)) (w : World)
    : ReadResult :=
  match fault with
  | Some (code, message) => ReadError code message
  | None =>
    match statusFile w with
    | Some h => ReadOk h
    | None => ReadError (Some "ENOENT") "ENOENT: no such file or directory"
    end
  end.

(** [logStatusToFile]; [writeFault] is the error of [fs.writeFile], if any.
    It stands for a failure to open the file for writing, which leaves the
    file as it is; what is left of a file that was truncated before the
    error is not modelled. *)
Definition logStatusToFile (readFault : option (option string * string))
    (writeFault : option string) (processes : list Proc) (w : World)
    : Completion * World :=
  let '(history, w) :=
    match readHistory readFault w with
    | ReadOk h => (h, w)
    | ReadError code message =>
      ([], if bool_decide (code ≠ Some "ENOENT") then
             emit (Console ERROR
                     ("[Error] Failed to read status history file: " +:+
                      message)) w
           else w)
    end in
  let history := {| h_timestamp := toLocaleString (clock w);
                    h_processes := processes |} :: history in
  let prunedHistory := slice0 history (MAX_HISTORY cfg) in
  match writeFault with
  | None => (Fulfilled, with_statusFile (Some prunedHistory) w)
  | Some message => (Rejected message, w)
  end.

(** ** The engine *)

(** The [catch] of [monitorProcesses]. *)
Definition cycle_catch (message : string) (w : World) : World :=
  let w := emit (Console ERROR ("[Error] Failed to run monitoring cycle: " +:+
                                message)) w in
  sendSlackNotification "PM2 Monitor" "Monitoring Script Error" message
                        "danger" w.

(** [monitorProcesses], with the answers of the environment to its awaits.
    The stages of one cycle follow each other without another action in
    between, and the clock is read as it stands when the cycle starts. *)
Definition monitorProcesses (fetch : Fetch)
    (readFault : option (option string * string)) (writeFault : option string)
    (w : World) : World :=
  match fetch with
  | FetchErr message => cycle_catch message w
  | FetchOk processes =>
    let '(restartedApps, w) := detectAndHandleRestarts processes w in
    let w := checkStableProcesses processes restartedApps w in
    if WEB_SERVER_ENABLED cfg then
      match logStatusToFile readFault writeFault processes w with
      | (Fulfilled, w) => w
      | (Rejected message, w) => cycle_catch message w
      end
    else w
  end.

(** The loop of [initialize] that seeds [appRestartHistory]. *)
Definition seed_history (initialProcesses : list Proc) (w : World) : World :=
  foldl (fun w proc =>
           let count := default 0 (appRestartHistory w !! name proc) in
           with_history (<[name proc := count + restarts proc]>
                           (appRestartHistory w)) w)
        w initialProcesses.

(** [initialize] from the first [getPm2Processes] on: seed, log, run the
    first cycle. *)
Definition initialize (initialProcesses : list Proc) (fetch : Fetch)
    (readFault : option (option string * string)) (writeFault : option string)
    (w : World) : World :=
  let w := seed_history initialProcesses w in
  let w := emit (Console LOG "📦 Initial process state has been recorded.") w in
  let w := emit (Console LOG
                   "🚀 Running the first monitoring check immediately...") w in
  monitorProcesses fetch readFault writeFault w.

(** ** The event loop *)

(** What can happen next: the clock moves, the cron trigger fires and a cycle
    runs, an interval timer fires, a pending delivery is answered. *)
Inductive Action :=
| Advance (t : Z)
| Cycle (fetch : Fetch) (readFault : option (option string * string))
        (writeFault : option string)
| Tick (i : nat) (f : Fetch)
| Settle (i : nat) (r : PostResult).

Definition act (a : Action) (w : World) : World :=
  match a with
  | Advance t => with_clock t w
  | Cycle fetch readFault writeFault =>
    monitorProcesses fetch readFault writeFault w
  | Tick i f => interval_tick i f w
  | Settle i r => (settle i r w).2
  end.

(** ** Scenarios and the words of the specification *)

(** Two notification attempts for one subject and title: the first at the
    clock of [w]; its delivery answered by [r], or still pending when [r] is
    [None]; the second at time [t2]. *)
Definition two_attempts (appName title m1 c1 m2 c2 : string)
    (r : option PostResult) (t2 : Z) (w : World) : World :=
  let w1 := sendSlackNotification appName title m1 c1 w in
  let w2 := match r with
            | Some r => (settle (length (inflight w)) r w1).2
            | None => w1
            end in
  sendSlackNotification appName title m2 c2 (with_clock t2 w2).

(** The test of the second loop of [detectAndHandleRestarts] for the name
    [n], against the history [h] and the current totals [m]. *)
Definition restart_seen (h : gmap string Z) (n : string)
    (m : list (string * Z)) : bool :=
  match Map_get n m, h !! n with
  | Some totalRestarts, Some prevRestarts =>
    bool_decide (prevRestarts < totalRestarts)
  | _, _ => false
  end.

(** The entry [logStatusToFile] prepends at time [t]. *)
Definition entry_at (t : Z) (processes : list Proc) : HistoryEntry :=
  {| h_timestamp := toLocaleString t; h_processes := processes |}.

(** Appends without faults, one per [(time, snapshot)], oldest first. *)
Definition log_many (snaps : list (Z * list Proc)) (w : World) : World :=
  foldl (fun w s => (logStatusToFile None None s.2 (with_clock s.1 w)).2)
        w snaps.

(** The transition rule of the stabilization poller in the words of the
    specification, for the sample that makes the attempt counter [attempts]:
    a fault ends in [Errored] with an error notification; a sample with at
    least one instance, all of them online, ends in [Stabilized] with a
    success notification that carries the CPU and memory of the first
    instance; otherwise an exhausted budget ends in [Failed] with a failure
    notification; otherwise polling goes on. *)
Definition poll_rule (appName : string) (attempts : Z) (f : Fetch)
    : Phase * list (string * string * string * string) :=
  match f with
  | FetchErr message =>
    (Errored,
     [(appName, "Status Polling Error for '" +:+ appName +:+ "'", message,
       "danger")])
  | FetchOk processes =>
    let failed :=
      if bool_decide (RECHECK_MAX_ATTEMPTS cfg <= attempts) then
        (Failed,
         [(appName, "Restart Failed",
           failure_message appName (appInstances_of appName processes),
           "danger")])
      else (Polling, []) in
    match appInstances_of appName processes with
    | first :: rest =>
      if forallb is_online (first :: rest) then
        (Stabilized,
         [(appName, "Restart Successful", success_message appName first,
           "good")])
      else failed
    | [] => failed
    end
  end.

(** The alerts the threshold evaluator owes one record, in the words of the
    specification: a status alert when the status is not online, otherwise a
    CPU warning when the CPU is above its ceiling and, independently, a
    memory warning when the memory is above its ceiling. *)
Definition expected_alerts (proc : Proc)
    : list (string * string * string * string) :=
  if decide (status proc = "online") then
    (if Qlt_le_dec (THRESHOLDS_CPU cfg) (cpu proc)
     then [cpu_alert proc] else []) ++
    (if Qlt_le_dec (THRESHOLDS_MEMORY cfg) (memory proc)
     then [memory_alert proc] else [])
  else [status_alert proc].

End Monitor.

(** ** The snapshot source *)

(** An element of the array that [pm2 jlist] prints, as far as
    [getPm2Processes] reads it.  A field that may be absent is an option; a
    number that may be absent or zero falls back to zero under [|| 0]. *)
Record RawEnv := {
  env_status : string;
  env_restart_time : option Z;
}.

Record RawMonit := {
  monit_cpu : option Q;
  monit_memory : option Q;
}.

Record RawProc := {
  raw_pm_id : Z;
  raw_name : string;
  raw_pm2_env : option RawEnv;
  raw_monit : option RawMonit;
}.

(** What [exec('pm2 jlist')] and [JSON.parse] make of one call: the command
    fails, prints nothing, prints something that is not a JSON array, or
    prints an array. *)
Inductive PmOutput :=
| ExecError (message : string)
| EmptyStdout
| Malformed (message : string)
| Records (parsed : list RawProc).

(** [CONFIG.EXCLUDED_APPS] and [CONFIG.CRON_SCHEDULE] as written in the
    source. *)
Definition EXCLUDED_APPS : list string := ["pm2-monitor"; "pm2-logrotate"].
Definition CRON_SCHEDULE : string := "*/1 8-19 * * 1-5".

Definition dquote : string := String (Ascii.ascii_of_nat 34) EmptyString.

(** What the status server answers. *)
Inductive Body :=
| FileContent (data : list HistoryEntry)
| Text (s : string).

Record Response := {
  res_status : Z;
  res_content_type : string;
  res_body : Body;
}.

(** How [initialize] ends: [process.exit], an unhandled rejection, or the
    script scheduled and running. *)
Inductive Startup :=
| Exited (code : Z)
| Crashed (reason : string)
| Running.

Section Script.

Variable num_to_string : Q -> string.
Variable toLocaleString : Z -> string.
Variable cfg : Config.

(** [CONFIG.EXCLUDED_APPS], and the host arithmetic
    [parseFloat((bytes / 1024 / 1024).toFixed(2))]. *)
Variable excluded : list string.
Variable megabytes : Q -> Q.

(** The callback of [.map] in [getPm2Processes]: reading a property of an
    absent [pm2_env] or [monit] throws. *)
Definition normalize (r : RawProc) : string + Proc :=
  match raw_pm2_env r with
  | None => inl "Cannot read properties of undefined (reading 'status')"
  | Some pm2_env =>
    match raw_monit r with
    | None => inl "Cannot read properties of undefined (reading 'cpu')"
    | Some monit =>
      inr {| pm_id := raw_pm_id r; name := raw_name r;
             status := env_status pm2_env;
             restarts := default 0 (env_restart_time pm2_env);
             cpu := default (0 # 1) (monit_cpu monit);
             memory := match monit_memory monit with
                       | Some bytes => megabytes bytes
                       | None => 0 # 1
                       end |}
    end
  end.

(** [.map] with a callback that may throw: the first throw ends it. *)
Fixpoint map_records (l : list RawProc) : string + list Proc :=
  match l with
  | [] => inr []
  | r :: l' =>
    match normalize r with
    | inl message => inl message
    | inr p =>
      match map_records l' with
      | inl message => inl message
      | inr ps => inr (p :: ps)
      end
    end
  end.

Definition getPm2Processes (out : PmOutput) : Fetch :=
  match out with
  | ExecError message => FetchErr message
  | EmptyStdout => FetchOk []
  | Malformed message => FetchErr message
  | Records parsed =>
    match map_records (filter (fun r => raw_name r ∉ excluded) parsed) with
    | inl message => FetchErr message
    | inr ps => FetchOk ps
    end
  end.

(** The request handler of [startWebServer]; [readFault] is the error of
    [fs.readFile], if the environment injects one. *)
Definition handle_request (url : string)
    (readFault : option (option string * string)) (w : World) : Response :=
  if String.eqb url "/status" then
    match readHistory readFault w with
    | ReadOk data =>
      {| res_status := 200; res_content_type := "application/json";
         res_body := FileContent data |}
    | ReadError _ _ =>
      {| res_status := 500; res_content_type := "application/json";
         res_body := Text ("{" +:+ dquote +:+ "error" +:+ dquote +:+ ":" +:+
                           dquote +:+ "Could not read status file." +:+
                           dquote +:+ "}") |}
    end
  else
    {| res_status := 404; res_content_type := "text/plain";
       res_body := Text "Not Found" |}.

(** [!url || !url.startsWith('https://hooks.slack.com/')], negated. *)
Definition valid_webhook (url : option string) : bool :=
  match url with
  | None => false
  | Some u =>
    negb (String.eqb u "") && String.prefix "https://hooks.slack.com/" u
  end.

(** [initialize] as a whole, with the environment variable, the port the
    server listens on, and the answers of [pm2 jlist] to the initial and to
    the first-cycle call.  The line that [listen] logs is put where the
    server is started. *)
Definition start_script (url : option string) (port : string)
    (out0 out1 : PmOutput) (readFault : option (option string * string))
    (writeFault : option string) (w : World) : Startup * World :=
  let w := emit (Console LOG "✅ Starting PM2 monitoring script.") w in
  if negb (valid_webhook url) then
    (Exited 1,
     emit (Console ERROR
             "❌ Fatal Error: SLACK_WEBHOOK_URL environment variable is not valid. Exiting.")
          w)
  else
    let w := emit (Console LOG ("- Schedule: " +:+ CRON_SCHEDULE)) w in
    let joined := join ", " excluded in
    let w := emit (Console LOG ("- Excluded Apps: " +:+
                                (if String.eqb joined "" then "None"
                                 else joined))) w in
    let w := if WEB_SERVER_ENABLED cfg then
               emit (Console LOG
                       ("[Info] Status server is running at http://localhost:"
                        +:+ port +:+ "/status")) w
             else w in
    match getPm2Processes out0 with
    | FetchErr message => (Crashed message, w)
    | FetchOk initialProcesses =>
      (Running,
       initialize num_to_string toLocaleString cfg initialProcesses
                  (getPm2Processes out1) readFault writeFault w)
    end.

(** ** Runs of the event loop *)

Definition run (acts : list Action) (w : World) : World :=
  foldl (fun w a => act num_to_string toLocaleString cfg a w) w acts.

(** Along the run the clock is never set back. *)
Fixpoint clock_forward (acts : list Action) (w : World) : Prop :=
  match acts with
  | [] => True
  | a :: rest =>
    match a with
    | Advance t => clock w <= t
    | _ => True
    end /\ clock_forward rest (act num_to_string toLocaleString cfg a w)
  end.

(** No recorded or pending delivery is dated later than the clock. *)
Definition timely (w : World) : Prop :=
  (forall key last, notificationThrottleCache w !! key = Some last ->
                    last <= clock w) /\
  Forall (fun s => s_now s <= clock w) (inflight w).

(** Repeated notification attempts for one subject and title, each with its
    time, message and colour. *)
Definition burst (appName title : string) (tries : list (Z * string * string))
    (w : World) : World :=
  foldl (fun w x =>
           sendSlackNotification toLocaleString cfg appName title x.1.2 x.2
                                 (with_clock x.1.1 w))
        w tries.

(** The 'Process Restart Detected' notifications of one cycle, in the words
    of the source: one for every name of the current totals, in their order,
    whose total is above the stored one. *)
Definition restart_notices (h : gmap string Z) (m : list (string * Z))
    : list (string * string * string * string) :=
  map (fun k => (k, "Process Restart Detected",
                 restart_message num_to_string cfg k, "warning"))
      (filter (fun k => restart_seen h k m = true) (map fst m)).

End Script.

(** ** Data of the worked examples *)

Definition api (id : Z) (st : string) (r : Z) : Proc :=
  {| pm_id := id; name := "api"; status := st; restarts := r;
     cpu := 12 # 1; memory := 180 # 1 |}.

Definition worker : Proc :=
  {| pm_id := 2; name := "worker"; status := "online"; restarts := 0;
     cpu := 85 # 1; memory := 300 # 1 |}.

(** The script at time 1000, having seen three restarts of "api". *)
Definition seeded : World := with_history {[ "api" := 3 ]} (boot 1000).

(** The script at time 0 with one stabilization timer, for "api". *)
Definition polling : World := startPollingAppStatus "api" (boot 0).

(** A listing with the monitor itself, which is excluded and here lacks its
    [monit], and one instance of "api". *)
Definition listing : list RawProc :=
  [{| raw_pm_id := 7; raw_name := "pm2-monitor";
      raw_pm2_env := Some {| env_status := "online";
                             env_restart_time := Some 4 |};
      raw_monit := None |};
   {| raw_pm_id := 0; raw_name := "api";
      raw_pm2_env := Some {| env_status := "online";
                             env_restart_time := None |};
      raw_monit := Some {| monit_cpu := Some (12 # 1);
                           monit_memory := Some (188743680 # 1) |} |}].

(** Bytes to megabytes for the worked examples: the exact quotient (the
    script rounds it to two decimals). *)
Definition megabytes_exact (bytes : Q) : Q := Qred (bytes / (1048576 # 1)).

(** The configuration of the source with room for two history entries. *)
Definition short_history : Config :=
  {| THRESHOLDS_CPU := THRESHOLDS_CPU CONFIG;
     THRESHOLDS_MEMORY := THRESHOLDS_MEMORY CONFIG;
     THROTTLE_DURATION_MS := THROTTLE_DURATION_MS CONFIG;
     RECHECK_INTERVAL_MS := RECHECK_INTERVAL_MS CONFIG;
     RECHECK_MAX_ATTEMPTS := RECHECK_MAX_ATTEMPTS CONFIG;
     WEB_SERVER_ENABLED := WEB_SERVER_ENABLED CONFIG;
     MAX_HISTORY := 2 |}.

(** The configuration of the source with a budget of no attempt at all. *)
Definition no_retry : Config :=
  {| THRESHOLDS_CPU := THRESHOLDS_CPU CONFIG;
     THRESHOLDS_MEMORY := THRESHOLDS_MEMORY CONFIG;
     THROTTLE_DURATION_MS := THROTTLE_DURATION_MS CONFIG;
     RECHECK_INTERVAL_MS := RECHECK_INTERVAL_MS CONFIG;
     RECHECK_MAX_ATTEMPTS := 0;
     WEB_SERVER_ENABLED := WEB_SERVER_ENABLED CONFIG;
     MAX_HISTORY := MAX_HISTORY CONFIG |}.

Arguments send_events : simpl never.
Arguments sendSlackNotification : simpl never.

(** A rendering of numbers and of dates for the worked examples: integers in
    decimal, as JavaScript prints them; other rationals as a fraction. *)
Definition render_num (q : Q) : string :=
  let q := Qred q in
  if decide (Qden q = 1%positive) then pretty (Qnum q)
  else pretty (Qnum q) +:+ "/" +:+ pretty (Zpos (Qden q)).
Definition render_time (t : Z) : string := "t+" +:+ pretty t.


Lemma count_events_app f tr1 tr2 :
  count_events f (tr1 ++ tr2) = (count_events f tr1 + count_events f tr2)%nat.
Proof. induction tr1 as [|e tr1 IH]; simpl; [done | rewrite IH; lia]. Qed.

Lemma Qltb_lt a b : Qltb a b = true <-> (a < b)%Q.
Proof. unfold Qltb, Qlt. apply Z.ltb_lt. Qed.

(** ** Facts about notifications *)

Section Facts.

Variable num_to_string : Q -> string.
Variable toLocaleString : Z -> string.
Variable cfg : Config.

Local Abbreviation send := (sendSlackNotification toLocaleString cfg).
Local Abbreviation send_events := (send_events toLocaleString cfg).
Local Abbreviation throttled := (throttled cfg).
Local Abbreviation log_many := (log_many toLocaleString cfg).
Local Abbreviation entry_at := (entry_at toLocaleString).
Local Abbreviation restart_message := (restart_message num_to_string cfg).
Local Abbreviation two_attempts := (two_attempts toLocaleString cfg).
Local Abbreviation detect_entry := (detect_entry num_to_string toLocaleString cfg).
Local Abbreviation detectAndHandleRestarts :=
  (detectAndHandleRestarts num_to_string toLocaleString cfg).
Local Abbreviation interval_tick := (interval_tick num_to_string toLocaleString cfg).
Local Abbreviation run_ticks := (run_ticks num_to_string toLocaleString cfg).
Local Abbreviation check_proc := (check_proc num_to_string toLocaleString cfg).
Local Abbreviation checkStableProcesses :=
  (checkStableProcesses num_to_string toLocaleString cfg).
Local Abbreviation logStatusToFile := (logStatusToFile toLocaleString cfg).
Local Abbreviation monitorProcesses :=
  (monitorProcesses num_to_string toLocaleString cfg).
Local Abbreviation initialize := (initialize num_to_string toLocaleString cfg).
Local Abbreviation act := (act num_to_string toLocaleString cfg).
Local Abbreviation expected_alerts := (expected_alerts num_to_string cfg).
Local Abbreviation cycle_catch := (cycle_catch toLocaleString cfg).
Local Abbreviation poll_rule := (poll_rule num_to_string cfg).
Local Abbreviation timer_fire := (timer_fire num_to_string cfg).
Local Abbreviation fetch_answer := (fetch_answer num_to_string toLocaleString cfg).
Local Abbreviation failure_message := (failure_message num_to_string).
Local Abbreviation success_message := (success_message num_to_string).

Lemma send_trace a t m c w :
  trace (send a t m c w) = trace w ++ send_events a t m c w.
Proof.
  unfold sendSlackNotification, send_events, throttled, createSlackPayload.
  simpl. destruct (notificationThrottleCache w !! throttle_key a t) as [last|];
    [destruct (bool_decide _)|]; simpl; rewrite <- ?app_assoc; done.
Qed.

Lemma send_frame a t m c w :
  appRestartHistory (send a t m c w) = appRestartHistory w /\
  notificationThrottleCache (send a t m c w) = notificationThrottleCache w /\
  clock (send a t m c w) = clock w /\
  pollers (send a t m c w) = pollers w /\
  statusFile (send a t m c w) = statusFile w.
Proof.
  unfold sendSlackNotification.
  destruct (throttled _ _ _); simpl; done.
Qed.

Lemma send_hist a t m c w :
  appRestartHistory (send a t m c w) = appRestartHistory w.
Proof. apply send_frame. Qed.

Lemma send_cache a t m c w :
  notificationThrottleCache (send a t m c w) = notificationThrottleCache w.
Proof. apply send_frame. Qed.

Lemma send_clock a t m c w : clock (send a t m c w) = clock w.
Proof. apply send_frame. Qed.

Lemma send_pollers a t m c w : pollers (send a t m c w) = pollers w.
Proof. apply send_frame. Qed.

Lemma send_file a t m c w : statusFile (send a t m c w) = statusFile w.
Proof. apply send_frame. Qed.

Ltac frame :=
  repeat first
    [ rewrite send_hist | rewrite send_cache | rewrite send_clock
    | rewrite send_pollers | rewrite send_file | progress simpl ].

Lemma send_inflight a t m c w :
  inflight (send a t m c w) =
  inflight w ++ (if throttled (throttle_key a t) (clock w) w then []
                 else [{| s_key := throttle_key a t; s_now := clock w |}]).
Proof.
  unfold sendSlackNotification, throttled. simpl.
  destruct (notificationThrottleCache w !! throttle_key a t) as [last|];
    [destruct (bool_decide _)|]; simpl; rewrite ?app_nil_r; done.
Qed.

Lemma send_events_attempts a t m c w a' t' :
  attempts_of a' t' (send_events a t m c w) =
  if bool_decide (a' = a /\ t' = t) then 1%nat else 0%nat.
Proof.
  unfold attempts_of, send_events. simpl.
  replace (count_events (is_notify a' t') _) with 0%nat
    by (destruct (throttled _ _ _); done).
  repeat case_bool_decide; simpl; try done; destruct_and?; subst; intuition.
Qed.

Lemma send_events_posts a t m c w k :
  posts_of k (send_events a t m c w) =
  if throttled (throttle_key a t) (clock w) w then 0%nat
  else if bool_decide (throttle_key a t = k) then 1%nat else 0%nat.
Proof.
  unfold posts_of, send_events. simpl.
  destruct (throttled _ _ _); simpl; [done|]. case_bool_decide; done.
Qed.

Lemma send_events_timers a t m c w n :
  timers_of n (send_events a t m c w) = 0%nat.
Proof. unfold timers_of, send_events. destruct (throttled _ _ _); done. Qed.

Lemma send_events_samples a t m c w i :
  samples_of i (send_events a t m c w) = 0%nat.
Proof. unfold samples_of, send_events. destruct (throttled _ _ _); done. Qed.

Lemma send_events_evaluated a t m c w n :
  evaluated_of n (send_events a t m c w) = 0%nat.
Proof. unfold evaluated_of, send_events. destruct (throttled _ _ _); done. Qed.

Lemma attempts_of_app a t tr1 tr2 :
  attempts_of a t (tr1 ++ tr2) = (attempts_of a t tr1 + attempts_of a t tr2)%nat.
Proof. apply count_events_app. Qed.

Lemma posts_of_app k tr1 tr2 :
  posts_of k (tr1 ++ tr2) = (posts_of k tr1 + posts_of k tr2)%nat.
Proof. apply count_events_app. Qed.

Lemma timers_of_app n tr1 tr2 :
  timers_of n (tr1 ++ tr2) = (timers_of n tr1 + timers_of n tr2)%nat.
Proof. apply count_events_app. Qed.

Lemma samples_of_app i tr1 tr2 :
  samples_of i (tr1 ++ tr2) = (samples_of i tr1 + samples_of i tr2)%nat.
Proof. apply count_events_app. Qed.

Lemma evaluated_of_app n tr1 tr2 :
  evaluated_of n (tr1 ++ tr2) = (evaluated_of n tr1 + evaluated_of n tr2)%nat.
Proof. apply count_events_app. Qed.

Lemma notifications_app tr1 tr2 :
  notifications (tr1 ++ tr2) = notifications tr1 ++ notifications tr2.
Proof. apply omap_app. Qed.

Lemma send_events_notifications a t m c w :
  notifications (send_events a t m c w) = [(a, t, m, c)].
Proof.
  unfold notifications, send_events.
  destruct (throttled _ _ _); done.
Qed.

Ltac tally :=
  repeat first
    [ rewrite send_trace | rewrite attempts_of_app | rewrite posts_of_app
    | rewrite timers_of_app | rewrite samples_of_app
    | rewrite evaluated_of_app | rewrite notifications_app
    | rewrite send_events_attempts | rewrite send_events_posts
    | rewrite send_events_timers | rewrite send_events_samples
    | rewrite send_events_evaluated | rewrite send_events_notifications ].

(** ** Facts about restart detection *)

Lemma Map_get_set k v m k' :
  Map_get k' (Map_set k v m) =
  if decide (k' = k) then Some v else Map_get k' m.
Proof.
  induction m as [|[k0 v0] m IH]; simpl.
  - destruct (decide (k' = k)); done.
  - destruct (decide (k = k0)) as [->|Hne]; simpl.
    + destruct (decide (k' = k0)); done.
    + destruct (decide (k' = k0)) as [->|]; simpl.
      * destruct (decide (k0 = k)); [congruence|done].
      * apply IH.
Qed.

Lemma Map_get_None k m : Map_get k m = None <-> k ∉ map fst m.
Proof.
  induction m as [|[k0 v0] m IH]; simpl.
  - split; [intros _; apply not_elem_of_nil|done].
  - rewrite not_elem_of_cons. destruct (decide (k = k0)) as [->|Hne].
    + split; [done|]. intros [Hk _]. done.
    + rewrite IH. split; [done|]. intros [_ Hk]. done.
Qed.

Lemma Map_set_keys k v m :
  map fst (Map_set k v m) =
  if decide (k ∈ map fst m) then map fst m else map fst m ++ [k].
Proof.
  induction m as [|[k0 v0] m IH]; simpl.
  - destruct (decide (k ∈ [])) as [Hin|]; [by apply elem_of_nil in Hin|done].
  - destruct (decide (k = k0)) as [->|Hne]; simpl.
    + rewrite decide_True; [done|apply list_elem_of_here].
    + rewrite IH. destruct (decide (k ∈ map fst m)) as [Hin|Hnin].
      * rewrite decide_True; [done|by apply list_elem_of_further].
      * rewrite decide_False; [done|]. rewrite not_elem_of_cons. done.
Qed.

Lemma Map_set_NoDup k v m :
  NoDup (map fst m) -> NoDup (map fst (Map_set k v m)).
Proof.
  intros Hnd. rewrite Map_set_keys. destruct (decide _); [done|].
  apply NoDup_app. split_and!; [done| |apply NoDup_singleton].
  intros x Hx Hx'. apply list_elem_of_singleton in Hx'. by subst.
Qed.

Lemma aggregated_snoc n ps p :
  aggregated n (ps ++ [p]) =
  aggregated n ps + (if decide (name p = n) then restarts p else 0).
Proof.
  unfold aggregated. rewrite filter_app, map_app, foldr_app.
  assert (forall (l : list Z) a, foldr Z.add a l = foldr Z.add 0 l + a) as Hsum.
  { induction l as [|x l IH]; intros a; simpl; [lia|rewrite IH; lia]. }
  rewrite Hsum. f_equal.
  rewrite filter_cons, filter_nil. destruct (decide _); simpl; lia.
Qed.

Lemma aggregated_absent n ps : n ∉ map name ps -> aggregated n ps = 0.
Proof.
  unfold aggregated. induction ps as [|p ps IH]; simpl; [done|].
  rewrite not_elem_of_cons. intros [Hne Hnin].
  rewrite filter_cons. rewrite decide_False by congruence. by apply IH.
Qed.

Lemma currentRestartsByApp_snoc ps p :
  currentRestartsByApp (ps ++ [p]) =
  Map_set (name p)
    (default 0 (Map_get (name p) (currentRestartsByApp ps)) + restarts p)
    (currentRestartsByApp ps).
Proof. unfold currentRestartsByApp. by rewrite foldl_app. Qed.

(** The first loop computes, for every name of the snapshot and for no
    other, the sum of the restart counts of its instances. *)
Lemma currentRestartsByApp_get ps n :
  Map_get n (currentRestartsByApp ps) =
  if decide (n ∈ map name ps) then Some (aggregated n ps) else None.
Proof.
  induction ps as [|p ps IH] using rev_ind.
  - destruct (decide _) as [Hin|]; [by apply elem_of_nil in Hin|done].
  - rewrite currentRestartsByApp_snoc, Map_get_set, map_app, aggregated_snoc.
    simpl. destruct (decide (n = name p)) as [->|Hne].
    + rewrite decide_True by (apply elem_of_app; right; apply list_elem_of_here).
      rewrite IH. rewrite (decide_True (P := name p = name p)) by done.
      destruct (decide (name p ∈ map name ps)) as [Hin|Hnin]; simpl; [done|].
      by rewrite aggregated_absent.
    + rewrite IH. rewrite (decide_False (P := name p = n)) by congruence.
      rewrite Z.add_0_r.
      destruct (decide (n ∈ map name ps)) as [Hin|Hnin].
      * rewrite decide_True; [done|apply elem_of_app; by left].
      * rewrite decide_False; [done|].
        rewrite elem_of_app, list_elem_of_singleton. intros [?|?]; done.
Qed.

Lemma currentRestartsByApp_NoDup ps :
  NoDup (map fst (currentRestartsByApp ps)).
Proof.
  induction ps as [|p ps IH] using rev_ind.
  - apply NoDup_nil_2.
  - rewrite currentRestartsByApp_snoc. by apply Map_set_NoDup.
Qed.

Lemma detect_entry_spec R w k v :
  let b := match appRestartHistory w !! k with
           | Some prev => bool_decide (prev < v)
           | None => false
           end in
  (detect_entry (R, w) (k, v)).1 = (if b then {[k]} ∪ R else R) /\
  appRestartHistory (detect_entry (R, w) (k, v)).2 =
    <[k := v]> (appRestartHistory w) /\
  notificationThrottleCache (detect_entry (R, w) (k, v)).2 =
    notificationThrottleCache w /\
  clock (detect_entry (R, w) (k, v)).2 = clock w /\
  statusFile (detect_entry (R, w) (k, v)).2 = statusFile w /\
  pollers (detect_entry (R, w) (k, v)).2 =
    pollers w ++ (if b then [fresh_poller k] else []) /\
  exists evs,
    trace (detect_entry (R, w) (k, v)).2 = trace w ++ evs /\
    (forall a t, attempts_of a t evs =
       if b && bool_decide (a = k /\ t = "Process Restart Detected")
       then 1%nat else 0%nat) /\
    (forall a, timers_of a evs = if b && bool_decide (a = k) then 1%nat else 0%nat) /\
    (forall a, evaluated_of a evs = 0%nat).
Proof.
  unfold detect_entry. simpl.
  destruct (appRestartHistory w !! k) as [prev|] eqn:Hprev; simpl;
    [case_bool_decide; simpl|].
  - destruct (send_frame k "Process Restart Detected" (restart_message k)
                "warning" w) as (Hh & Hc & Hk & Hp & Hf).
    rewrite Hh, Hc, Hk, Hf, Hp. split_and!; try done.
    exists (send_events k "Process Restart Detected" (restart_message k)
              "warning" w ++ [SetInterval k]).
    rewrite send_trace, <- app_assoc. split_and!; [done|..].
    + intros a t. rewrite attempts_of_app, send_events_attempts.
      unfold attempts_of at 1. simpl. lia.
    + intros a. rewrite timers_of_app, send_events_timers. simpl.
      unfold timers_of. simpl. repeat case_bool_decide; simpl; congruence.
    + intros a. rewrite evaluated_of_app, send_events_evaluated. done.
  - split_and!; try done; [by rewrite app_nil_r|].
    exists []. rewrite app_nil_r. done.
  - split_and!; try done; [by rewrite app_nil_r|].
    exists []. rewrite app_nil_r. done.
Qed.

Lemma restart_seen_cons h n k v l :
  restart_seen h n ((k, v) :: l) =
  if decide (n = k) then
    match h !! k with Some prev => bool_decide (prev < v) | None => false end
  else restart_seen h n l.
Proof.
  unfold restart_seen. simpl. destruct (decide (n = k)) as [->|]; done.
Qed.

Lemma restart_seen_insert h n k v l :
  k ∉ map fst l ->
  restart_seen (<[k := v]> h) n l =
  if decide (n = k) then false else restart_seen h n l.
Proof.
  intros Hk. unfold restart_seen. destruct (decide (n = k)) as [->|Hne].
  - apply Map_get_None in Hk. by rewrite Hk.
  - by rewrite lookup_insert_ne.
Qed.

(** The second loop, over entries with distinct names: who is flagged, what
    is stored, and what is emitted. *)
Lemma detect_fold l : forall R w,
  NoDup (map fst l) ->
  (forall n, n ∈ (foldl detect_entry (R, w) l).1 <->
             n ∈ R \/ restart_seen (appRestartHistory w) n l = true) /\
  (forall n, appRestartHistory (foldl detect_entry (R, w) l).2 !! n =
             match Map_get n l with
             | Some v => Some v
             | None => appRestartHistory w !! n
             end) /\
  notificationThrottleCache (foldl detect_entry (R, w) l).2 =
    notificationThrottleCache w /\
  clock (foldl detect_entry (R, w) l).2 = clock w /\
  statusFile (foldl detect_entry (R, w) l).2 = statusFile w /\
  (exists ps, pollers (foldl detect_entry (R, w) l).2 = pollers w ++ ps /\
     forall a, restart_seen (appRestartHistory w) a l = true ->
               fresh_poller a ∈ ps) /\
  exists evs,
    trace (foldl detect_entry (R, w) l).2 = trace w ++ evs /\
    (forall a t, attempts_of a t evs =
       if restart_seen (appRestartHistory w) a l &&
          bool_decide (t = "Process Restart Detected")
       then 1%nat else 0%nat) /\
    (forall a, timers_of a evs =
       if restart_seen (appRestartHistory w) a l then 1%nat else 0%nat) /\
    (forall a, evaluated_of a evs = 0%nat).
Proof.
  induction l as [|[k v] l IH]; intros R w Hnd.
  - simpl. split_and!; try done.
    + intros n. unfold restart_seen. simpl. naive_solver.
    + exists []. rewrite app_nil_r. done.
    + exists []. rewrite app_nil_r. done.
  - simpl in Hnd. apply NoDup_cons in Hnd as [Hk Hnd].
    cbn [foldl].
    destruct (detect_entry_spec R w k v)
      as (HR & Hh & Hc & Hclk & Hf & Hp & evs1 & Ht & Ha1 & Hs1 & He1).
    destruct (detect_entry (R, w) (k, v)) as [R1 w1]. simpl in *.
    destruct (IH R1 w1 Hnd)
      as (HR' & Hh' & Hc' & Hclk' & Hf' & (ps2 & Hp' & Hps2) &
          evs2 & Ht' & Ha2 & Hs2 & He2).
    split_and!.
    + intros n. rewrite HR', restart_seen_cons, Hh, restart_seen_insert by done.
      rewrite HR. destruct (decide (n = k)) as [->|Hne].
      * destruct (match appRestartHistory w !! k with
                  | Some prev => bool_decide (prev < v)
                  | None => false
                  end); set_solver.
      * destruct (match appRestartHistory w !! k with
                  | Some prev => bool_decide (prev < v)
                  | None => false
                  end); set_solver.
    + intros n. rewrite Hh', Hh. destruct (decide (n = k)) as [->|Hne].
      * apply Map_get_None in Hk. rewrite Hk, lookup_insert_eq. done.
      * rewrite lookup_insert_ne by done. done.
    + congruence.
    + congruence.
    + congruence.
    + eexists. rewrite Hp', Hp, <- app_assoc. split; [done|].
      intros a. rewrite restart_seen_cons. rewrite elem_of_app.
      destruct (decide (a = k)) as [->|Hne].
      * intros ->. left. apply list_elem_of_here.
      * intros Ha. right. apply Hps2.
        rewrite Hh, restart_seen_insert by done. by rewrite decide_False.
    + exists (evs1 ++ evs2). rewrite Ht', Ht, <- app_assoc. split_and!; [done|..].
      * intros a t. unfold attempts_of. rewrite count_events_app.
        fold (attempts_of a t evs1). fold (attempts_of a t evs2).
        rewrite Ha1, Ha2, Hh, restart_seen_cons, restart_seen_insert by done.
        destruct (decide (a = k)) as [->|Hne].
        -- destruct (match appRestartHistory w !! k with
                     | Some prev => bool_decide (prev < v)
                     | None => false
                     end); simpl; repeat case_bool_decide; simpl;
             try done; destruct_and?; intuition.
        -- rewrite (bool_decide_eq_false_2 (a = k /\ _)) by intuition.
           rewrite andb_false_r. done.
      * intros a. unfold timers_of. rewrite count_events_app.
        fold (timers_of a evs1). fold (timers_of a evs2).
        rewrite Hs1, Hs2, Hh, restart_seen_cons, restart_seen_insert by done.
        destruct (decide (a = k)) as [->|Hne].
        -- rewrite bool_decide_eq_true_2 by done. rewrite andb_true_r.
           destruct (match appRestartHistory w !! k with
                     | Some prev => bool_decide (prev < v)
                     | None => false
                     end); done.
        -- rewrite (bool_decide_eq_false_2 (a = k)) by done.
           rewrite andb_false_r. done.
      * intros a. unfold evaluated_of. rewrite count_events_app.
        fold (evaluated_of a evs1). fold (evaluated_of a evs2).
        rewrite He1, He2. done.
Qed.

(** ** Facts about the threshold evaluation *)

Lemma Qltb_dec a b : Qltb a b = if Qlt_le_dec a b then true else false.
Proof.
  destruct (Qlt_le_dec a b) as [Hlt|Hle].
  - by apply Qltb_lt.
  - apply not_true_is_false. intros Hlt%Qltb_lt. by apply Qlt_not_le in Hlt.
Qed.

Lemma check_proc_spec p w :
  appRestartHistory (check_proc p w) = appRestartHistory w /\
  notificationThrottleCache (check_proc p w) = notificationThrottleCache w /\
  clock (check_proc p w) = clock w /\
  pollers (check_proc p w) = pollers w /\
  statusFile (check_proc p w) = statusFile w /\
  exists evs,
    trace (check_proc p w) = trace w ++ evs /\
    notifications evs = expected_alerts p /\
    (forall n, timers_of n evs = 0%nat) /\
    (forall n, evaluated_of n evs =
               if bool_decide (name p = n) then 1%nat else 0%nat).
Proof.
  unfold check_proc, expected_alerts, send_alert, status_alert, cpu_alert,
    memory_alert.
  rewrite !Qltb_dec.
  destruct (String.eqb_spec (status p) "online") as [Hon|Hoff]; simpl.
  - rewrite decide_True by done.
    destruct (Qlt_le_dec (THRESHOLDS_CPU cfg) (cpu p)),
             (Qlt_le_dec (THRESHOLDS_MEMORY cfg) (memory p));
      frame; (split_and!; try done);
      eexists; (split; [tally; cbn [trace emit]; rewrite <- !app_assoc;
                        reflexivity|]);
      (split_and!; [tally; done | intros n; tally; done
                   | intros n; tally; unfold evaluated_of; simpl; lia]).
  - rewrite decide_False by done.
    frame; (split_and!; try done).
    eexists; (split; [tally; cbn [trace emit]; rewrite <- !app_assoc;
                      reflexivity|]).
    split_and!; [tally; done | intros n; tally; done
                | intros n; tally; unfold evaluated_of; simpl; lia].
Qed.

Lemma checkStableProcesses_spec ps R : forall w,
  appRestartHistory (checkStableProcesses ps R w) = appRestartHistory w /\
  notificationThrottleCache (checkStableProcesses ps R w) =
    notificationThrottleCache w /\
  clock (checkStableProcesses ps R w) = clock w /\
  pollers (checkStableProcesses ps R w) = pollers w /\
  statusFile (checkStableProcesses ps R w) = statusFile w /\
  exists evs,
    trace (checkStableProcesses ps R w) = trace w ++ evs /\
    notifications evs =
      flat_map expected_alerts (filter (fun p => name p ∉ R) ps) /\
    (forall n, timers_of n evs = 0%nat) /\
    (forall n, evaluated_of n evs =
               if decide (n ∈ R) then 0%nat
               else length (filter (fun p => name p = n) ps)).
Proof.
  unfold checkStableProcesses.
  induction ps as [|p ps IH]; intros w; cbn [foldl].
  - split_and!; try done. exists []. rewrite app_nil_r.
    split_and!; try done. intros n. by destruct (decide _).
  - rewrite !filter_cons.
    destruct (IH (if bool_decide (name p ∈ R) then w else check_proc p w))
      as (Hh & Hc & Hk & Hp & Hf & evs2 & Ht & Hn & Hs & He).
    rewrite Hh, Hc, Hk, Hp, Hf, Ht. clear IH Hh Hc Hk Hp Hf Ht.
    case_bool_decide as HR.
    + rewrite decide_False by tauto. split_and!; try done.
      exists evs2. split_and!; try done.
      intros n. rewrite He. destruct (decide (n ∈ R)) as [HnR|HnR]; [done|].
      rewrite filter_cons, decide_False; [done|]. intros <-. done.
    + rewrite decide_True by done.
      destruct (check_proc_spec p w)
        as (Hh & Hc & Hk & Hp & Hf & evs1 & Ht & Hn1 & Hs1 & He1).
      rewrite Hh, Hc, Hk, Hp, Hf, Ht. split_and!; try done.
      exists (evs1 ++ evs2). rewrite <- app_assoc. split_and!; [done|..].
      * rewrite notifications_app, Hn1, Hn. done.
      * intros n. rewrite timers_of_app, Hs1, Hs. done.
      * intros n. rewrite evaluated_of_app, He1, He.
        destruct (decide (n ∈ R)) as [HnR|HnR].
        -- rewrite bool_decide_eq_false_2; [done|]. intros <-. done.
        -- rewrite filter_cons.
           case_bool_decide; destruct (decide (name p = n)); simpl; done.
Qed.

(** ** Facts about the history file and the cycle *)

Lemma logStatusToFile_spec rf wf ps w :
  appRestartHistory (logStatusToFile rf wf ps w).2 = appRestartHistory w /\
  notificationThrottleCache (logStatusToFile rf wf ps w).2 =
    notificationThrottleCache w /\
  clock (logStatusToFile rf wf ps w).2 = clock w /\
  pollers (logStatusToFile rf wf ps w).2 = pollers w /\
  exists evs,
    trace (logStatusToFile rf wf ps w).2 = trace w ++ evs /\
    notifications evs = [] /\
    (forall n, timers_of n evs = 0%nat) /\
    (forall n, evaluated_of n evs = 0%nat).
Proof.
  unfold logStatusToFile.
  destruct (readHistory rf w) as [h|code message]; [|case_bool_decide];
    destruct wf; simpl; (split_and!; try done);
    first [ by (exists []; rewrite app_nil_r) | by eexists ].
Qed.

Lemma cycle_catch_spec message w :
  appRestartHistory (cycle_catch message w) = appRestartHistory w /\
  notificationThrottleCache (cycle_catch message w) =
    notificationThrottleCache w /\
  clock (cycle_catch message w) = clock w /\
  pollers (cycle_catch message w) = pollers w /\
  statusFile (cycle_catch message w) = statusFile w /\
  exists evs,
    trace (cycle_catch message w) = trace w ++ evs /\
    notifications evs =
      [("PM2 Monitor", "Monitoring Script Error", message, "danger")] /\
    (forall n, timers_of n evs = 0%nat) /\
    (forall n, evaluated_of n evs = 0%nat).
Proof.
  unfold cycle_catch. frame. split_and!; try done.
  eexists. split; [tally; cbn [trace emit]; rewrite <- !app_assoc; reflexivity|].
  split_and!; [tally; done | intros n; tally; done | intros n; tally; done].
Qed.

Lemma attempts_zero a t tr :
  (forall x, x ∈ notifications tr -> x.1.1.1 = a -> x.1.1.2 = t -> False) ->
  attempts_of a t tr = 0%nat.
Proof.
  unfold attempts_of, notifications.
  induction tr as [|e tr IH]; intros Hx; [done|].
  destruct e as [a' t' m' c'| | | | | |]; cbn [count_events is_notify omap] in *;
    try (apply IH; intros x Hin; apply Hx; done).
  rewrite IH.
  - repeat case_bool_decide; simpl; try done. exfalso.
    apply (Hx (a', t', m', c')); [apply list_elem_of_here|done|done].
  - intros x Hin. apply Hx. by apply list_elem_of_further.
Qed.

Lemma expected_alerts_elem p x :
  x ∈ expected_alerts p ->
  x.1.1.1 = name p /\
  (x.1.1.2 = "Process Status Alert" \/ x.1.1.2 = "High CPU Usage" \/
   x.1.1.2 = "High Memory Usage").
Proof.
  unfold expected_alerts.
  destruct (decide (status p = "online")).
  - destruct (Qlt_le_dec _ _), (Qlt_le_dec _ _); simpl;
      rewrite ?elem_of_cons, ?elem_of_nil; intros Hx;
      destruct_or?; subst; simpl; tauto.
  - rewrite list_elem_of_singleton. intros ->. simpl. tauto.
Qed.

Lemma expected_alerts_flat x ps :
  x ∈ flat_map expected_alerts ps ->
  exists p, p ∈ ps /\ x ∈ expected_alerts p.
Proof.
  rewrite list_elem_of_In, in_flat_map. intros (p & Hp & Hx).
  exists p. by rewrite !list_elem_of_In.
Qed.

(** One cycle on a snapshot: what is stored, and what is emitted. *)
Lemma monitorProcesses_spec ps rf wf w :
  (forall n, appRestartHistory (monitorProcesses (FetchOk ps) rf wf w) !! n =
             match Map_get n (currentRestartsByApp ps) with
             | Some v => Some v
             | None => appRestartHistory w !! n
             end) /\
  notificationThrottleCache (monitorProcesses (FetchOk ps) rf wf w) =
    notificationThrottleCache w /\
  clock (monitorProcesses (FetchOk ps) rf wf w) = clock w /\
  (exists qs, pollers (monitorProcesses (FetchOk ps) rf wf w) = pollers w ++ qs /\
     forall a, restart_seen (appRestartHistory w) a (currentRestartsByApp ps)
               = true -> fresh_poller a ∈ qs) /\
  exists evs,
    trace (monitorProcesses (FetchOk ps) rf wf w) = trace w ++ evs /\
    (forall a, attempts_of a "Process Restart Detected" evs =
       if restart_seen (appRestartHistory w) a (currentRestartsByApp ps)
       then 1%nat else 0%nat) /\
    (forall a, timers_of a evs =
       if restart_seen (appRestartHistory w) a (currentRestartsByApp ps)
       then 1%nat else 0%nat) /\
    (forall a, evaluated_of a evs =
       if decide (a ∈ (detectAndHandleRestarts ps w).1) then 0%nat
       else length (filter (fun p => name p = a) ps)) /\
    (forall a t, a ∈ (detectAndHandleRestarts ps w).1 ->
       t = "Process Status Alert" \/ t = "High CPU Usage" \/
       t = "High Memory Usage" ->
       attempts_of a t evs = 0%nat).
Proof.
  unfold monitorProcesses, detectAndHandleRestarts.
  destruct (detect_fold (currentRestartsByApp ps) ∅ w
              (currentRestartsByApp_NoDup ps))
    as (HR & Hh & Hc & Hk & Hf & Hq & evs1 & Ht1 & Ha1 & Hs1 & He1).
  destruct (foldl detect_entry (∅, w) (currentRestartsByApp ps)) as [R1 w1].
  simpl in HR, Hh, Hc, Hk, Hf, Hq, Ht1 |- *.
  destruct (checkStableProcesses_spec ps R1 w1)
    as (Hh2 & Hc2 & Hk2 & Hp2 & Hf2 & evs2 & Ht2 & Hn2 & Hs2 & He2).
  assert (forall a t, attempts_of a t evs2 =
            if bool_decide (a ∈ R1 \/ t = "Process Restart Detected")
            then 0%nat else attempts_of a t evs2) as Ha2.
  { intros a t. case_bool_decide as Hcase; [|done].
    apply attempts_zero. intros x Hx Hxa Hxt. rewrite Hn2 in Hx.
    apply expected_alerts_flat in Hx as (p & Hp & Hx).
    apply list_elem_of_filter in Hp as [HpR _].
    apply expected_alerts_elem in Hx as [Hname Htitle].
    destruct Hcase as [HaR | ->]; [congruence|].
    rewrite Hxt in Htitle. destruct Htitle as [|[|]]; done. }
  set (w2 := checkStableProcesses ps R1 w1) in *.
  assert (exists evs3,
    let w3 := if WEB_SERVER_ENABLED cfg then
                match logStatusToFile rf wf ps w2 with
                | (Fulfilled, w) => w
                | (Rejected message, w) => cycle_catch message w
                end
              else w2 in
    appRestartHistory w3 = appRestartHistory w2 /\
    notificationThrottleCache w3 = notificationThrottleCache w2 /\
    clock w3 = clock w2 /\ pollers w3 = pollers w2 /\
    trace w3 = trace w2 ++ evs3 /\
    (forall a, attempts_of a "Process Restart Detected" evs3 = 0%nat) /\
    (forall a t, t = "Process Status Alert" \/ t = "High CPU Usage" \/
                 t = "High Memory Usage" -> attempts_of a t evs3 = 0%nat) /\
    (forall n, timers_of n evs3 = 0%nat) /\
    (forall n, evaluated_of n evs3 = 0%nat)) as (evs3 & H3).
  { destruct (WEB_SERVER_ENABLED cfg).
    - destruct (logStatusToFile_spec rf wf ps w2)
        as (Hh3 & Hc3 & Hk3 & Hp3 & evs3 & Ht3 & Hn3 & Hs3 & He3).
      destruct (logStatusToFile rf wf ps w2) as [[|message] w3];
        simpl in Hh3, Hc3, Hk3, Hp3, Ht3 |- *.
      + exists evs3. split_and!; try done.
        * intros a. apply attempts_zero. intros x. rewrite Hn3.
          by intros ?%elem_of_nil.
        * intros a t _. apply attempts_zero. intros x. rewrite Hn3.
          by intros ?%elem_of_nil.
      + destruct (cycle_catch_spec message w3)
          as (Hh4 & Hc4 & Hk4 & Hp4 & _ & evs4 & Ht4 & Hn4 & Hs4 & He4).
        exists (evs3 ++ evs4).
        rewrite Hh4, Hc4, Hk4, Hp4, Ht4, Ht3, <- app_assoc.
        split_and!; try done.
        * intros a. rewrite attempts_of_app, !attempts_zero; [done|..];
            intros x; rewrite ?Hn3, ?Hn4; [|by intros ?%elem_of_nil].
          intros ->%list_elem_of_singleton. done.
        * intros a t Htitle. rewrite attempts_of_app, !attempts_zero; [done|..];
            intros x; rewrite ?Hn3, ?Hn4; [|by intros ?%elem_of_nil].
          intros ->%list_elem_of_singleton. simpl. intros _ <-.
          destruct Htitle as [|[|]]; done.
        * intros n. rewrite timers_of_app, Hs3, Hs4. done.
        * intros n. rewrite evaluated_of_app, He3, He4. done.
    - exists []. simpl. rewrite app_nil_r. done. }
  simpl in H3. destruct H3 as (Hh3 & Hc3 & Hk3 & Hp3 & Ht3 & Ha3 & Hb3 & Hs3 & He3).
  split_and!.
  - intros n. rewrite Hh3, Hh2. apply Hh.
  - congruence.
  - congruence.
  - rewrite Hp3, Hp2. exact Hq.
  - exists (evs1 ++ evs2 ++ evs3).
    rewrite Ht3, Ht2, Ht1, <- !app_assoc. split_and!; [done|..].
    + intros a. rewrite !attempts_of_app, Ha1, Ha2, Ha3.
      rewrite (bool_decide_eq_true_2 (_ \/ _)) by (by right).
      rewrite andb_true_r. lia.
    + intros a. rewrite !timers_of_app, Hs1, Hs2, Hs3. lia.
    + intros a. rewrite !evaluated_of_app, He1, He2, He3. lia.
    + intros a t HaR Htitle. rewrite !attempts_of_app, Ha1, Ha2, (Hb3 _ _ Htitle).
      rewrite (bool_decide_eq_true_2 (_ \/ _)) by (by left).
      rewrite (bool_decide_eq_false_2 (t = _)), andb_false_r; [done|].
      destruct Htitle as [-> | [-> | ->]]; done.
Qed.

Lemma restarted_iff ps w n :
  n ∈ (detectAndHandleRestarts ps w).1 <->
  restart_seen (appRestartHistory w) n (currentRestartsByApp ps) = true.
Proof.
  unfold detectAndHandleRestarts.
  destruct (detect_fold (currentRestartsByApp ps) ∅ w
              (currentRestartsByApp_NoDup ps)) as (HR & _).
  rewrite HR. set_solver.
Qed.

Lemma restart_seen_spec h n ps :
  restart_seen h n (currentRestartsByApp ps) = true <->
  n ∈ map name ps /\
  exists prev, h !! n = Some prev /\ prev < aggregated n ps.
Proof.
  unfold restart_seen. rewrite currentRestartsByApp_get.
  destruct (decide (n ∈ map name ps)) as [Hin|Hnin].
  - destruct (h !! n) as [prev|].
    + rewrite bool_decide_eq_true. split.
      * intros Hlt. split; [done|]. by exists prev.
      * intros (_ & prev' & [= <-] & Hlt). done.
    + split; [done|]. intros (_ & prev' & Hprev & _). done.
  - split; [done|]. intros (Hin & _). done.
Qed.

Lemma seed_history_frame ps : forall w,
  notificationThrottleCache (seed_history ps w) = notificationThrottleCache w /\
  clock (seed_history ps w) = clock w /\
  pollers (seed_history ps w) = pollers w /\
  statusFile (seed_history ps w) = statusFile w /\
  trace (seed_history ps w) = trace w.
Proof.
  unfold seed_history. induction ps as [|p ps IH]; intros w; cbn [foldl]; [done|].
  destruct (IH (with_history
                  (<[name p := default 0 (appRestartHistory w !! name p) +
                                restarts p]> (appRestartHistory w)) w))
    as (-> & -> & -> & -> & ->). done.
Qed.

Lemma seed_history_snoc ps p w :
  seed_history (ps ++ [p]) w =
  with_history
    (<[name p := default 0 (appRestartHistory (seed_history ps w) !! name p) +
                 restarts p]> (appRestartHistory (seed_history ps w)))
    (seed_history ps w).
Proof. unfold seed_history. by rewrite foldl_app. Qed.

(** Seeding adds, for every name of the initial snapshot and for no other,
    the sum of the restart counts of its instances. *)
Lemma seed_history_lookup ps w n :
  appRestartHistory (seed_history ps w) !! n =
  if decide (n ∈ map name ps)
  then Some (default 0 (appRestartHistory w !! n) + aggregated n ps)
  else appRestartHistory w !! n.
Proof.
  induction ps as [|p ps IH] using rev_ind.
  - destruct (decide _) as [Hin|]; [by apply elem_of_nil in Hin|done].
  - rewrite seed_history_snoc, map_app, aggregated_snoc. simpl.
    destruct (decide (n = name p)) as [->|Hne].
    + rewrite lookup_insert_eq.
      rewrite decide_True by (apply elem_of_app; right; apply list_elem_of_here).
      rewrite IH, (decide_True (P := name p = name p)) by done.
      destruct (decide (name p ∈ map name ps)) as [Hin|Hnin]; simpl.
      * f_equal; lia.
      * rewrite aggregated_absent by done. f_equal; lia.
    + rewrite lookup_insert_ne by done.
      rewrite IH, (decide_False (P := name p = n)) by congruence.
      rewrite Z.add_0_r.
      destruct (decide (n ∈ map name ps)) as [Hin|Hnin].
      * rewrite decide_True; [done|apply elem_of_app; by left].
      * rewrite decide_False; [done|].
        rewrite elem_of_app, list_elem_of_singleton. intros [?|?]; done.
Qed.

(** ** Facts about the stabilization poller *)

Lemma isAllOnline_spec appName processes :
  isAllOnline (appInstances_of appName processes) = true <->
  stable_sample appName processes.
Proof.
  unfold isAllOnline, appInstances_of, stable_sample.
  rewrite andb_true_iff, bool_decide_eq_true, forallb_forall. split.
  - intros [Hlen Hall]. split.
    + destruct (filter _ processes) as [|p l] eqn:Hf; [simpl in Hlen; lia|].
      assert (p ∈ filter (fun p => name p = appName) processes) as Hp
        by (rewrite Hf; apply list_elem_of_here).
      apply list_elem_of_filter in Hp as [Hn Hp]. by exists p.
    + intros p Hp Hn. apply String.eqb_eq. apply Hall.
      apply list_elem_of_In, list_elem_of_filter. done.
  - intros [(p & Hp & Hn) Hall]. split.
    + assert (p ∈ filter (fun p => name p = appName) processes) as Hin
        by (by apply list_elem_of_filter).
      destruct (filter _ processes); [by apply elem_of_nil in Hin|simpl; lia].
    + intros q Hq%list_elem_of_In%list_elem_of_filter.
      destruct Hq as [Hn' Hq]. apply String.eqb_eq. by apply Hall.
Qed.

Ltac tick_frame :=
  frame; unfold with_poller; simpl; rewrite ?list_insert_insert_eq;
  do 5 (split; [done|]).

Ltac tick_events :=
  eexists;
  split; [tally; cbn [trace emit with_poller with_pollers];
          rewrite <- !app_assoc; reflexivity|];
  split; [tally; done|];
  split; [intros ?; tally; unfold samples_of; simpl; case_bool_decide; done|];
  split; [intros ?; tally; done|];
  split; [intros ?; tally; done|].

(** One firing of a live timer follows the rule. *)
Lemma interval_tick_spec i f w appName attempts0 :
  pollers w !! i = Some {| p_appName := appName; p_attempts := attempts0;
                           p_phase := Polling |} ->
  pollers (interval_tick i f w) =
    <[i := {| p_appName := appName; p_attempts := attempts0 + 1;
              p_phase := (poll_rule appName (attempts0 + 1) f).1 |}]>
      (pollers w) /\
  appRestartHistory (interval_tick i f w) = appRestartHistory w /\
  notificationThrottleCache (interval_tick i f w) =
    notificationThrottleCache w /\
  clock (interval_tick i f w) = clock w /\
  statusFile (interval_tick i f w) = statusFile w /\
  exists evs,
    trace (interval_tick i f w) = trace w ++ evs /\
    notifications evs = (poll_rule appName (attempts0 + 1) f).2 /\
    (forall j, samples_of j evs = if bool_decide (i = j) then 1%nat else 0%nat) /\
    (forall n, timers_of n evs = 0%nat) /\
    (forall n, evaluated_of n evs = 0%nat) /\
    (ClearInterval i ∈ evs <->
     (poll_rule appName (attempts0 + 1) f).1 <> Polling).
Proof.
  intros Hp. unfold interval_tick, poll_rule, poll_catch, isAllOnline.
  rewrite Hp. cbn beta iota.
  destruct f as [processes|message].
  - destruct (appInstances_of appName processes) as [|first rest] eqn:Hinst.
    + cbn [length bool_decide andb head].
      rewrite (bool_decide_eq_false_2 (0 < 0)%nat) by lia. cbn [andb].
      case_bool_decide; tick_frame; tick_events.
      * split; [done|]. intros _. set_solver.
      * split; [|done]. simpl. rewrite !elem_of_cons, elem_of_nil. intros [|[|]]; done.
    + rewrite (bool_decide_eq_true_2 (0 < length (first :: rest))%nat)
        by (simpl; lia).
      cbn [andb head].
      destruct (forallb is_online (first :: rest)); [|case_bool_decide];
        tick_frame; tick_events.
      * split; [done|]. intros _. set_solver.
      * split; [done|]. intros _. set_solver.
      * split; [|done]. simpl. rewrite !elem_of_cons, elem_of_nil. intros [|[|]]; done.
  - tick_frame; tick_events. split; [done|]. intros _. set_solver.
Qed.

Lemma interval_tick_done i f w :
  phase_of i w <> Some Polling -> interval_tick i f w = w.
Proof.
  unfold phase_of, interval_tick.
  destruct (pollers w !! i) as [[appName attempts0 []]|]; simpl; done.
Qed.

(** A tick of a live timer is the firing followed at once by the answer to
    its fetch; a firing of a timer that was cleared does not happen. *)
Lemma interval_tick_split i f w appName attempts0 :
  pollers w !! i = Some {| p_appName := appName; p_attempts := attempts0;
                           p_phase := Polling |} ->
  interval_tick i f w = fetch_answer i f (timer_fire i w).
Proof.
  intros Hp. unfold interval_tick, fetch_answer, timer_fire. rewrite Hp.
  cbn [pollers emit with_poller with_pollers].
  rewrite list_lookup_insert_eq by (by eapply lookup_lt_Some). done.
Qed.

Lemma timer_fire_done i w : phase_of i w <> Some Polling -> timer_fire i w = w.
Proof.
  unfold phase_of, timer_fire.
  destruct (pollers w !! i) as [[appName attempts0 []]|]; simpl; done.
Qed.

Lemma run_ticks_done i fs w :
  phase_of i w <> Some Polling -> run_ticks i fs w = w.
Proof.
  unfold run_ticks. induction fs as [|f fs IH]; intros Hdone; cbn [foldl]; [done|].
  rewrite interval_tick_done by done. by apply IH.
Qed.

Lemma run_ticks_app i fs1 fs2 w :
  run_ticks i (fs1 ++ fs2) w = run_ticks i fs2 (run_ticks i fs1 w).
Proof. unfold run_ticks. apply foldl_app. Qed.

Lemma poll_rule_unstable appName attempts processes :
  ~ stable_sample appName processes ->
  poll_rule appName attempts (FetchOk processes) =
  if bool_decide (RECHECK_MAX_ATTEMPTS cfg <= attempts) then
    (Failed, [(appName, "Restart Failed",
               failure_message appName (appInstances_of appName processes),
               "danger")])
  else (Polling, []).
Proof.
  rewrite <- isAllOnline_spec. unfold isAllOnline, poll_rule.
  destruct (appInstances_of appName processes) as [|first rest]; [done|].
  rewrite (bool_decide_eq_true_2 (0 < length (first :: rest))%nat)
    by (simpl; lia).
  cbn [andb]. by destruct (forallb is_online (first :: rest)).
Qed.

Lemma poll_rule_stable appName attempts processes :
  stable_sample appName processes ->
  exists first,
    head (appInstances_of appName processes) = Some first /\
    poll_rule appName attempts (FetchOk processes) =
    (Stabilized, [(appName, "Restart Successful",
                   success_message appName first, "good")]).
Proof.
  rewrite <- isAllOnline_spec. unfold isAllOnline, poll_rule.
  destruct (appInstances_of appName processes) as [|first rest].
  - rewrite andb_true_iff, bool_decide_eq_true. simpl. lia.
  - rewrite andb_true_iff. intros [_ ->]. by exists first.
Qed.

(** While the samples are not stable and the budget is not used up, the
    timer keeps polling, silently. *)
Lemma run_ticks_polling i appName snaps : forall w attempts0,
  pollers w !! i = Some {| p_appName := appName; p_attempts := attempts0;
                           p_phase := Polling |} ->
  Forall (fun ps => ~ stable_sample appName ps) snaps ->
  attempts0 + Z.of_nat (length snaps) < RECHECK_MAX_ATTEMPTS cfg ->
  pollers (run_ticks i (map FetchOk snaps) w) !! i =
    Some {| p_appName := appName;
            p_attempts := attempts0 + Z.of_nat (length snaps);
            p_phase := Polling |} /\
  notifications (trace (run_ticks i (map FetchOk snaps) w)) =
    notifications (trace w) /\
  samples_of i (trace (run_ticks i (map FetchOk snaps) w)) =
    (samples_of i (trace w) + length snaps)%nat.
Proof.
  induction snaps as [|ps snaps IH]; intros w attempts0 Hp Hall Hlt.
  - simpl. rewrite Z.add_0_r, Nat.add_0_r. done.
  - apply Forall_cons in Hall as [Hps Hall].
    cbn [map length] in *. unfold run_ticks. cbn [foldl].
    fold (run_ticks i (map FetchOk snaps) (interval_tick i (FetchOk ps) w)).
    destruct (interval_tick_spec i (FetchOk ps) w appName attempts0 Hp)
      as (Hq & _ & _ & _ & _ & evs & Ht & Hn & Hs & _).
    rewrite poll_rule_unstable in Hq, Hn by done.
    rewrite bool_decide_eq_false_2 in Hq, Hn by lia. simpl in Hq, Hn.
    destruct (IH (interval_tick i (FetchOk ps) w) (attempts0 + 1))
      as (Hq' & Hn' & Hs'); [|done|lia|].
    { rewrite Hq. apply list_lookup_insert_eq. by eapply lookup_lt_Some. }
    rewrite Hq', Hn', Hs', Ht, notifications_app, samples_of_app, Hn, Hs.
    rewrite bool_decide_eq_true_2 by done. rewrite app_nil_r.
    split_and!; [do 2 f_equal; lia|done|lia].
Qed.

(** A stable sample within the budget ends the polling in [Stabilized]. *)
Lemma run_ticks_stabilizes i appName pre ps rest w attempts0 :
  pollers w !! i = Some {| p_appName := appName; p_attempts := attempts0;
                           p_phase := Polling |} ->
  Forall (fun ps => ~ stable_sample appName ps) pre ->
  attempts0 + Z.of_nat (length pre) < RECHECK_MAX_ATTEMPTS cfg ->
  stable_sample appName ps ->
  pollers (run_ticks i (map FetchOk (pre ++ ps :: rest)) w) !! i =
    Some {| p_appName := appName;
            p_attempts := attempts0 + Z.of_nat (length pre) + 1;
            p_phase := Stabilized |} /\
  (exists first,
     head (appInstances_of appName ps) = Some first /\
     notifications (trace (run_ticks i (map FetchOk (pre ++ ps :: rest)) w)) =
       notifications (trace w) ++
       [(appName, "Restart Successful", success_message appName first, "good")]) /\
  samples_of i (trace (run_ticks i (map FetchOk (pre ++ ps :: rest)) w)) =
    (samples_of i (trace w) + length pre + 1)%nat.
Proof.
  intros Hp Hpre Hlt Hps.
  destruct (run_ticks_polling i appName pre w attempts0 Hp Hpre Hlt)
    as (Hq & Hn & Hs).
  rewrite map_app, run_ticks_app. cbn [map]. unfold run_ticks at 1 3 5.
  cbn [foldl].
  set (w1 := run_ticks i (map FetchOk pre) w) in *.
  fold (run_ticks i (map FetchOk rest) (interval_tick i (FetchOk ps) w1)).
  destruct (interval_tick_spec i (FetchOk ps) w1 appName _ Hq)
    as (Hq2 & _ & _ & _ & _ & evs & Ht & Hn2 & Hs2 & _).
  destruct (poll_rule_stable appName
              (attempts0 + Z.of_nat (length pre) + 1) ps Hps)
    as (first & Hfirst & Hrule).
  rewrite Hrule in Hq2, Hn2. simpl in Hq2, Hn2.
  assert (pollers (interval_tick i (FetchOk ps) w1) !! i =
          Some {| p_appName := appName;
                  p_attempts := attempts0 + Z.of_nat (length pre) + 1;
                  p_phase := Stabilized |}) as Hq3.
  { rewrite Hq2. apply list_lookup_insert_eq. by eapply lookup_lt_Some. }
  rewrite run_ticks_done by (unfold phase_of; rewrite Hq3; done).
  split_and!; [done| |].
  - exists first. split; [done|]. by rewrite Ht, notifications_app, Hn2, Hn.
  - rewrite Ht, samples_of_app, Hs2, Hs, bool_decide_eq_true_2 by done. lia.
Qed.

(** Without a stable sample the last sample of the budget ends the polling
    in [Failed]. *)
Lemma run_ticks_fails i appName pre last rest w attempts0 :
  pollers w !! i = Some {| p_appName := appName; p_attempts := attempts0;
                           p_phase := Polling |} ->
  Forall (fun ps => ~ stable_sample appName ps) pre ->
  ~ stable_sample appName last ->
  attempts0 + Z.of_nat (length pre) + 1 = RECHECK_MAX_ATTEMPTS cfg ->
  pollers (run_ticks i (map FetchOk (pre ++ last :: rest)) w) !! i =
    Some {| p_appName := appName;
            p_attempts := RECHECK_MAX_ATTEMPTS cfg;
            p_phase := Failed |} /\
  notifications (trace (run_ticks i (map FetchOk (pre ++ last :: rest)) w)) =
    notifications (trace w) ++
    [(appName, "Restart Failed",
      failure_message appName (appInstances_of appName last), "danger")] /\
  samples_of i (trace (run_ticks i (map FetchOk (pre ++ last :: rest)) w)) =
    (samples_of i (trace w) + length pre + 1)%nat.
Proof.
  intros Hp Hpre Hlast Hmax.
  destruct (run_ticks_polling i appName pre w attempts0 Hp Hpre)
    as (Hq & Hn & Hs); [lia|].
  rewrite map_app, run_ticks_app. cbn [map]. unfold run_ticks at 1 3 5.
  cbn [foldl].
  set (w1 := run_ticks i (map FetchOk pre) w) in *.
  fold (run_ticks i (map FetchOk rest) (interval_tick i (FetchOk last) w1)).
  destruct (interval_tick_spec i (FetchOk last) w1 appName _ Hq)
    as (Hq2 & _ & _ & _ & _ & evs & Ht & Hn2 & Hs2 & _).
  rewrite poll_rule_unstable in Hq2, Hn2 by done.
  rewrite bool_decide_eq_true_2 in Hq2, Hn2 by lia. simpl in Hq2, Hn2.
  assert (pollers (interval_tick i (FetchOk last) w1) !! i =
          Some {| p_appName := appName;
                  p_attempts := RECHECK_MAX_ATTEMPTS cfg;
                  p_phase := Failed |}) as Hq3.
  { rewrite Hq2, <- Hmax. apply list_lookup_insert_eq. by eapply lookup_lt_Some. }
  rewrite run_ticks_done by (unfold phase_of; rewrite Hq3; done).
  split_and!; [done| |].
  - by rewrite Ht, notifications_app, Hn2, Hn.
  - rewrite Ht, samples_of_app, Hs2, Hs, bool_decide_eq_true_2 by done. lia.
Qed.

(** ** Restart detection: the claims *)

(** C1.  In every monitoring cycle, for every name of the snapshot whose
    aggregated restart count (the sum of [restarts] over its instances) is
    strictly greater than the stored total: the name is in the restarted
    set, exactly one 'Process Restart Detected' notification attempt is made
    for it, exactly one stabilization timer is started for it (with a fresh
    attempt counter), and the stored total becomes the current total. *)
Theorem restart_is_detected processes rf wf w n prevRestarts :
  n ∈ map name processes ->
  appRestartHistory w !! n = Some prevRestarts ->
  prevRestarts < aggregated n processes ->
  n ∈ (detectAndHandleRestarts processes w).1 /\
  attempts_of n "Process Restart Detected"
    (trace (monitorProcesses (FetchOk processes) rf wf w)) =
    S (attempts_of n "Process Restart Detected" (trace w)) /\
  timers_of n (trace (monitorProcesses (FetchOk processes) rf wf w)) =
    S (timers_of n (trace w)) /\
  (exists qs,
     pollers (monitorProcesses (FetchOk processes) rf wf w) = pollers w ++ qs /\
     fresh_poller n ∈ qs) /\
  appRestartHistory (monitorProcesses (FetchOk processes) rf wf w) !! n =
    Some (aggregated n processes).
Proof.
  intros Hin Hprev Hlt.
  assert (restart_seen (appRestartHistory w) n (currentRestartsByApp processes)
          = true) as Hseen.
  { apply restart_seen_spec. split; [done|]. by exists prevRestarts. }
  destruct (monitorProcesses_spec processes rf wf w)
    as (Hh & _ & _ & (qs & Hq & Hfresh) & evs & Ht & Ha & Hs & _).
  split_and!.
  - by apply restarted_iff.
  - rewrite Ht, attempts_of_app, Ha, Hseen. lia.
  - rewrite Ht, timers_of_app, Hs, Hseen. lia.
  - exists qs. split; [done|]. by apply Hfresh.
  - rewrite Hh, currentRestartsByApp_get, decide_True by done. done.
Qed.

(** C6.  A name of the snapshot without a stored total gets its current
    aggregated total recorded and no alert (it is not flagged, no 'Process
    Restart Detected' attempt is made, no timer is started).  At startup the
    empty history is seeded with the aggregated totals of the initial
    snapshot, so the first cycle alerts for a name exactly when its total has
    risen above the seeded one: counts that were already there never do. *)
Theorem no_alert_without_history processes rf wf w n initial first rf0 wf0 w0 :
  n ∈ map name processes ->
  appRestartHistory w !! n = None ->
  appRestartHistory w0 = ∅ ->
  (appRestartHistory (monitorProcesses (FetchOk processes) rf wf w) !! n =
     Some (aggregated n processes) /\
   (n ∉ (detectAndHandleRestarts processes w).1) /\
   attempts_of n "Process Restart Detected"
     (trace (monitorProcesses (FetchOk processes) rf wf w)) =
     attempts_of n "Process Restart Detected" (trace w) /\
   timers_of n (trace (monitorProcesses (FetchOk processes) rf wf w)) =
     timers_of n (trace w)) /\
  (forall m, appRestartHistory (seed_history initial w0) !! m =
             if decide (m ∈ map name initial)
             then Some (aggregated m initial) else None) /\
  (forall m,
     attempts_of m "Process Restart Detected"
       (trace (initialize initial (FetchOk first) rf0 wf0 w0)) =
     (attempts_of m "Process Restart Detected" (trace w0) +
      if decide (m ∈ map name initial /\ m ∈ map name first /\
                 (aggregated m initial < aggregated m first)%Z)
      then 1 else 0)%nat) /\
  (forall m, aggregated m first <= aggregated m initial ->
     attempts_of m "Process Restart Detected"
       (trace (initialize initial (FetchOk first) rf0 wf0 w0)) =
     attempts_of m "Process Restart Detected" (trace w0)).
Proof.
  intros Hin Hnone Hempty.
  assert (forall m, appRestartHistory (seed_history initial w0) !! m =
             if decide (m ∈ map name initial)
             then Some (aggregated m initial) else None) as Hseed.
  { intros m. rewrite seed_history_lookup, Hempty, lookup_empty. simpl.
    destruct (decide _); [f_equal; lia|done]. }
  assert (forall m,
     attempts_of m "Process Restart Detected"
       (trace (initialize initial (FetchOk first) rf0 wf0 w0)) =
     (attempts_of m "Process Restart Detected" (trace w0) +
      if decide (m ∈ map name initial /\ m ∈ map name first /\
                 (aggregated m initial < aggregated m first)%Z)
      then 1 else 0)%nat) as Hfirst.
  { intros m. unfold initialize.
    match goal with
    | |- context [monitorProcesses _ _ _ ?w1] =>
      destruct (monitorProcesses_spec first rf0 wf0 w1)
        as (_ & _ & _ & _ & evs & Ht & Ha & _)
    end.
    rewrite Ht, attempts_of_app, Ha. cbn [trace emit appRestartHistory].
    destruct (seed_history_frame initial w0) as (_ & _ & _ & _ & ->).
    rewrite !attempts_of_app. unfold attempts_of at 2 3. simpl.
    rewrite !Nat.add_0_r. f_equal.
    destruct (restart_seen _ m _) eqn:Hseen.
    - apply restart_seen_spec in Hseen as (Hm & prev & Hprev & Hlt).
      rewrite Hseed in Hprev. destruct (decide (m ∈ map name initial)); [|done].
      injection Hprev as <-. by rewrite decide_True.
    - destruct (decide _) as [(Hi & Hf & Hlt)|]; [|done].
      assert (restart_seen (appRestartHistory (seed_history initial w0)) m
                (currentRestartsByApp first) = true) as Hyes; [|congruence].
      apply restart_seen_spec. split; [done|].
      exists (aggregated m initial). split; [|done].
      rewrite Hseed. by rewrite decide_True. }
  split; [|split; [|split]].
  - assert (restart_seen (appRestartHistory w) n
              (currentRestartsByApp processes) = false) as Hseen.
    { apply not_true_is_false. intros (_ & prev & Hprev & _)%restart_seen_spec.
      congruence. }
    destruct (monitorProcesses_spec processes rf wf w)
      as (Hh & _ & _ & _ & evs & Ht & Ha & Hs & _).
    split_and!.
    + rewrite Hh, currentRestartsByApp_get, decide_True by done. done.
    + rewrite restarted_iff, Hseen. done.
    + rewrite Ht, attempts_of_app, Ha, Hseen. lia.
    + rewrite Ht, timers_of_app, Hs, Hseen. lia.
  - exact Hseed.
  - exact Hfirst.
  - intros m Hle. rewrite Hfirst, decide_False; [lia|].
    intros (_ & _ & Hlt). lia.
Qed.

(** C4.  Within one monitoring cycle a name of the snapshot is either
    flagged as restarted and handed to polling (one timer started), in which
    case the stable-process check skips every record of that name (none is
    evaluated, and no status, CPU or memory alert is attempted for it); or it
    is not flagged, no timer is started, and every record of that name is
    evaluated.  Never both. *)
Theorem restarted_or_evaluated processes rf wf w p :
  p ∈ processes ->
  (name p ∈ (detectAndHandleRestarts processes w).1 /\
   timers_of (name p) (trace (monitorProcesses (FetchOk processes) rf wf w)) =
     S (timers_of (name p) (trace w)) /\
   evaluated_of (name p) (trace (monitorProcesses (FetchOk processes) rf wf w)) =
     evaluated_of (name p) (trace w) /\
   (forall t, t = "Process Status Alert" \/ t = "High CPU Usage" \/
              t = "High Memory Usage" ->
      attempts_of (name p) t
        (trace (monitorProcesses (FetchOk processes) rf wf w)) =
      attempts_of (name p) t (trace w))) \/
  ((name p ∉ (detectAndHandleRestarts processes w).1) /\
   timers_of (name p) (trace (monitorProcesses (FetchOk processes) rf wf w)) =
     timers_of (name p) (trace w) /\
   evaluated_of (name p) (trace (monitorProcesses (FetchOk processes) rf wf w)) =
     (evaluated_of (name p) (trace w) +
      length (filter (fun q => name q = name p) processes))%nat /\
   (0 < length (filter (fun q => name q = name p) processes))%nat).
Proof.
  intros Hp.
  destruct (monitorProcesses_spec processes rf wf w)
    as (_ & _ & _ & _ & evs & Ht & _ & Hs & He & Hb).
  pose proof (restarted_iff processes w (name p)) as Hiff.
  destruct (decide (name p ∈ (detectAndHandleRestarts processes w).1))
    as [HR|HR].
  - left. split_and!; [done|..].
    + rewrite Ht, timers_of_app, Hs. apply Hiff in HR. rewrite HR. lia.
    + rewrite Ht, evaluated_of_app, He, decide_True by done. lia.
    + intros t Htitle. rewrite Ht, attempts_of_app, (Hb _ _ HR Htitle). lia.
  - right. split_and!; [done|..].
    + rewrite Ht, timers_of_app, Hs.
      destruct (restart_seen _ _ _); [|lia]. exfalso. apply HR, Hiff. done.
    + rewrite Ht, evaluated_of_app, He, decide_False by done. done.
    + assert (p ∈ filter (fun q => name q = name p) processes) as Hin
        by (by apply list_elem_of_filter).
      destruct (filter _ processes); [by apply elem_of_nil in Hin|simpl; lia].
Qed.

(** C8.  The notification attempts of the stable-process check are, record
    by record in snapshot order and for the records whose name is not in the
    restarted set only, the alerts the specification asks for: one status
    alert when the status is not 'online'; otherwise a 'High CPU Usage'
    warning exactly when the CPU is above its ceiling and a 'High Memory
    Usage' warning exactly when the memory is above its ceiling, each on its
    own. *)
Theorem threshold_alerts processes restartedApps w :
  notifications (trace (checkStableProcesses processes restartedApps w)) =
  notifications (trace w) ++
  flat_map expected_alerts
           (filter (fun p => name p ∉ restartedApps) processes).
Proof.
  destruct (checkStableProcesses_spec processes restartedApps w)
    as (_ & _ & _ & _ & _ & evs & Ht & Hn & _).
  rewrite Ht, notifications_app, Hn. done.
Qed.

(** ** Stabilization polling: the claims *)

(** C2 (as amended).  Take a timer started for a name, a budget
    [RECHECK_MAX_ATTEMPTS] of at least one attempt, and a run in which no
    snapshot fetch faults and every fetch is answered before the timer fires
    again ([run_ticks]: each firing is [timer_fire] followed at once by its
    [fetch_answer]).  The timer ends in [Stabilized] if and only if one of
    the first [RECHECK_MAX_ATTEMPTS] samples has at least one instance of the
    name and every instance online; it then stops at the first such sample
    with a 'Restart Successful' notification.  Otherwise it ends in [Failed]
    after exactly [RECHECK_MAX_ATTEMPTS] samples, with one 'Restart Failed'
    notification whose message lists the id and status of every instance of
    the last sample, or says 'Could not find process.' when there is none.
    It never takes more than [RECHECK_MAX_ATTEMPTS] samples. *)
Theorem poller_outcome i appName snaps w :
  pollers w !! i = Some (fresh_poller appName) ->
  1 <= RECHECK_MAX_ATTEMPTS cfg ->
  (Z.to_nat (RECHECK_MAX_ATTEMPTS cfg) <= length snaps)%nat ->
  (phase_of i (run_ticks i (map FetchOk snaps) w) = Some Stabilized <->
   exists k ps, (k < Z.to_nat (RECHECK_MAX_ATTEMPTS cfg))%nat /\
                snaps !! k = Some ps /\ stable_sample appName ps) /\
  (forall k ps,
     (k < Z.to_nat (RECHECK_MAX_ATTEMPTS cfg))%nat ->
     snaps !! k = Some ps -> stable_sample appName ps ->
     (forall j qs, (j < k)%nat -> snaps !! j = Some qs ->
                   ~ stable_sample appName qs) ->
     samples_of i (trace (run_ticks i (map FetchOk snaps) w)) =
       (samples_of i (trace w) + k + 1)%nat /\
     exists first,
       head (appInstances_of appName ps) = Some first /\
       notifications (trace (run_ticks i (map FetchOk snaps) w)) =
         notifications (trace w) ++
         [(appName, "Restart Successful", success_message appName first,
           "good")]) /\
  ((forall k ps, (k < Z.to_nat (RECHECK_MAX_ATTEMPTS cfg))%nat ->
                 snaps !! k = Some ps -> ~ stable_sample appName ps) ->
   phase_of i (run_ticks i (map FetchOk snaps) w) = Some Failed /\
   attempts_made i (run_ticks i (map FetchOk snaps) w) =
     Some (RECHECK_MAX_ATTEMPTS cfg) /\
   samples_of i (trace (run_ticks i (map FetchOk snaps) w)) =
     (samples_of i (trace w) + Z.to_nat (RECHECK_MAX_ATTEMPTS cfg))%nat /\
   exists last,
     snaps !! (Z.to_nat (RECHECK_MAX_ATTEMPTS cfg) - 1)%nat = Some last /\
     notifications (trace (run_ticks i (map FetchOk snaps) w)) =
       notifications (trace w) ++
       [(appName, "Restart Failed",
         failure_message appName (appInstances_of appName last), "danger")] /\
     (appInstances_of appName last = [] ->
      failure_message appName (appInstances_of appName last) =
      "App '" +:+ appName +:+
      "' failed to become 'online' within the time limit." +:+ nl +:+
      "Could not find process.") /\
     (appInstances_of appName last <> [] ->
      failure_message appName (appInstances_of appName last) =
      "App '" +:+ appName +:+
      "' failed to become 'online' within the time limit." +:+ nl +:+
      "Current status:" +:+ nl +:+ "- " +:+
      join (nl +:+ "- ")
           (map (fun p => "ID " +:+ num_to_string (inject_Z (pm_id p)) +:+
                          ": " +:+ status p)
                (appInstances_of appName last)))) /\
  (samples_of i (trace (run_ticks i (map FetchOk snaps) w)) <=
   samples_of i (trace w) + Z.to_nat (RECHECK_MAX_ATTEMPTS cfg))%nat /\
  (phase_of i (run_ticks i (map FetchOk snaps) w) = Some Stabilized \/
   phase_of i (run_ticks i (map FetchOk snaps) w) = Some Failed).
Proof.
  intros Hp Hmax Hlen. unfold fresh_poller in Hp.
  set (n := Z.to_nat (RECHECK_MAX_ATTEMPTS cfg)) in *.
  assert (Z.of_nat n = RECHECK_MAX_ATTEMPTS cfg) as Hn by lia.
  destruct (list_find (fun ps => isAllOnline (appInstances_of appName ps) = true)
                      (take n snaps)) as [[k ps]|] eqn:Hfind.
  - apply list_find_Some in Hfind as (Hk & Hst & Hbefore).
    apply lookup_take_Some in Hk as [Hk Hkn].
    apply isAllOnline_spec in Hst.
    assert (Forall (fun qs => ~ stable_sample appName qs) (take k snaps)) as Hpre.
    { apply Forall_lookup. intros j qs Hj.
      apply lookup_take_Some in Hj as [Hj Hjk].
      rewrite <- isAllOnline_spec. apply (Hbefore j); [|done].
      apply lookup_take_Some. split; [done|lia]. }
    assert (length (take k snaps) = k) as Hlk.
    { apply length_take_le. apply lookup_lt_Some in Hk. lia. }
    destruct (run_ticks_stabilizes i appName (take k snaps) ps
                (drop (S k) snaps) w 0 Hp Hpre) as (Hq & Hnote & Hs);
      [lia|done|].
    rewrite take_drop_middle in Hq, Hnote, Hs by done. rewrite Hlk in Hs.
    assert (phase_of i (run_ticks i (map FetchOk snaps) w) = Some Stabilized)
      as Hphase by (unfold phase_of; rewrite Hq; done).
    split_and!.
    + split; [|done]. intros _. by exists k, ps.
    + intros k' ps' Hk'n Hk' Hst' Hbefore'.
      assert (k' = k) as ->.
      { destruct (decide (k' < k)%nat) as [Hlt|Hge].
        - exfalso. eapply Forall_lookup_1 in Hpre; [by apply Hpre|].
          apply lookup_take_Some. done.
        - destruct (decide (k < k')%nat) as [Hlt|Hge']; [|lia].
          exfalso. by apply (Hbefore' k ps). }
      assert (ps' = ps) as -> by congruence. done.
    + intros Hnone. exfalso. by apply (Hnone k ps).
    + rewrite Hs. lia.
    + by left.
  - apply list_find_None in Hfind.
    assert (forall k ps, (k < n)%nat -> snaps !! k = Some ps ->
                         ~ stable_sample appName ps) as Hnone.
    { intros k ps Hkn Hk. rewrite <- isAllOnline_spec.
      eapply Forall_lookup_1 in Hfind; [exact Hfind|].
      apply lookup_take_Some. done. }
    destruct (lookup_lt_is_Some_2 snaps (n - 1)) as [last Hlast]; [lia|].
    assert (Forall (fun qs => ~ stable_sample appName qs) (take (n - 1) snaps))
      as Hpre.
    { apply Forall_lookup. intros j qs Hj.
      apply lookup_take_Some in Hj as [Hj Hjk]. apply (Hnone j); [lia|done]. }
    assert (length (take (n - 1) snaps) = (n - 1)%nat) as Hlk
      by (apply length_take_le; lia).
    destruct (run_ticks_fails i appName (take (n - 1) snaps) last
                (drop (S (n - 1)) snaps) w 0 Hp Hpre) as (Hq & Hnote & Hs);
      [apply (Hnone (n - 1)%nat); [lia|done] | lia |].
    rewrite take_drop_middle in Hq, Hnote, Hs by done. rewrite Hlk in Hs.
    assert (phase_of i (run_ticks i (map FetchOk snaps) w) = Some Failed)
      as Hphase by (unfold phase_of; rewrite Hq; done).
    split_and!.
    + rewrite Hphase. split; [done|]. intros (k & ps & Hkn & Hk & Hst).
      exfalso. by apply (Hnone k ps).
    + intros k ps Hkn Hk Hst _. exfalso. by apply (Hnone k ps).
    + intros _. split_and!; [done|unfold attempts_made; by rewrite Hq|
                             rewrite Hs; lia|].
      exists last. split_and!; [done|done|..].
      * intros ->. done.
      * intros Hne. unfold failure_message, failure_reason.
        rewrite bool_decide_eq_true_2; [done|].
        destruct (appInstances_of appName last); [done|simpl; lia].
    + rewrite Hs. lia.
    + by right.
Qed.


(** ** Throttling and delivery: the claims *)

Lemma settle_new a t m c r w :
  throttled (throttle_key a t) (clock w) w = false ->
  settle (length (inflight w)) r (send a t m c w) =
  (Fulfilled,
   match r with
   | PostOk =>
     with_cache (<[throttle_key a t := clock w]> (notificationThrottleCache w))
                (with_inflight (inflight w) (send a t m c w))
   | PostFailed message =>
     emit (Console ERROR ("[Error] Failed to send Slack notification: " +:+
                          message))
          (with_inflight (inflight w) (send a t m c w))
   end).
Proof.
  intros Hfree. unfold settle.
  rewrite send_inflight, Hfree, list_lookup_middle by done.
  rewrite delete_middle, app_nil_r. cbn. rewrite send_cache.
  by destruct r.
Qed.

Lemma two_attempts_counts a t m1 c1 m2 c2 r t2 w :
  throttled (throttle_key a t) (clock w) w = false ->
  attempts_of a t (trace (two_attempts a t m1 c1 m2 c2 r t2 w)) =
    S (S (attempts_of a t (trace w))) /\
  posts_of (throttle_key a t) (trace (two_attempts a t m1 c1 m2 c2 r t2 w)) =
    (S (posts_of (throttle_key a t) (trace w)) +
     if match r with
        | Some PostOk =>
          bool_decide (t2 - clock w < THROTTLE_DURATION_MS cfg)%Z
        | _ => throttled (throttle_key a t) t2 w
        end
     then 0 else 1)%nat.
Proof.
  intros Hfree. unfold two_attempts.
  destruct r as [[|message]|]; rewrite ?settle_new by done; cbn [snd];
    tally; cbn [trace emit with_clock with_cache with_inflight clock];
    tally; rewrite ?Hfree; rewrite ?bool_decide_eq_true_2 by done;
    unfold throttled; cbn; rewrite ?send_cache;
    rewrite ?lookup_insert_eq; unfold attempts_of, posts_of; simpl;
    (split; [lia|]);
    repeat match goal with
           | |- context [match ?x with _ => _ end] => destruct x
           end; lia.
Qed.

(** C3 (as amended).  Throttling looks at the subject and the title only,
    never at the message.  For two attempts with the same subject and title,
    the first of which is not itself throttled: when the first delivery has
    succeeded before the second attempt and the second comes less than the
    window after the first, there is exactly one delivery attempt; when the
    second comes at least a window after the first there are two, whatever
    became of the first delivery.  Both are notification attempts. *)
Theorem throttle_by_subject_and_title a t m1 c1 m2 c2 r t2 w :
  throttled (throttle_key a t) (clock w) w = false ->
  0 <= THROTTLE_DURATION_MS cfg ->
  attempts_of a t (trace (two_attempts a t m1 c1 m2 c2 r t2 w)) =
    S (S (attempts_of a t (trace w))) /\
  (r = Some PostOk ->
   t2 - clock w < THROTTLE_DURATION_MS cfg ->
   posts_of (throttle_key a t) (trace (two_attempts a t m1 c1 m2 c2 r t2 w)) =
     S (posts_of (throttle_key a t) (trace w))) /\
  (THROTTLE_DURATION_MS cfg <= t2 - clock w ->
   posts_of (throttle_key a t) (trace (two_attempts a t m1 c1 m2 c2 r t2 w)) =
     S (S (posts_of (throttle_key a t) (trace w)))).
Proof.
  intros Hfree Hwin.
  destruct (two_attempts_counts a t m1 c1 m2 c2 r t2 w Hfree) as [Ha Hposts].
  split_and!; [done|..].
  - intros -> Hnear. rewrite Hposts, bool_decide_eq_true_2 by done. lia.
  - intros Hfar. rewrite Hposts.
    assert (throttled (throttle_key a t) t2 w = false) as Hfree2.
    { unfold throttled in *.
      destruct (notificationThrottleCache w !! throttle_key a t); [|done].
      apply bool_decide_eq_false in Hfree. apply bool_decide_eq_false. lia. }
    destruct r as [[|message]|]; rewrite ?Hfree2;
      rewrite ?bool_decide_eq_false_2 by lia; lia.
Qed.

Lemma interval_tick_cache i f w :
  notificationThrottleCache (interval_tick i f w) = notificationThrottleCache w.
Proof.
  destruct (pollers w !! i) as [[appName attempts0 ph]|] eqn:Hp.
  - destruct ph.
    + by destruct (interval_tick_spec i f w appName attempts0 Hp)
        as (_ & _ & -> & _).
    + rewrite interval_tick_done; [done|]. unfold phase_of. by rewrite Hp.
    + rewrite interval_tick_done; [done|]. unfold phase_of. by rewrite Hp.
    + rewrite interval_tick_done; [done|]. unfold phase_of. by rewrite Hp.
  - rewrite interval_tick_done; [done|]. unfold phase_of. by rewrite Hp.
Qed.

(** C5.  A delivery that fails leaves the throttle cache as it was, so that
    no window is consumed for any key; the failure is logged by the [catch]
    and the promise of [sendSlackNotification] is fulfilled, not rejected.
    A delivery that succeeds records the time of its attempt under its key.
    Nothing else that can happen (the clock, a cycle, a timer firing)
    changes the cache: a timestamp is recorded only on a confirmed
    delivery. *)
Theorem failed_delivery_keeps_window i message w s :
  inflight w !! i = Some s ->
  (settle i (PostFailed message) w).1 = Fulfilled /\
  notificationThrottleCache (settle i (PostFailed message) w).2 =
    notificationThrottleCache w /\
  (forall key now, throttled key now (settle i (PostFailed message) w).2 =
                   throttled key now w) /\
  trace (settle i (PostFailed message) w).2 =
    trace w ++ [Console ERROR ("[Error] Failed to send Slack notification: "
                               +:+ message)] /\
  notificationThrottleCache (settle i PostOk w).2 =
    <[s_key s := s_now s]> (notificationThrottleCache w) /\
  (forall a, notificationThrottleCache (act a w) <> notificationThrottleCache w ->
             exists j, a = Settle j PostOk /\ is_Some (inflight w !! j)).
Proof.
  intros Hs. unfold settle. rewrite Hs. cbn.
  split_and!; try done.
  intros a Hchange. destruct a as [t|fetch rf wf|j f|j r]; cbn in Hchange.
  - done.
  - exfalso. apply Hchange. destruct fetch as [ps|msg].
    + apply monitorProcesses_spec.
    + apply cycle_catch_spec.
  - exfalso. apply Hchange. apply interval_tick_cache.
  - unfold settle in Hchange.
    destruct (inflight w !! j) as [s'|] eqn:Hj; [|done].
    destruct r as [|msg]; [|done]. by exists j.
Qed.

(** ** The status history: the claims *)

Lemma slice0_take {A} (l : list A) (e : Z) :
  0 <= e -> slice0 l e = take (Z.to_nat e) l.
Proof. intros He. unfold slice0. by rewrite (proj2 (Z.ltb_ge e 0)). Qed.

Lemma take_app_take {A} (n : nat) (l k : list A) :
  take n (l ++ take n k) = take n (l ++ k).
Proof. rewrite !take_app, take_take. do 2 f_equal. lia. Qed.

Lemma logStatusToFile_file rf ps w :
  logStatusToFile rf None ps w =
  (Fulfilled,
   with_statusFile
     (Some (slice0 (entry_at (clock w) ps ::
                    match readHistory rf w with
                    | ReadOk h => h
                    | ReadError _ _ => []
                    end) (MAX_HISTORY cfg)))
     (match readHistory rf w with
      | ReadOk _ => w
      | ReadError code message =>
        if bool_decide (code ≠ Some "ENOENT") then
          emit (Console ERROR ("[Error] Failed to read status history file: "
                               +:+ message)) w
        else w
      end)).
Proof.
  unfold logStatusToFile, entry_at.
  destruct (readHistory rf w) as [h|code message]; [done|].
  by case_bool_decide.
Qed.

Lemma log_many_file snaps : forall w,
  0 <= MAX_HISTORY cfg ->
  statusFile (log_many snaps w) =
  match snaps with
  | [] => statusFile w
  | _ => Some (take (Z.to_nat (MAX_HISTORY cfg))
                    (rev (map (fun s => entry_at s.1 s.2) snaps) ++
                     default [] (statusFile w)))
  end.
Proof.
  unfold log_many.
  induction snaps as [|[t ps] snaps IH]; intros w Hmax; cbn [foldl]; [done|].
  rewrite IH by done. rewrite logStatusToFile_file. cbn.
  rewrite slice0_take by done.
  destruct (statusFile w) as [old|]; cbn;
    (destruct snaps as [|s snaps]; [done|]);
    rewrite take_app_take; cbn; by rewrite <- !app_assoc.
Qed.

(** C7.  Every append, whatever the read of the file gave, writes at most
    [MAX_HISTORY] entries.  An append that read the file puts the new entry
    first, keeps the older ones in their order behind it, and cuts the list
    after [MAX_HISTORY] entries; so after any number of appends the file
    holds the most recent entries, most recent first, and what was dropped
    is the tail of the oldest ones. *)
Theorem history_is_bounded rf ps w snaps :
  0 <= MAX_HISTORY cfg ->
  (exists h, statusFile (logStatusToFile rf None ps w).2 = Some h /\
             Z.of_nat (length h) <= MAX_HISTORY cfg) /\
  statusFile (logStatusToFile None None ps w).2 =
    Some (take (Z.to_nat (MAX_HISTORY cfg))
               (entry_at (clock w) ps :: default [] (statusFile w))) /\
  (snaps <> [] ->
   statusFile (log_many snaps w) =
     Some (take (Z.to_nat (MAX_HISTORY cfg))
                (rev (map (fun s => entry_at s.1 s.2) snaps) ++
                 default [] (statusFile w))) /\
   rev (map (fun s => entry_at s.1 s.2) snaps) ++ default [] (statusFile w) =
     default [] (statusFile (log_many snaps w)) ++
     drop (Z.to_nat (MAX_HISTORY cfg))
          (rev (map (fun s => entry_at s.1 s.2) snaps) ++
           default [] (statusFile w))).
Proof.
  intros Hmax. split_and!.
  - rewrite logStatusToFile_file. cbn. eexists. split; [done|].
    rewrite slice0_take, length_take by done. lia.
  - rewrite logStatusToFile_file. cbn. rewrite slice0_take by done.
    unfold readHistory. by destruct (statusFile w).
  - intros Hne. rewrite log_many_file by done.
    destruct snaps as [|s snaps]; [done|]. split; [done|].
    cbn [default from_option]. unfold id. by rewrite take_drop.
Qed.

(** C10.  When the read of the history file fails with an error whose code
    is not ENOENT, the only trace of it is one line on the error console:
    the promise is fulfilled, the cycle makes the same notification attempts
    as without the fault, and the file is replaced by the single new entry,
    whatever it held before. *)
Theorem read_fault_discards_history code message ps w :
  code <> Some "ENOENT" ->
  1 <= MAX_HISTORY cfg ->
  (logStatusToFile (Some (code, message)) None ps w).1 = Fulfilled /\
  statusFile (logStatusToFile (Some (code, message)) None ps w).2 =
    Some [entry_at (clock w) ps] /\
  trace (logStatusToFile (Some (code, message)) None ps w).2 =
    trace w ++ [Console ERROR ("[Error] Failed to read status history file: "
                               +:+ message)] /\
  notifications (trace (monitorProcesses (FetchOk ps) (Some (code, message))
                                         None w)) =
    notifications (trace (monitorProcesses (FetchOk ps) None None w)) /\
  (WEB_SERVER_ENABLED cfg = true ->
   statusFile (monitorProcesses (FetchOk ps) (Some (code, message)) None w) =
     Some [entry_at (clock w) ps]).
Proof.
  intros Hcode Hmax.
  assert (forall w0,
    logStatusToFile (Some (code, message)) None ps w0 =
    (Fulfilled,
     with_statusFile (Some [entry_at (clock w0) ps])
       (emit (Console ERROR ("[Error] Failed to read status history file: "
                             +:+ message)) w0))) as Hlog.
  { intros w0. rewrite logStatusToFile_file. cbn.
    rewrite bool_decide_eq_true_2 by done. rewrite slice0_take by lia.
    destruct (Z.to_nat (MAX_HISTORY cfg)) as [|n] eqn:Hn; [lia|].
    cbn. by rewrite take_nil. }
  rewrite Hlog. cbn [fst snd]. split_and!; try done.
  - unfold monitorProcesses.
    destruct (detectAndHandleRestarts ps w) as [R w1].
    destruct (WEB_SERVER_ENABLED cfg); [|done].
    set (w2 := checkStableProcesses ps R w1).
    destruct (logStatusToFile_spec None None ps w2)
      as (_ & _ & _ & _ & evs & Ht & Hn & _).
    rewrite Hlog. rewrite logStatusToFile_file in Ht |- *.
    cbn [snd] in Ht. rewrite Ht. cbn [trace with_statusFile emit].
    by rewrite !notifications_app, Hn.
  - intros Hweb. unfold monitorProcesses.
    destruct (detect_fold (currentRestartsByApp ps) ∅ w
                (currentRestartsByApp_NoDup ps))
      as (_ & _ & _ & Hk & _).
    unfold detectAndHandleRestarts.
    destruct (foldl detect_entry (∅, w) (currentRestartsByApp ps)) as [R w1].
    rewrite Hweb, Hlog. cbn.
    destruct (checkStableProcesses_spec ps R w1) as (_ & _ & -> & _).
    simpl in Hk. by rewrite Hk.
Qed.

End Facts.

(** ** Worked examples *)

(** The restart counts of a cluster are added up, name by name, in the order
    in which the names first appear. *)
Example currentRestartsByApp_cluster :
  currentRestartsByApp [api 0 "online" 3; worker; api 1 "online" 2] =
  [("api", 5); ("worker", 0)].
Proof. reflexivity. Qed.

(** "worker" at 85% CPU and 300 MB, online and not restarting: one 'High CPU
    Usage' notification and nothing else. *)
Example worker_high_cpu :
  notifications
    (trace (checkStableProcesses render_num render_time CONFIG [worker] ∅
                                 (boot 1000))) =
  [("worker", "High CPU Usage",
    "Instance `2` is using `85%` CPU.", "warning")].
Proof. vm_compute. reflexivity. Qed.

(** "api" seeded at 3: a cycle that still sees 3 is silent, the next one,
    seeing 5, flags it; the timer then finds it online at its second sample
    and stops there. *)
Example api_restart_scenario :
  let w1 := monitorProcesses render_num render_time CONFIG
              (FetchOk [api 0 "online" 3]) None None seeded in
  let w2 := monitorProcesses render_num render_time CONFIG
              (FetchOk [api 0 "launching" 5]) None None w1 in
  let w3 := run_ticks render_num render_time CONFIG 0
              [FetchOk [api 0 "launching" 5]; FetchOk [api 0 "online" 5];
               FetchOk [api 0 "online" 5]] w2 in
  notifications (trace w1) = [] /\
  notifications (trace w2) =
    [("api", "Process Restart Detected",
      "A restart was detected for 'api'. Monitoring status for up to 60 seconds.",
      "warning")] /\
  pollers w2 = [fresh_poller "api"] /\
  pollers w3 = [{| p_appName := "api"; p_attempts := 2;
                   p_phase := Stabilized |}] /\
  samples_of 0 (trace w3) = 2%nat /\
  map (fun n => n.1.1.2) (notifications (trace w3)) =
    ["Process Restart Detected"; "Restart Successful"].
Proof. vm_compute. repeat split; reflexivity. Qed.

(** Two instances of one cluster above the CPU ceiling in the same cycle:
    the second attempt is made before the first delivery has been answered,
    so both are posted. *)
Example same_turn_duplicates :
  posts_of "api::High CPU Usage"
    (trace (two_attempts render_time CONFIG "api" "High CPU Usage"
              "Instance `0` is using `91%` CPU." "warning"
              "Instance `1` is using `93%` CPU." "warning"
              None 1000 (boot 1000))) = 2%nat.
Proof. vm_compute. reflexivity. Qed.

(** ** The claims at concrete inputs *)

(** The cluster "api", seeded at 3, now at 3 + 2 = 5. *)
Lemma restart_is_detected_witness :
  "api" ∈ (detectAndHandleRestarts render_num render_time CONFIG
             [api 0 "online" 3; api 1 "launching" 2] seeded).1 /\
  attempts_of "api" "Process Restart Detected"
    (trace (monitorProcesses render_num render_time CONFIG
              (FetchOk [api 0 "online" 3; api 1 "launching" 2])
              None None seeded)) = 1%nat.
Proof.
  destruct (restart_is_detected render_num render_time CONFIG
              [api 0 "online" 3; api 1 "launching" 2] None None seeded
              "api" 3) as (Hin & Hone & _).
  - simpl. apply list_elem_of_here.
  - vm_compute. reflexivity.
  - vm_compute. reflexivity.
  - split; [exact Hin|exact Hone].
Defined.

(** Three runs in which no sample is stable and the timer does not end in
    [Failed] after exactly [RECHECK_MAX_ATTEMPTS] samples.
    - A fault at the first sample: the poller is [Errored] after one sample,
      not [Failed] after twelve.
    - A slow fetch: eleven samples are answered in time, the twelfth is not,
      and the timer fires a thirteenth time before the two answers arrive.
      Thirteen samples are taken for a budget of twelve, and each of the two
      answers sends its own 'Restart Failed' notice.
    - A budget of zero: the first answer ends the polling in [Failed] after
      one sample, one more than the budget. *)
Lemma poller_outcome_counterexample :
  let unstable := FetchOk [api 0 "launching" 5] in
  (let fs := FetchErr "spawn pm2 ENOENT" :: replicate 11 unstable in
   let w' := run_ticks render_num render_time CONFIG 0 fs polling in
   pollers polling !! 0%nat = Some (fresh_poller "api") /\
   length fs = 12%nat /\
   forallb (fun f => match f with
                     | FetchOk ps =>
                       negb (isAllOnline (appInstances_of "api" ps))
                     | FetchErr _ => true
                     end) fs = true /\
   phase_of 0 w' = Some Errored /\
   phase_of 0 w' <> Some Failed /\
   samples_of 0 (trace w') = 1%nat /\
   attempts_of "api" "Restart Failed" (trace w') = 0%nat) /\
  (let w11 := run_ticks render_num render_time CONFIG 0
                (replicate 11 unstable) polling in
   let fired := fires render_num CONFIG 2 0 w11 in
   let w' := fetch_answer render_num render_time CONFIG 0 unstable
               (fetch_answer render_num render_time CONFIG 0 unstable fired) in
   RECHECK_MAX_ATTEMPTS CONFIG = 12 /\
   phase_of 0 w11 = Some Polling /\
   samples_of 0 (trace w11) = 11%nat /\
   phase_of 0 w' = Some Failed /\
   samples_of 0 (trace w') = 13%nat /\
   attempts_made 0 w' = Some 13 /\
   attempts_of "api" "Restart Failed" (trace w') = 2%nat) /\
  (let w' := run_ticks render_num render_time no_retry 0 [unstable] polling in
   RECHECK_MAX_ATTEMPTS no_retry = 0 /\
   phase_of 0 w' = Some Failed /\
   samples_of 0 (trace w') = 1%nat /\
   attempts_of "api" "Restart Failed" (trace w') = 1%nat).
Proof. vm_compute. repeat split; try reflexivity. discriminate. Qed.

(** Twelve samples, the second of them stable. *)
Lemma poller_outcome_witness :
  phase_of 0 (run_ticks render_num render_time CONFIG 0
                (map FetchOk ([api 0 "launching" 5] ::
                              replicate 11 [api 0 "online" 5])) polling) =
  Some Stabilized.
Proof.
  destruct (poller_outcome render_num render_time CONFIG 0 "api"
              ([api 0 "launching" 5] :: replicate 11 [api 0 "online" 5])
              polling) as (Hiff & _).
  - reflexivity.
  - vm_compute. discriminate.
  - vm_compute. lia.
  - apply Hiff. exists 1%nat, [api 0 "online" 5].
    split; [vm_compute; lia|]. split; [reflexivity|].
    apply isAllOnline_spec. reflexivity.
Defined.

(** The first delivery fails; the second attempt, one second later and well
    within the window of thirty, is delivered too: two delivery attempts. *)
Lemma throttle_counterexample :
  let w := boot 1000 in
  let w' := two_attempts render_time CONFIG "api" "High CPU Usage"
              "Instance `0` is using `91%` CPU." "warning"
              "Instance `0` is using `91%` CPU." "warning"
              (Some (PostFailed "timeout of 1000ms exceeded")) 2000 w in
  throttled CONFIG (throttle_key "api" "High CPU Usage") (clock w) w = false /\
  0 <= 2000 - clock w < THROTTLE_DURATION_MS CONFIG /\
  attempts_of "api" "High CPU Usage" (trace w') = 2%nat /\
  posts_of (throttle_key "api" "High CPU Usage") (trace w') = 2%nat.
Proof. vm_compute. repeat split; try reflexivity; discriminate. Qed.

(** Different bodies, same subject and title, one second apart after a
    successful delivery: one delivery attempt. *)
Lemma throttle_by_subject_and_title_witness :
  posts_of (throttle_key "api" "High CPU Usage")
    (trace (two_attempts render_time CONFIG "api" "High CPU Usage"
              "Instance `0` is using `91%` CPU." "warning"
              "Instance `0` is using `97%` CPU." "warning"
              (Some PostOk) 2000 (boot 1000))) = 1%nat.
Proof.
  destruct (throttle_by_subject_and_title render_time CONFIG "api"
              "High CPU Usage" "Instance `0` is using `91%` CPU." "warning"
              "Instance `0` is using `97%` CPU." "warning" (Some PostOk) 2000
              (boot 1000)) as (_ & Hnear & _).
  - reflexivity.
  - vm_compute. discriminate.
  - apply Hnear; [reflexivity|vm_compute; reflexivity].
Defined.

(** "api" restarted, "worker" did not: a timer for the one, an evaluation
    for the other. *)
Lemma restarted_or_evaluated_witness :
  ("worker" ∉ (detectAndHandleRestarts render_num render_time CONFIG
                 [api 0 "launching" 5; worker] seeded).1) /\
  evaluated_of "worker"
    (trace (monitorProcesses render_num render_time CONFIG
              (FetchOk [api 0 "launching" 5; worker]) None None seeded)) =
  1%nat.
Proof.
  destruct (restarted_or_evaluated render_num render_time CONFIG
              [api 0 "launching" 5; worker] None None seeded worker)
    as [(Hin & _)|(Hnot & _ & Hev & _)].
  - apply list_elem_of_further, list_elem_of_here.
  - exfalso. apply (restarted_iff render_num render_time CONFIG) in Hin.
    vm_compute in Hin. discriminate.
  - split; [exact Hnot|exact Hev].
Defined.

(** A pending delivery fails: the cache stays empty. *)
Lemma failed_delivery_keeps_window_witness :
  notificationThrottleCache
    (settle 0 (PostFailed "socket hang up")
       (sendSlackNotification render_time CONFIG "api" "Restart Failed"
          "App 'api' failed to become 'online' within the time limit."
          "danger" (boot 1000))).2 = ∅.
Proof.
  destruct (failed_delivery_keeps_window render_num render_time CONFIG 0
              "socket hang up"
              (sendSlackNotification render_time CONFIG "api" "Restart Failed"
                 "App 'api' failed to become 'online' within the time limit."
                 "danger" (boot 1000))
              {| s_key := "api::Restart Failed"; s_now := 1000 |})
    as (_ & Hcache & _).
  - reflexivity.
  - rewrite Hcache. reflexivity.
Defined.

(** "worker" is new to a history that knows "api" only; and a script that
    starts on a cluster with five restarts and sees five again is silent. *)
Lemma no_alert_without_history_witness :
  appRestartHistory
    (monitorProcesses render_num render_time CONFIG
       (FetchOk [api 0 "online" 3; worker]) None None seeded) !! "worker" =
    Some 0 /\
  attempts_of "api" "Process Restart Detected"
    (trace (initialize render_num render_time CONFIG
              [api 0 "online" 3; api 1 "online" 2]
              (FetchOk [api 0 "online" 3; api 1 "online" 2]) None None
              (boot 1000))) = 0%nat.
Proof.
  destruct (no_alert_without_history render_num render_time CONFIG
              [api 0 "online" 3; worker] None None seeded "worker"
              [api 0 "online" 3; api 1 "online" 2]
              [api 0 "online" 3; api 1 "online" 2] None None (boot 1000))
    as ((Hrec & _) & _ & _ & Hquiet).
  - apply list_elem_of_further, list_elem_of_here.
  - reflexivity.
  - reflexivity.
  - split; [exact Hrec|]. rewrite Hquiet; [reflexivity|]. lia.
Defined.

(** Room for two entries, a file that holds one entry, three appends: the
    file ends with the two most recent entries, the most recent first; the
    entry it held and the first of the three appended are the ones dropped,
    in that order from the tail. *)
Lemma history_is_bounded_witness :
  statusFile
    (log_many render_time short_history
       [(1000, [worker]); (2000, [api 0 "online" 3]); (3000, [worker])]
       (with_statusFile (Some [entry_at render_time 500 [worker]])
                        (boot 1000))) =
    Some [entry_at render_time 3000 [worker];
          entry_at render_time 2000 [api 0 "online" 3]] /\
  [entry_at render_time 3000 [worker];
   entry_at render_time 2000 [api 0 "online" 3];
   entry_at render_time 1000 [worker];
   entry_at render_time 500 [worker]] =
    default []
      (statusFile
         (log_many render_time short_history
            [(1000, [worker]); (2000, [api 0 "online" 3]); (3000, [worker])]
            (with_statusFile (Some [entry_at render_time 500 [worker]])
                             (boot 1000)))) ++
    [entry_at render_time 1000 [worker]; entry_at render_time 500 [worker]].
Proof.
  destruct (history_is_bounded render_time short_history None [worker]
              (with_statusFile (Some [entry_at render_time 500 [worker]])
                               (boot 1000))
              [(1000, [worker]); (2000, [api 0 "online" 3]);
               (3000, [worker])])
    as (_ & _ & Hmany).
  - vm_compute. discriminate.
  - destruct Hmany as (Hfile & Hdropped); [discriminate|].
    split; [rewrite Hfile; reflexivity|].
    etransitivity; [|etransitivity; [exact Hdropped|]]; reflexivity.
Defined.


(** A file with two entries, an EACCES on the read: one entry is left. *)
Lemma read_fault_discards_history_witness :
  statusFile
    (logStatusToFile render_time CONFIG (Some (Some "EACCES", "EACCES: permission denied"))
       None [worker]
       (with_statusFile (Some [entry_at render_time 940 [worker];
                               entry_at render_time 880 [worker]])
                        (boot 1000))).2 =
  Some [entry_at render_time 1000 [worker]].
Proof.
  destruct (read_fault_discards_history render_num render_time CONFIG
              (Some "EACCES") "EACCES: permission denied" [worker]
              (with_statusFile (Some [entry_at render_time 940 [worker];
                                      entry_at render_time 880 [worker]])
                               (boot 1000)))
    as (_ & Hfile & _).
  - discriminate.
  - vm_compute. discriminate.
  - exact Hfile.
Defined.

(** * Beyond the claims *)

Section MoreFacts.

Variable num_to_string : Q -> string.
Variable toLocaleString : Z -> string.
Variable cfg : Config.
Variable excluded : list string.
Variable megabytes : Q -> Q.

Local Abbreviation send := (sendSlackNotification toLocaleString cfg).
Local Abbreviation send_events := (send_events toLocaleString cfg).
Local Abbreviation throttled := (throttled cfg).
Local Abbreviation detect_entry := (detect_entry num_to_string toLocaleString cfg).
Local Abbreviation detectAndHandleRestarts :=
  (detectAndHandleRestarts num_to_string toLocaleString cfg).
Local Abbreviation interval_tick := (interval_tick num_to_string toLocaleString cfg).
Local Abbreviation run_ticks := (run_ticks num_to_string toLocaleString cfg).
Local Abbreviation check_proc := (check_proc num_to_string toLocaleString cfg).
Local Abbreviation checkStableProcesses :=
  (checkStableProcesses num_to_string toLocaleString cfg).
Local Abbreviation logStatusToFile := (logStatusToFile toLocaleString cfg).
Local Abbreviation monitorProcesses :=
  (monitorProcesses num_to_string toLocaleString cfg).
Local Abbreviation initialize := (initialize num_to_string toLocaleString cfg).
Local Abbreviation act := (act num_to_string toLocaleString cfg).
Local Abbreviation run := (run num_to_string toLocaleString cfg).
Local Abbreviation clock_forward := (clock_forward num_to_string toLocaleString cfg).
Local Abbreviation burst := (burst toLocaleString cfg).
Local Abbreviation expected_alerts := (expected_alerts num_to_string cfg).
Local Abbreviation cycle_catch := (cycle_catch toLocaleString cfg).
Local Abbreviation entry_at := (entry_at toLocaleString).
Local Abbreviation restart_message := (restart_message num_to_string cfg).
Local Abbreviation restart_notices := (restart_notices num_to_string cfg).
Local Abbreviation normalize := (normalize megabytes).
Local Abbreviation map_records := (map_records megabytes).
Local Abbreviation getPm2Processes := (getPm2Processes excluded megabytes).
Local Abbreviation start_script :=
  (start_script num_to_string toLocaleString cfg excluded megabytes).
Local Abbreviation poll_rule := (poll_rule num_to_string cfg).
Local Abbreviation timer_fire := (timer_fire num_to_string cfg).
Local Abbreviation fetch_answer := (fetch_answer num_to_string toLocaleString cfg).
Local Abbreviation fires := (fires num_to_string cfg).

(** ** The snapshot source *)

Lemma map_records_inr raws ps :
  map_records raws = inr ps ->
  map name ps = map raw_name raws /\
  map pm_id ps = map raw_pm_id raws /\
  Forall (fun r => is_Some (raw_pm2_env r) /\ is_Some (raw_monit r)) raws.
Proof.
  revert ps. induction raws as [|r raws IH]; intros ps; cbn [map_records].
  - intros [= <-]. split_and!; [done|done|apply Forall_nil_2].
  - unfold normalize at 1.
    destruct (raw_pm2_env r) as [env|] eqn:He; [|done].
    destruct (raw_monit r) as [monit|] eqn:Hm; [|done].
    destruct (map_records raws) as [message|qs]; [done|].
    intros [= <-]. destruct (IH qs eq_refl) as (Hn & Hi & Hall).
    cbn [map name pm_id]. rewrite Hn, Hi. split_and!; [done|done|].
    apply Forall_cons. rewrite He, Hm. eauto.
Qed.

Lemma map_records_inl raws :
  (exists message, map_records raws = inl message) <->
  exists r, r ∈ raws /\ (raw_pm2_env r = None \/ raw_monit r = None).
Proof.
  induction raws as [|r raws IH]; cbn [map_records].
  - split; [intros [m Hm]; done|]. intros (r & Hr & _).
    by apply elem_of_nil in Hr.
  - unfold normalize at 1.
    destruct (raw_pm2_env r) as [env|] eqn:He.
    + destruct (raw_monit r) as [monit|] eqn:Hm.
      * destruct (map_records raws) as [message|qs].
        -- split; [|by eauto]. intros _.
           destruct (proj1 IH) as (r' & Hr' & Hbad); [by eauto|].
           exists r'. split; [by apply list_elem_of_further|done].
        -- split; [intros [m Hm']; done|].
           intros (r' & Hr' & Hbad). apply elem_of_cons in Hr' as [->|Hr'].
           ++ destruct Hbad; congruence.
           ++ destruct (proj2 IH) as [m Hm']; [by eauto|done].
      * split; [|by eauto]. intros _. exists r.
        split; [apply list_elem_of_here|by right].
    + split; [|by eauto]. intros _. exists r.
      split; [apply list_elem_of_here|by left].
Qed.

(** X1.  The snapshot of a well-formed listing holds the records of the names
    that are not excluded, and only those, in the order of the listing. *)
Theorem snapshot_leaves_out_excluded parsed ps :
  getPm2Processes (Records parsed) = FetchOk ps ->
  map name ps = filter (fun n => n ∉ excluded) (map raw_name parsed) /\
  (forall p, p ∈ ps -> name p ∉ excluded) /\
  (forall n, n ∈ excluded -> aggregated n ps = 0 /\ appInstances_of n ps = []).
Proof.
  unfold getPm2Processes.
  destruct (map_records (filter (fun r => raw_name r ∉ excluded) parsed))
    as [message|qs] eqn:Hmap; [done|].
  intros [= <-]. apply map_records_inr in Hmap as (Hn & _ & _).
  assert (forall p, p ∈ qs -> name p ∉ excluded) as Hout.
  { intros p Hp.
    assert (name p ∈ map name qs) as Hin
      by (apply list_elem_of_fmap; by exists p).
    rewrite Hn in Hin. apply list_elem_of_fmap in Hin as (r & -> & Hr).
    by apply list_elem_of_filter in Hr as [Hr _]. }
  split_and!; [|done|].
  - rewrite Hn. clear. induction parsed as [|r parsed IH]; [done|].
    cbn [map]. rewrite !filter_cons.
    destruct (decide (raw_name r ∉ excluded)); cbn [map]; by rewrite IH.
  - intros n Hn'.
    assert (filter (fun p => name p = n) qs = []) as Hnone.
    { apply elem_of_nil_inv. intros p Hp.
      apply list_elem_of_filter in Hp as [<- Hp]. by apply (Hout p). }
    unfold aggregated, appInstances_of. by rewrite Hnone.
Qed.

(** X2.  The listing is rejected exactly when a record of a name that is not
    excluded lacks [pm2_env] or [monit]; such a record of an excluded name
    does no harm. *)
Theorem snapshot_fault_iff parsed :
  (exists message, getPm2Processes (Records parsed) = FetchErr message) <->
  exists r, r ∈ parsed /\ (raw_name r ∉ excluded) /\
            (raw_pm2_env r = None \/ raw_monit r = None).
Proof.
  unfold getPm2Processes.
  pose proof (map_records_inl
                (filter (fun r => raw_name r ∉ excluded) parsed)) as Hinl.
  destruct (map_records (filter (fun r => raw_name r ∉ excluded) parsed))
    as [message|qs].
  - split; [|by eauto]. intros _.
    destruct (proj1 Hinl) as (r & Hr & Hbad); [by eauto|].
    apply list_elem_of_filter in Hr as [Hex Hr]. by exists r.
  - split; [intros [m Hm]; done|]. intros (r & Hr & Hex & Hbad).
    destruct (proj2 Hinl) as [m Hm]; [|done].
    exists r. split; [by apply list_elem_of_filter|done].
Qed.

(** ** The cycle *)

Lemma logStatusToFile_reject rf message ps w :
  logStatusToFile rf (Some message) ps w =
  (Rejected message,
   match readHistory rf w with
   | ReadOk _ => w
   | ReadError code message' =>
     if bool_decide (code ≠ Some "ENOENT") then
       emit (Console ERROR ("[Error] Failed to read status history file: "
                            +:+ message')) w
     else w
   end).
Proof.
  unfold logStatusToFile.
  destruct (readHistory rf w) as [h|code message']; [done|].
  by case_bool_decide.
Qed.

(** The events of one cycle on a snapshot, stage by stage. *)
Lemma cycle_decomposition ps rf wf w :
  exists evs1 evs2 evs3,
    trace (monitorProcesses (FetchOk ps) rf wf w) =
      trace w ++ evs1 ++ evs2 ++ evs3 /\
    (forall a t, attempts_of a t evs1 =
       if restart_seen (appRestartHistory w) a (currentRestartsByApp ps) &&
          bool_decide (t = "Process Restart Detected")
       then 1%nat else 0%nat) /\
    notifications evs2 =
      flat_map expected_alerts
        (filter (fun p => name p ∉ (detectAndHandleRestarts ps w).1) ps) /\
    (notifications evs3 = [] \/
     exists message,
       notifications evs3 =
       [("PM2 Monitor", "Monitoring Script Error", message, "danger")]).
Proof.
  unfold monitorProcesses, detectAndHandleRestarts.
  destruct (detect_fold num_to_string toLocaleString cfg
              (currentRestartsByApp ps) ∅ w (currentRestartsByApp_NoDup ps))
    as (_ & _ & _ & _ & _ & _ & evs1 & Ht1 & Ha1 & _).
  destruct (foldl detect_entry (∅, w) (currentRestartsByApp ps)) as [R1 w1].
  simpl in Ht1 |- *.
  destruct (checkStableProcesses_spec num_to_string toLocaleString cfg ps R1 w1)
    as (_ & _ & _ & _ & _ & evs2 & Ht2 & Hn2 & _).
  set (w2 := checkStableProcesses ps R1 w1) in *.
  exists evs1, evs2.
  destruct (WEB_SERVER_ENABLED cfg).
  - destruct (logStatusToFile_spec toLocaleString cfg rf wf ps w2)
      as (_ & _ & _ & _ & evs3 & Ht3 & Hn3 & _).
    destruct (logStatusToFile rf wf ps w2) as [[|message] w3]; simpl in Ht3.
    + exists evs3. rewrite Ht3, Ht2, Ht1, <- !app_assoc. split_and!; try done.
      by left.
    + destruct (cycle_catch_spec toLocaleString cfg message w3)
        as (_ & _ & _ & _ & _ & evs4 & Ht4 & Hn4 & _).
      exists (evs3 ++ evs4). rewrite Ht4, Ht3, Ht2, Ht1, <- !app_assoc.
      split_and!; try done. right. exists message.
      by rewrite notifications_app, Hn3, Hn4.
  - exists []. rewrite Ht2, Ht1, <- !app_assoc, app_nil_r.
    split_and!; try done. by left.
Qed.

(** A cycle does nothing about a name that is not in its snapshot. *)
Lemma cycle_absent ps rf wf w a :
  a ∉ map name ps ->
  a <> "PM2 Monitor" ->
  (forall t, attempts_of a t (trace (monitorProcesses (FetchOk ps) rf wf w)) =
             attempts_of a t (trace w)) /\
  timers_of a (trace (monitorProcesses (FetchOk ps) rf wf w)) =
    timers_of a (trace w) /\
  evaluated_of a (trace (monitorProcesses (FetchOk ps) rf wf w)) =
    evaluated_of a (trace w) /\
  appRestartHistory (monitorProcesses (FetchOk ps) rf wf w) !! a =
    appRestartHistory w !! a.
Proof.
  intros Hout Hne.
  assert (restart_seen (appRestartHistory w) a (currentRestartsByApp ps)
          = false) as Hseen.
  { apply not_true_is_false. by intros (Hin & _)%restart_seen_spec. }
  destruct (monitorProcesses_spec num_to_string toLocaleString cfg ps rf wf w)
    as (Hh & _ & _ & _ & evs & Ht & _ & Hs & He & _).
  split_and!.
  - intros t.
    destruct (cycle_decomposition ps rf wf w)
      as (evs1 & evs2 & evs3 & Ht' & Ha1 & Hn2 & Hn3).
    rewrite Ht', !attempts_of_app, Ha1, Hseen. cbn [andb].
    rewrite (attempts_zero a t evs2), (attempts_zero a t evs3); [lia|..].
    + intros x Hx Hxa _. destruct Hn3 as [Hn3|[m Hn3]]; rewrite Hn3 in Hx.
      * by apply elem_of_nil in Hx.
      * apply list_elem_of_singleton in Hx as ->. simpl in Hxa. congruence.
    + intros x Hx Hxa _. rewrite Hn2 in Hx.
      apply expected_alerts_flat in Hx as (p & Hp & Hx).
      apply list_elem_of_filter in Hp as [_ Hp].
      apply expected_alerts_elem in Hx as [Hname _].
      apply Hout. apply list_elem_of_fmap. exists p. split; [congruence|done].
  - rewrite Ht, timers_of_app, Hs, Hseen. lia.
  - rewrite Ht, evaluated_of_app, He.
    assert (filter (fun p => name p = a) ps = []) as ->.
    { apply elem_of_nil_inv. intros p Hp.
      apply list_elem_of_filter in Hp as [<- Hp]. apply Hout.
      apply list_elem_of_fmap. by exists p. }
    destruct (decide _); simpl; lia.
  - rewrite Hh, currentRestartsByApp_get, decide_False by done. done.
Qed.

(** X3.  An excluded name is never the subject of a cycle: no notification
    attempt under any title, no timer, no evaluation, and its entry in the
    restart history is not touched. *)
Theorem excluded_never_monitored parsed ps rf wf w a :
  getPm2Processes (Records parsed) = FetchOk ps ->
  a ∈ excluded ->
  a <> "PM2 Monitor" ->
  (forall t,
     attempts_of a t
       (trace (monitorProcesses (getPm2Processes (Records parsed)) rf wf w)) =
     attempts_of a t (trace w)) /\
  timers_of a
    (trace (monitorProcesses (getPm2Processes (Records parsed)) rf wf w)) =
    timers_of a (trace w) /\
  evaluated_of a
    (trace (monitorProcesses (getPm2Processes (Records parsed)) rf wf w)) =
    evaluated_of a (trace w) /\
  appRestartHistory
    (monitorProcesses (getPm2Processes (Records parsed)) rf wf w) !! a =
    appRestartHistory w !! a.
Proof.
  intros Hfetch Hex Hne. rewrite Hfetch. apply cycle_absent; [|done].
  unfold getPm2Processes in Hfetch.
  destruct (map_records (filter (fun r => raw_name r ∉ excluded) parsed))
    as [message|qs] eqn:Hmap; [done|].
  injection Hfetch as <-. apply map_records_inr in Hmap as (Hn & _ & _).
  rewrite Hn. intros (r & -> & Hr)%list_elem_of_fmap.
  by apply list_elem_of_filter in Hr as [Hr _].
Qed.

(** X4.  When [pm2 jlist] fails, or prints what is not an array of well-formed
    records, the cycle leaves the restart history, the throttle cache, the
    timers and the history file as they are, and makes exactly one
    notification attempt: 'Monitoring Script Error' for 'PM2 Monitor', with
    the error message, as 'danger'. *)
Theorem cycle_on_failed_snapshot out message rf wf w :
  getPm2Processes out = FetchErr message ->
  appRestartHistory (monitorProcesses (getPm2Processes out) rf wf w) =
    appRestartHistory w /\
  notificationThrottleCache (monitorProcesses (getPm2Processes out) rf wf w) =
    notificationThrottleCache w /\
  pollers (monitorProcesses (getPm2Processes out) rf wf w) = pollers w /\
  statusFile (monitorProcesses (getPm2Processes out) rf wf w) = statusFile w /\
  notifications (trace (monitorProcesses (getPm2Processes out) rf wf w)) =
    notifications (trace w) ++
    [("PM2 Monitor", "Monitoring Script Error", message, "danger")] /\
  (forall n, evaluated_of n
               (trace (monitorProcesses (getPm2Processes out) rf wf w)) =
             evaluated_of n (trace w)).
Proof.
  intros ->.
  destruct (cycle_catch_spec toLocaleString cfg message w)
    as (Hh & Hc & _ & Hp & Hf & evs & Ht & Hn & _ & He).
  change (monitorProcesses (FetchErr message) rf wf w)
    with (cycle_catch message w).
  rewrite Hh, Hc, Hp, Hf, Ht, notifications_app, Hn. split_and!; try done.
  intros n. rewrite evaluated_of_app, He. lia.
Qed.

(** X5.  When the write of the history file fails (the web server being
    enabled), the restart history, the timers and the notification attempts
    are those of the cycle without the fault, followed by one 'Monitoring
    Script Error' that carries the message of the fault.  Nothing is said of
    what the file holds afterwards. *)
Theorem cycle_on_write_fault ps rf message w :
  WEB_SERVER_ENABLED cfg = true ->
  appRestartHistory (monitorProcesses (FetchOk ps) rf (Some message) w) =
    appRestartHistory (monitorProcesses (FetchOk ps) rf None w) /\
  pollers (monitorProcesses (FetchOk ps) rf (Some message) w) =
    pollers (monitorProcesses (FetchOk ps) rf None w) /\
  notifications (trace (monitorProcesses (FetchOk ps) rf (Some message) w)) =
    notifications (trace (monitorProcesses (FetchOk ps) rf None w)) ++
    [("PM2 Monitor", "Monitoring Script Error", message, "danger")].
Proof.
  intros Hweb. unfold monitorProcesses, detectAndHandleRestarts.
  destruct (foldl detect_entry (∅, w) (currentRestartsByApp ps)) as [R1 w1].
  set (w2 := checkStableProcesses ps R1 w1).
  rewrite Hweb, logStatusToFile_reject, logStatusToFile_file.
  set (wl := match readHistory rf w2 with
             | ReadOk _ => w2
             | ReadError code message' =>
               if bool_decide (code ≠ Some "ENOENT") then
                 emit (Console ERROR
                         ("[Error] Failed to read status history file: "
                          +:+ message')) w2
               else w2
             end).
  destruct (cycle_catch_spec toLocaleString cfg message wl)
    as (Hh & _ & _ & Hp & _ & evs & Ht & Hn & _).
  rewrite Hh, Hp, Ht, notifications_app, Hn.
  done.
Qed.

(** X6.  A restart is reported once.  After a cycle on one snapshot, the next
    cycle makes a 'Process Restart Detected' attempt and starts a timer for a
    name of the first snapshot exactly when the name is in the second
    snapshot with a larger aggregated count, whatever the history held
    before; on the same snapshot again it stays silent. *)
Theorem restart_reported_once S S' rf wf rf' wf' w n :
  n ∈ map name S ->
  attempts_of n "Process Restart Detected"
    (trace (monitorProcesses (FetchOk S') rf' wf'
              (monitorProcesses (FetchOk S) rf wf w))) =
    (attempts_of n "Process Restart Detected"
       (trace (monitorProcesses (FetchOk S) rf wf w)) +
     if decide (n ∈ map name S' /\ (aggregated n S < aggregated n S')%Z)
     then 1 else 0)%nat /\
  timers_of n
    (trace (monitorProcesses (FetchOk S') rf' wf'
              (monitorProcesses (FetchOk S) rf wf w))) =
    (timers_of n (trace (monitorProcesses (FetchOk S) rf wf w)) +
     if decide (n ∈ map name S' /\ (aggregated n S < aggregated n S')%Z)
     then 1 else 0)%nat /\
  attempts_of n "Process Restart Detected"
    (trace (monitorProcesses (FetchOk S) rf' wf'
              (monitorProcesses (FetchOk S) rf wf w))) =
    attempts_of n "Process Restart Detected"
      (trace (monitorProcesses (FetchOk S) rf wf w)).
Proof.
  intros Hin.
  set (w1 := monitorProcesses (FetchOk S) rf wf w).
  assert (appRestartHistory w1 !! n = Some (aggregated n S)) as Hstored.
  { destruct (monitorProcesses_spec num_to_string toLocaleString cfg S rf wf w)
      as (Hh & _).
    unfold w1. rewrite Hh, currentRestartsByApp_get, decide_True by done.
    done. }
  assert (forall T,
    restart_seen (appRestartHistory w1) n (currentRestartsByApp T) =
    if decide (n ∈ map name T /\ aggregated n S < aggregated n T)
    then true else false) as Hseen.
  { intros T. destruct (decide _) as [[HinT Hlt]|Hno].
    - apply restart_seen_spec. split; [done|]. by exists (aggregated n S).
    - apply not_true_is_false.
      intros (HinT & prev & Hprev & Hlt)%restart_seen_spec.
      apply Hno. split; [done|]. congruence. }
  assert (forall T rf0 wf0,
    attempts_of n "Process Restart Detected"
      (trace (monitorProcesses (FetchOk T) rf0 wf0 w1)) =
      (attempts_of n "Process Restart Detected" (trace w1) +
       if decide (n ∈ map name T /\ (aggregated n S < aggregated n T)%Z)
       then 1 else 0)%nat /\
    timers_of n (trace (monitorProcesses (FetchOk T) rf0 wf0 w1)) =
      (timers_of n (trace w1) +
       if decide (n ∈ map name T /\ (aggregated n S < aggregated n T)%Z)
       then 1 else 0)%nat) as Hnext.
  { intros T rf0 wf0.
    destruct (monitorProcesses_spec num_to_string toLocaleString cfg T rf0 wf0 w1)
      as (_ & _ & _ & _ & evs & Ht & Ha & Hs & _).
    rewrite Ht, attempts_of_app, timers_of_app, Ha, Hs, Hseen.
    by destruct (decide _). }
  destruct (Hnext S' rf' wf') as [Ha Hs].
  destruct (Hnext S rf' wf') as [Ha' _].
  split_and!; [done|done|].
  rewrite Ha', decide_False; [lia|]. intros [_ Hlt]. lia.
Qed.

(** X7.  When the aggregated count of a name has not risen above the stored
    total, the stored total still follows it (also downwards), and there is
    no flag, no 'Process Restart Detected' attempt and no timer. *)
Theorem total_follows_without_alert ps rf wf w n prevRestarts :
  n ∈ map name ps ->
  appRestartHistory w !! n = Some prevRestarts ->
  aggregated n ps <= prevRestarts ->
  appRestartHistory (monitorProcesses (FetchOk ps) rf wf w) !! n =
    Some (aggregated n ps) /\
  (n ∉ (detectAndHandleRestarts ps w).1) /\
  attempts_of n "Process Restart Detected"
    (trace (monitorProcesses (FetchOk ps) rf wf w)) =
    attempts_of n "Process Restart Detected" (trace w) /\
  timers_of n (trace (monitorProcesses (FetchOk ps) rf wf w)) =
    timers_of n (trace w).
Proof.
  intros Hin Hprev Hle.
  assert (restart_seen (appRestartHistory w) n (currentRestartsByApp ps)
          = false) as Hseen.
  { apply not_true_is_false.
    intros (_ & prev & Hprev' & Hlt)%restart_seen_spec.
    assert (prev = prevRestarts) by congruence. lia. }
  destruct (monitorProcesses_spec num_to_string toLocaleString cfg ps rf wf w)
    as (Hh & _ & _ & _ & evs & Ht & Ha & Hs & _).
  split_and!.
  - rewrite Hh, currentRestartsByApp_get, decide_True by done. done.
  - rewrite (restarted_iff num_to_string toLocaleString cfg), Hseen. done.
  - rewrite Ht, attempts_of_app, Ha, Hseen. lia.
  - rewrite Ht, timers_of_app, Hs, Hseen. lia.
Qed.

Lemma aggregated_Permutation n ps ps' :
  ps ≡ₚ ps' -> aggregated n ps = aggregated n ps'.
Proof.
  unfold aggregated. induction 1 as [|p ps ps' _ IH|p q ps|ps ps' ps'' _ IH1 _ IH2].
  - done.
  - rewrite !filter_cons. destruct (decide _); simpl; lia.
  - rewrite !filter_cons.
    destruct (decide (name p = n)), (decide (name q = n)); simpl; lia.
  - congruence.
Qed.

(** X8.  The order in which [pm2 jlist] lists the instances does not matter to
    restart detection: a reordered snapshot flags the same names and stores
    the same totals. *)
Theorem listing_order_irrelevant ps ps' rf wf w :
  ps ≡ₚ ps' ->
  (detectAndHandleRestarts ps w).1 = (detectAndHandleRestarts ps' w).1 /\
  appRestartHistory (monitorProcesses (FetchOk ps) rf wf w) =
    appRestartHistory (monitorProcesses (FetchOk ps') rf wf w) /\
  (forall n,
     attempts_of n "Process Restart Detected"
       (trace (monitorProcesses (FetchOk ps) rf wf w)) =
     attempts_of n "Process Restart Detected"
       (trace (monitorProcesses (FetchOk ps') rf wf w))).
Proof.
  intros Hperm.
  assert (forall n, n ∈ map name ps <-> n ∈ map name ps') as Hnames.
  { intros n. by rewrite Hperm. }
  assert (forall n,
    restart_seen (appRestartHistory w) n (currentRestartsByApp ps) =
    restart_seen (appRestartHistory w) n (currentRestartsByApp ps')) as Hseen.
  { intros n. apply eq_true_iff_eq. rewrite !restart_seen_spec.
    rewrite (aggregated_Permutation n ps ps' Hperm), Hnames. done. }
  destruct (monitorProcesses_spec num_to_string toLocaleString cfg ps rf wf w)
    as (Hh & _ & _ & _ & evs & Ht & Ha & _).
  destruct (monitorProcesses_spec num_to_string toLocaleString cfg ps' rf wf w)
    as (Hh' & _ & _ & _ & evs' & Ht' & Ha' & _).
  split_and!.
  - apply set_eq. intros n.
    rewrite !(restarted_iff num_to_string toLocaleString cfg), Hseen. done.
  - apply map_eq. intros n. rewrite Hh, Hh', !currentRestartsByApp_get.
    rewrite (aggregated_Permutation n ps ps' Hperm).
    destruct (decide (n ∈ map name ps)) as [Hin|Hnin].
    + rewrite decide_True; [done|by apply Hnames].
    + rewrite decide_False; [done|]. by rewrite <- Hnames.
  - intros n. rewrite Ht, Ht', !attempts_of_app, Ha, Ha', Hseen. done.
Qed.

(** ** Timers *)

Lemma act_keeps_poller a w i p :
  (forall f, a <> Tick i f) ->
  pollers w !! i = Some p ->
  pollers (act a w) !! i = Some p.
Proof.
  intros Hother Hp. destruct a as [t|fetch rf wf|j f|j r]; unfold act.
  - done.
  - destruct fetch as [ps|message].
    + destruct (monitorProcesses_spec num_to_string toLocaleString cfg ps rf wf w)
        as (_ & _ & _ & (qs & -> & _) & _).
      by apply lookup_app_l_Some.
    + change (monitorProcesses (FetchErr message) rf wf w)
        with (cycle_catch message w).
      by destruct (cycle_catch_spec toLocaleString cfg message w)
        as (_ & _ & _ & -> & _).
  - assert (j <> i) as Hne by (intros ->; by apply (Hother f)).
    destruct (pollers w !! j) as [[appName attempts0 ph]|] eqn:Hj.
    + destruct ph.
      * destruct (interval_tick_spec num_to_string toLocaleString cfg
                    j f w appName attempts0 Hj) as (-> & _).
        by rewrite list_lookup_insert_ne.
      * rewrite interval_tick_done; [done|]. unfold phase_of. by rewrite Hj.
      * rewrite interval_tick_done; [done|]. unfold phase_of. by rewrite Hj.
      * rewrite interval_tick_done; [done|]. unfold phase_of. by rewrite Hj.
    + rewrite interval_tick_done; [done|]. unfold phase_of. by rewrite Hj.
  - unfold settle. destruct (inflight w !! j); [destruct r|]; done.
Qed.

(** X10.  Nothing but its own firings changes a timer: cycles (which only add
    timers), firings of other timers, answers to deliveries and the clock
    leave its name, its attempt counter and its phase as they are. *)
Theorem poller_is_isolated acts w i p :
  Forall (fun a => forall f, a <> Tick i f) acts ->
  pollers w !! i = Some p ->
  pollers (run acts w) !! i = Some p.
Proof.
  unfold run. revert w.
  induction acts as [|a acts IH]; intros w Hall Hp; cbn [foldl]; [done|].
  apply Forall_cons in Hall as [Ha Hall].
  apply IH; [done|]. by apply act_keeps_poller.
Qed.

Lemma timer_fire_polling i w appName attempts0 :
  pollers w !! i = Some {| p_appName := appName; p_attempts := attempts0;
                           p_phase := Polling |} ->
  pollers (timer_fire i w) =
    <[i := {| p_appName := appName; p_attempts := attempts0 + 1;
              p_phase := Polling |}]> (pollers w) /\
  exists line, trace (timer_fire i w) = trace w ++ [Console LOG line; Sample i].
Proof.
  intros Hp. unfold timer_fire. rewrite Hp. cbn. split; [done|].
  eexists. by rewrite <- app_assoc.
Qed.

Lemma fires_polling i appName k : forall w attempts0,
  pollers w !! i = Some {| p_appName := appName; p_attempts := attempts0;
                           p_phase := Polling |} ->
  pollers (fires k i w) !! i =
    Some {| p_appName := appName; p_attempts := attempts0 + Z.of_nat k;
            p_phase := Polling |} /\
  samples_of i (trace (fires k i w)) = (samples_of i (trace w) + k)%nat /\
  notifications (trace (fires k i w)) = notifications (trace w).
Proof.
  unfold fires. induction k as [|k IH]; intros w attempts0 Hp.
  - cbn [Nat.iter]. rewrite Z.add_0_r, Nat.add_0_r. done.
  - rewrite Nat.iter_succ. destruct (IH w attempts0 Hp) as (Hq & Hs & Hn).
    set (w1 := Nat.iter k (timer_fire i) w) in *.
    destruct (timer_fire_polling i w1 appName _ Hq) as (-> & line & ->).
    rewrite list_lookup_insert_eq by (by eapply lookup_lt_Some).
    rewrite samples_of_app, notifications_app, Hs, Hn.
    unfold samples_of at 2. cbn.
    rewrite bool_decide_eq_true_2 by done. rewrite app_nil_r.
    split_and!; [do 2 f_equal; lia|lia|done].
Qed.

(** What an answer does to a timer, whatever was fired in between. *)
Lemma fetch_answer_spec i f w appName attempts ph :
  pollers w !! i = Some {| p_appName := appName; p_attempts := attempts;
                           p_phase := ph |} ->
  pollers (fetch_answer i f w) !! i =
    Some {| p_appName := appName; p_attempts := attempts;
            p_phase := match (poll_rule appName attempts f).1 with
                       | Polling => ph
                       | terminal => terminal
                       end |} /\
  notifications (trace (fetch_answer i f w)) =
    notifications (trace w) ++ (poll_rule appName attempts f).2 /\
  (forall j, samples_of j (trace (fetch_answer i f w)) =
             samples_of j (trace w)).
Proof.
  intros Hp. pose proof (lookup_lt_Some _ _ _ Hp) as Hlt.
  unfold fetch_answer, poll_rule, poll_catch, isAllOnline, with_poller.
  rewrite Hp. cbn beta iota.
  destruct f as [processes|message].
  - destruct (appInstances_of appName processes) as [|first rest] eqn:Hinst.
    + cbn [length bool_decide andb head].
      rewrite (bool_decide_eq_false_2 (0 < 0)%nat) by lia. cbn [andb].
      case_bool_decide.
      * rewrite send_pollers, send_trace.
        cbn [pollers trace emit with_pollers fst snd].
        rewrite list_lookup_insert_eq by done.
        split_and!; [done| |].
        -- rewrite !notifications_app, send_events_notifications. cbn.
           by rewrite !app_nil_r.
        -- intros j. rewrite !samples_of_app, send_events_samples.
           unfold samples_of at 2 3. cbn. lia.
      * cbn [fst snd]. rewrite app_nil_r. done.
    + rewrite (bool_decide_eq_true_2 (0 < length (first :: rest))%nat)
        by (simpl; lia).
      cbn [andb head]. destruct (forallb is_online (first :: rest)).
      * rewrite send_pollers, send_trace.
        cbn [pollers trace emit with_pollers fst snd].
        rewrite list_lookup_insert_eq by done.
        split_and!; [done| |].
        -- rewrite !notifications_app, send_events_notifications. cbn.
           by rewrite !app_nil_r.
        -- intros j. rewrite !samples_of_app, send_events_samples.
           unfold samples_of at 2 3. cbn. lia.
      * case_bool_decide.
        -- rewrite send_pollers, send_trace.
           cbn [pollers trace emit with_pollers fst snd].
           rewrite list_lookup_insert_eq by done.
           split_and!; [done| |].
           ++ rewrite !notifications_app, send_events_notifications. cbn.
              by rewrite !app_nil_r.
           ++ intros j. rewrite !samples_of_app, send_events_samples.
              unfold samples_of at 2 3. cbn. lia.
        -- cbn [fst snd]. rewrite app_nil_r. done.
  - rewrite send_pollers, send_trace.
    cbn [pollers trace emit with_pollers fst snd].
    rewrite list_lookup_insert_eq by done.
    split_and!; [done| |].
    + rewrite !notifications_app, send_events_notifications. cbn.
      by rewrite !app_nil_r.
    + intros j. rewrite !samples_of_app, send_events_samples.
      unfold samples_of at 2 3. cbn. lia.
Qed.

(** X11.  With a budget of one attempt or less (also zero or negative), the
    first answer to arrive ends the polling of a fresh timer, however many
    times the timer has fired before it (at least once): [Errored] on a
    fault, [Stabilized] when the name is stable in the sample, [Failed]
    otherwise.  The samples taken are the firings before that answer, one if
    the answer came before the second firing; the timer does not fire
    again. *)
Theorem smallest_budget i appName k f w :
  RECHECK_MAX_ATTEMPTS cfg <= 1 ->
  pollers w !! i = Some (fresh_poller appName) ->
  (1 <= k)%nat ->
  phase_of i (fetch_answer i f (fires k i w)) =
    Some match f with
         | FetchErr _ => Errored
         | FetchOk processes =>
           if isAllOnline (appInstances_of appName processes)
           then Stabilized else Failed
         end /\
  samples_of i (trace (fetch_answer i f (fires k i w))) =
    (samples_of i (trace w) + k)%nat /\
  timer_fire i (fetch_answer i f (fires k i w)) =
    fetch_answer i f (fires k i w) /\
  (k = 1%nat -> fetch_answer i f (fires k i w) = interval_tick i f w).
Proof.
  intros Hmax Hp Hk. unfold fresh_poller in Hp.
  destruct (fires_polling i appName k w 0 Hp) as (Hq & Hs & _).
  destruct (fetch_answer_spec i f (fires k i w) appName (0 + Z.of_nat k)
              Polling Hq) as (Hq' & _ & Hs').
  assert ((poll_rule appName (0 + Z.of_nat k) f).1 =
          match f with
          | FetchErr _ => Errored
          | FetchOk processes =>
            if isAllOnline (appInstances_of appName processes)
            then Stabilized else Failed
          end) as Hrule.
  { destruct f as [processes|message]; [|done].
    destruct (isAllOnline (appInstances_of appName processes)) eqn:Hon.
    - apply isAllOnline_spec in Hon.
      by destruct (poll_rule_stable num_to_string cfg appName
                     (0 + Z.of_nat k) processes Hon) as (first & _ & ->).
    - rewrite poll_rule_unstable.
      + by rewrite bool_decide_eq_true_2 by lia.
      + rewrite <- isAllOnline_spec. congruence. }
  rewrite Hrule in Hq'.
  assert (phase_of i (fetch_answer i f (fires k i w)) =
          Some match f with
               | FetchErr _ => Errored
               | FetchOk processes =>
                 if isAllOnline (appInstances_of appName processes)
                 then Stabilized else Failed
               end) as Hphase.
  { unfold phase_of. rewrite Hq'. cbn. f_equal.
    destruct f as [processes|message]; [|done].
    by destruct (isAllOnline _). }
  split_and!.
  - done.
  - rewrite Hs', Hs. done.
  - apply timer_fire_done. rewrite Hphase.
    destruct f as [processes|message]; [|done].
    by destruct (isAllOnline _).
  - intros ->. by rewrite (interval_tick_split _ _ _ i f w appName 0 Hp).
Qed.

(** ** Throttling *)

Lemma send_throttled a t m c w :
  throttled (throttle_key a t) (clock w) w = true ->
  send a t m c w = emit (Notify a t m c) w.
Proof.
  intros Hth. unfold sendSlackNotification.
  change (throttled (throttle_key a t)
            (clock (emit (Notify a t m c) w)) (emit (Notify a t m c) w))
    with (throttled (throttle_key a t) (clock w) w).
  by rewrite Hth.
Qed.

(** X12.  Once a delivery is recorded for a subject and title, any number of
    attempts for them that come less than the window after it are all
    suppressed: none is delivered, nothing is left pending, and the cache
    keeps the recorded time (the window is not extended). *)
Theorem window_suppresses_all a t tries last w :
  notificationThrottleCache w !! throttle_key a t = Some last ->
  Forall (fun x => x.1.1 - last < THROTTLE_DURATION_MS cfg) tries ->
  notificationThrottleCache (burst a t tries w) = notificationThrottleCache w /\
  inflight (burst a t tries w) = inflight w /\
  (forall k, posts_of k (trace (burst a t tries w)) = posts_of k (trace w)) /\
  attempts_of a t (trace (burst a t tries w)) =
    (attempts_of a t (trace w) + length tries)%nat.
Proof.
  unfold burst. revert w.
  induction tries as [|[[time m] c] tries IH]; intros w Hlast Hall;
    cbn [foldl length].
  - split_and!; try done; lia.
  - apply Forall_cons in Hall as [Hnear Hall]. cbn [fst snd] in Hnear |- *.
    rewrite send_throttled.
    + destruct (IH (emit (Notify a t m c) (with_clock time w)))
        as (Hc & Hi & Hposts & Ha); [done|done|].
      rewrite Hc, Hi, Ha. split_and!; try done.
      * intros k. rewrite Hposts. cbn [trace emit with_clock].
        rewrite posts_of_app. unfold posts_of at 2. simpl. lia.
      * cbn [trace emit with_clock]. rewrite attempts_of_app.
        unfold attempts_of at 2. simpl.
        rewrite !bool_decide_eq_true_2 by done. simpl. lia.
    + unfold throttled. cbn [notificationThrottleCache with_clock clock].
      rewrite Hlast. by apply bool_decide_eq_true_2.
Qed.

(** X13.  An attempt and the answer to its delivery change the throttle decision
    for no other key. *)
Theorem other_keys_untouched a t m c r k now w :
  k <> throttle_key a t ->
  throttled k now (settle (length (inflight w)) r (send a t m c w)).2 =
  throttled k now w.
Proof.
  intros Hk.
  destruct (throttled (throttle_key a t) (clock w) w) eqn:Hth.
  - rewrite send_throttled by done. unfold settle.
    cbn [inflight emit]. rewrite lookup_ge_None_2 by lia. done.
  - rewrite (settle_new toLocaleString cfg) by done. cbn [snd].
    unfold throttled.
    destruct r as [|message]; cbn; rewrite ?send_cache;
      rewrite ?lookup_insert_ne by done; done.
Qed.

(** ** The status server *)

(** X14.  What [GET /status] returns after an append is what the append wrote: the
    new entry first, at most [MAX_HISTORY] entries in all.  Any other URL,
    also one that only adds a query or a slash, is answered 404; and while
    there is no file the answer to [/status] is 500. *)
Theorem status_serves_the_log rf ps w url rf' w0 :
  1 <= MAX_HISTORY cfg ->
  url <> "/status" ->
  statusFile w0 = None ->
  (exists rest,
     handle_request "/status" None (logStatusToFile rf None ps w).2 =
       {| res_status := 200; res_content_type := "application/json";
          res_body := FileContent (entry_at (clock w) ps :: rest) |} /\
     statusFile (logStatusToFile rf None ps w).2 =
       Some (entry_at (clock w) ps :: rest) /\
     Z.of_nat (length (entry_at (clock w) ps :: rest)) <= MAX_HISTORY cfg) /\
  handle_request url rf' w =
    {| res_status := 404; res_content_type := "text/plain";
       res_body := Text "Not Found" |} /\
  res_status (handle_request "/status" rf' w0) = 500.
Proof.
  intros Hmax Hurl Hnone. split_and!.
  - rewrite logStatusToFile_file. cbn [snd].
    rewrite slice0_take by lia.
    destruct (Z.to_nat (MAX_HISTORY cfg)) as [|n] eqn:Hn; [lia|].
    cbn [take]. eexists. split_and!; [done|done|].
    cbn [length]. rewrite length_take. lia.
  - unfold handle_request. apply String.eqb_neq in Hurl. by rewrite Hurl.
  - unfold handle_request, readHistory. cbn. rewrite Hnone.
    by destruct rf' as [[code message]|].
Qed.

(** ** Startup *)

(** [startsWith], spelled out. *)
Lemma prefix_append p : forall u,
  String.prefix p u = true <-> exists rest, u = p +:+ rest.
Proof.
  induction p as [|c p IH]; intros u.
  - destruct u; simpl; split; by eauto.
  - destruct u as [|d u]; simpl.
    + split; [done|]. by intros [rest Hrest].
    + destruct (Ascii.ascii_dec c d) as [->|Hne].
      * rewrite IH. split; intros [rest Hrest]; exists rest.
        -- by rewrite Hrest.
        -- change (String d u = String d (p +:+ rest)) in Hrest. congruence.
      * split; [done|]. intros [rest Hrest].
        change (String d u = String c (p +:+ rest)) in Hrest. congruence.
Qed.

(** The URL test of [initialize]: an absent variable and the empty string are
    turned down by [!url], everything else by [startsWith]. *)
Lemma valid_webhook_spec url :
  valid_webhook url = true <->
  exists rest, url = Some ("https://hooks.slack.com/" +:+ rest).
Proof.
  unfold valid_webhook. destruct url as [u|].
  - rewrite andb_true_iff, prefix_append. split.
    + intros [_ [rest ->]]. by exists rest.
    + intros [rest [= ->]]. split; [done|by exists rest].
  - split; [done|]. by intros [rest Hrest].
Qed.

(** When the listing is accepted: the command succeeded, its output is
    empty or a JSON array, and every record of a name that is not excluded
    has its [pm2_env] and its [monit]. *)
Lemma getPm2Processes_ok out :
  (exists ps, getPm2Processes out = FetchOk ps) <->
  (forall message, out <> ExecError message /\ out <> Malformed message) /\
  (forall parsed r, out = Records parsed -> r ∈ parsed ->
     (raw_name r ∉ excluded) ->
     is_Some (raw_pm2_env r) /\ is_Some (raw_monit r)).
Proof.
  destruct out as [message| |message|parsed]; cbn [getPm2Processes].
  - split; [by intros [ps Hps]|]. intros [Hno _]. by destruct (Hno message).
  - split; [|by eauto]. intros _. split; [done|]. by intros parsed r.
  - split; [by intros [ps Hps]|]. intros [Hno _]. by destruct (Hno message).
  - pose proof (map_records_inl
                  (filter (fun r => raw_name r ∉ excluded) parsed)) as Hinl.
    destruct (map_records (filter (fun r => raw_name r ∉ excluded) parsed))
      as [message|qs].
    + split; [by intros [ps Hps]|]. intros [_ Hall].
      destruct (proj1 Hinl) as (r & Hr & Hbad); [by eauto|].
      apply list_elem_of_filter in Hr as [Hex Hr].
      destruct (Hall parsed r eq_refl Hr Hex) as [[env He] [monit Hm]].
      destruct Hbad; congruence.
    + split; [|by eauto]. intros _. split; [done|].
      intros parsed' r [= <-] Hr Hex.
      destruct (raw_pm2_env r) as [env|] eqn:He;
        [destruct (raw_monit r) as [monit|] eqn:Hm|]; [by eauto| |];
        (destruct (proj2 Hinl) as [m Hm']; [|done]);
        (exists r; split; [by apply list_elem_of_filter|by eauto]).
Qed.


(** ** The clock *)

Lemma timely_same w w' :
  notificationThrottleCache w' = notificationThrottleCache w ->
  clock w' = clock w ->
  inflight w' = inflight w ->
  timely w -> timely w'.
Proof. unfold timely. by intros -> -> ->. Qed.

Lemma timely_emit e w : timely w -> timely (emit e w).
Proof. by apply timely_same. Qed.

Lemma timely_with_pollers l w : timely w -> timely (with_pollers l w).
Proof. by apply timely_same. Qed.

Lemma timely_with_history h w : timely w -> timely (with_history h w).
Proof. by apply timely_same. Qed.

Lemma timely_with_statusFile f w : timely w -> timely (with_statusFile f w).
Proof. by apply timely_same. Qed.

Lemma timely_send a t m c w : timely w -> timely (send a t m c w).
Proof.
  intros [Hcache Hpending]. unfold timely.
  rewrite send_cache, send_clock, send_inflight. split; [done|].
  apply Forall_app. split; [done|].
  destruct (throttled _ _ _); [apply Forall_nil_2|].
  apply Forall_singleton. simpl. lia.
Qed.

Ltac timely_steps :=
  repeat first
    [ assumption | apply timely_send | apply timely_emit
    | apply timely_with_pollers | apply timely_with_history
    | apply timely_with_statusFile ].

Lemma timely_detect l : forall R w,
  timely w -> timely (foldl detect_entry (R, w) l).2.
Proof.
  induction l as [|[k v] l IH]; intros R w Hw; cbn [foldl]; [done|].
  destruct (detect_entry (R, w) (k, v)) as [R1 w1] eqn:Hstep.
  apply IH. replace w1 with (detect_entry (R, w) (k, v)).2 by (by rewrite Hstep).
  unfold detect_entry, startPollingAppStatus.
  destruct (appRestartHistory w !! k) as [prev|]; [case_bool_decide|];
    cbn [snd]; timely_steps.
Qed.

Lemma timely_check ps R : forall w,
  timely w -> timely (checkStableProcesses ps R w).
Proof.
  unfold checkStableProcesses.
  induction ps as [|p ps IH]; intros w Hw; cbn [foldl]; [done|].
  apply IH. case_bool_decide; [done|].
  unfold check_proc, send_alert, status_alert, cpu_alert, memory_alert.
  destruct (negb _); [timely_steps|].
  destruct (Qltb (THRESHOLDS_CPU cfg) (cpu p)),
           (Qltb (THRESHOLDS_MEMORY cfg) (memory p)); timely_steps.
Qed.

Lemma timely_catch message w : timely w -> timely (cycle_catch message w).
Proof. intros Hw. unfold cycle_catch. timely_steps. Qed.

Lemma timely_cycle fetch rf wf w :
  timely w -> timely (monitorProcesses fetch rf wf w).
Proof.
  intros Hw. unfold monitorProcesses. destruct fetch as [ps|message].
  - pose proof (timely_detect (currentRestartsByApp ps) ∅ w Hw) as H1.
    unfold detectAndHandleRestarts.
    destruct (foldl detect_entry (∅, w) (currentRestartsByApp ps)) as [R1 w1].
    cbn [snd] in H1. pose proof (timely_check ps R1 w1 H1) as H2.
    destruct (WEB_SERVER_ENABLED cfg); [|done].
    destruct wf as [message|].
    + rewrite logStatusToFile_reject. apply timely_catch.
      destruct (readHistory rf _) as [h|code message']; [done|].
      case_bool_decide; timely_steps.
    + rewrite (logStatusToFile_file toLocaleString cfg).
      apply timely_with_statusFile.
      destruct (readHistory rf _) as [h|code message']; [done|].
      case_bool_decide; timely_steps.
  - by apply timely_catch.
Qed.

Lemma timely_tick i f w : timely w -> timely (interval_tick i f w).
Proof.
  intros Hw. unfold interval_tick, poll_catch, with_poller.
  destruct (pollers w !! i) as [[appName attempts0 []]|]; try done.
  destruct f as [processes|message]; [|timely_steps].
  destruct (isAllOnline _).
  - destruct (head _); timely_steps.
  - case_bool_decide; timely_steps.
Qed.

Lemma timely_settle i r w : timely w -> timely (settle i r w).2.
Proof.
  intros [Hcache Hpending]. unfold settle.
  destruct (inflight w !! i) as [s|] eqn:Hs; [|done].
  assert (s_now s <= clock w) as Hnow
    by (by eapply (Forall_lookup_1 _ _ _ _ Hpending)).
  assert (Forall (fun s => s_now s <= clock w) (delete i (inflight w)))
    as Hrest by (by apply Forall_delete).
  destruct r as [|message]; unfold timely; cbn; (split; [|done]); [|done].
  intros key last. rewrite lookup_insert.
  case_decide; [intros [= <-]; done|apply Hcache].
Qed.

(** X16.  As long as the clock is not set back, no recorded delivery and no
    pending delivery is ever dated later than the clock, so that the age
    the throttle test computes is never negative.  This holds at startup,
    when cache and pending list are empty. *)
Theorem never_ahead_of_the_clock acts w :
  timely w ->
  clock_forward acts w ->
  timely (run acts w) /\
  (forall key last,
     notificationThrottleCache (run acts w) !! key = Some last ->
     0 <= clock (run acts w) - last) /\
  (forall t, timely (boot t)).
Proof.
  intros Hw Hfwd.
  assert (timely (run acts w)) as Hrun.
  { unfold run. revert w Hw Hfwd.
    induction acts as [|a acts IH]; intros w Hw Hfwd; cbn [foldl]; [done|].
    cbn [clock_forward] in Hfwd. destruct Hfwd as [Ha Hfwd].
    apply IH; [|done].
    destruct a as [t|fetch rf wf|i f|i r]; unfold act.
    - destruct Hw as [Hcache Hpending]. split; cbn.
      + intros key last Hlast. specialize (Hcache key last Hlast). lia.
      + eapply Forall_impl; [exact Hpending|]. cbn. intros s Hs. lia.
    - by apply timely_cycle.
    - by apply timely_tick.
    - by apply timely_settle. }
  split_and!; [done| |].
  - intros key last Hlast. destruct Hrun as [Hcache _].
    specialize (Hcache key last Hlast). lia.
  - intros t. split; cbn; [|apply Forall_nil_2].
    intros key last. by rewrite lookup_empty.
Qed.

(** ** All the notification attempts of a cycle *)

Lemma filter_agree {A} (P Q : A -> Prop) `{!forall x, Decision (P x)}
    `{!forall x, Decision (Q x)} (l : list A) :
  (forall x, x ∈ l -> P x <-> Q x) -> filter P l = filter Q l.
Proof.
  induction l as [|x l IH]; intros Hagree; [done|].
  rewrite !filter_cons.
  assert (P x <-> Q x) as Hx by (apply Hagree, list_elem_of_here).
  rewrite IH by (intros y Hy; apply Hagree; by apply list_elem_of_further).
  destruct (decide (P x)), (decide (Q x)); tauto || done.
Qed.

Lemma detect_entry_notifications R w k v :
  notifications (trace (detect_entry (R, w) (k, v)).2) =
  notifications (trace w) ++
  if match appRestartHistory w !! k with
     | Some prev => bool_decide (prev < v)
     | None => false
     end
  then [(k, "Process Restart Detected", restart_message k, "warning")]
  else [].
Proof.
  unfold detect_entry, startPollingAppStatus.
  destruct (appRestartHistory w !! k) as [prev|]; [case_bool_decide|];
    cbn [snd trace with_history with_pollers emit]; rewrite ?app_nil_r;
    try done.
  rewrite notifications_app, send_trace, notifications_app,
    send_events_notifications.
  cbn. by rewrite app_nil_r.
Qed.

Lemma detect_notifications l : forall R w,
  NoDup (map fst l) ->
  notifications (trace (foldl detect_entry (R, w) l).2) =
  notifications (trace w) ++ restart_notices (appRestartHistory w) l.
Proof.
  unfold restart_notices.
  induction l as [|[k v] l IH]; intros R w Hnd; cbn [foldl].
  - cbn. by rewrite app_nil_r.
  - cbn [map fst] in Hnd. apply NoDup_cons in Hnd as [Hk Hnd].
    pose proof (detect_entry_notifications R w k v) as Hstep.
    destruct (detect_entry_spec num_to_string toLocaleString cfg R w k v)
      as (_ & Hh & _).
    destruct (detect_entry (R, w) (k, v)) as [R1 w1]. cbn [snd] in Hstep, Hh.
    rewrite IH, Hstep, Hh, <- app_assoc by done. f_equal.
    cbn [map fst]. rewrite filter_cons, restart_seen_cons.
    rewrite (decide_True (P := k = k)) by done.
    rewrite (filter_agree
               (fun k0 => restart_seen (<[k:=v]> (appRestartHistory w)) k0 l
                          = true)
               (fun k0 => restart_seen (appRestartHistory w) k0 ((k, v) :: l)
                          = true)).
    + destruct (match appRestartHistory w !! k with
                | Some prev => bool_decide (prev < v)
                | None => false
                end); destruct (decide _); done.
    + intros k0 Hk0. rewrite restart_seen_cons, restart_seen_insert by done.
      destruct (decide (k0 = k)) as [->|]; [done|]. done.
Qed.

(** X9.  The notification attempts of one cycle on a snapshot, all of them and in
    order: first one 'Process Restart Detected' for every restarted name (one
    per name however many instances it has, in the order in which the names
    first appear in the listing), then the threshold alerts of the records
    that are not restarted, and last, when the write of the history file
    failed, one 'Monitoring Script Error'. *)
Theorem cycle_notifications ps rf wf w :
  notifications (trace (monitorProcesses (FetchOk ps) rf wf w)) =
    notifications (trace w) ++
    restart_notices (appRestartHistory w) (currentRestartsByApp ps) ++
    flat_map expected_alerts
      (filter (fun p => name p ∉ (detectAndHandleRestarts ps w).1) ps) ++
    (if WEB_SERVER_ENABLED cfg then
       match wf with
       | Some message =>
         [("PM2 Monitor", "Monitoring Script Error", message, "danger")]
       | None => []
       end
     else []) /\
  NoDup (map (fun x => x.1.1.1)
             (restart_notices (appRestartHistory w) (currentRestartsByApp ps))).
Proof.
  split.
  - unfold monitorProcesses, detectAndHandleRestarts.
    pose proof (detect_notifications (currentRestartsByApp ps) ∅ w
                  (currentRestartsByApp_NoDup ps)) as H1.
    destruct (foldl detect_entry (∅, w) (currentRestartsByApp ps)) as [R1 w1].
    cbn [fst snd] in H1 |- *.
    destruct (checkStableProcesses_spec num_to_string toLocaleString cfg
                ps R1 w1) as (_ & _ & _ & _ & _ & evs2 & Ht2 & Hn2 & _).
    set (w2 := checkStableProcesses ps R1 w1) in *.
    assert (notifications (trace w2) =
            notifications (trace w) ++
            restart_notices (appRestartHistory w) (currentRestartsByApp ps) ++
            flat_map expected_alerts (filter (fun p => name p ∉ R1) ps)) as H2
      by (by rewrite Ht2, notifications_app, Hn2, H1, <- app_assoc).
    destruct (WEB_SERVER_ENABLED cfg); [|by rewrite H2, !app_nil_r].
    set (wl := match readHistory rf w2 with
               | ReadOk _ => w2
               | ReadError code message' =>
                 if bool_decide (code ≠ Some "ENOENT") then
                   emit (Console ERROR
                           ("[Error] Failed to read status history file: "
                            +:+ message')) w2
                 else w2
               end).
    assert (notifications (trace wl) = notifications (trace w2)) as Hl.
    { unfold wl. destruct (readHistory rf w2) as [h|code message']; [done|].
      case_bool_decide; [|done]. cbn [trace emit].
      rewrite notifications_app. cbn. by rewrite app_nil_r. }
    destruct wf as [message|].
    + rewrite logStatusToFile_reject. fold wl.
      destruct (cycle_catch_spec toLocaleString cfg message wl)
        as (_ & _ & _ & _ & _ & evs & Ht & Hn & _).
      rewrite Ht, notifications_app, Hn, Hl, H2, <- !app_assoc. done.
    + rewrite (logStatusToFile_file toLocaleString cfg). fold wl.
      cbn [trace with_statusFile]. by rewrite Hl, H2, !app_nil_r.
  - unfold restart_notices. rewrite map_map. cbn. rewrite map_id.
    apply NoDup_filter, currentRestartsByApp_NoDup.
Qed.

End MoreFacts.

(** ** Beyond the claims, at concrete inputs *)

Lemma snapshot_leaves_out_excluded_witness :
  map name [api 0 "online" 0] = ["api"] /\
  aggregated "pm2-monitor" [api 0 "online" 0] = 0.
Proof.
  destruct (snapshot_leaves_out_excluded EXCLUDED_APPS megabytes_exact
              [{| raw_pm_id := 7; raw_name := "pm2-monitor";
                  raw_pm2_env := None; raw_monit := None |};
               {| raw_pm_id := 0; raw_name := "api";
                  raw_pm2_env := Some {| env_status := "online";
                                         env_restart_time := None |};
                  raw_monit := Some {| monit_cpu := Some (12 # 1);
                                       monit_memory := Some (188743680 # 1) |} |}]
              [api 0 "online" 0]) as (Hnames & _ & Hexcl).
  - vm_compute. reflexivity.
  - split; [reflexivity|]. apply (Hexcl "pm2-monitor"). apply list_elem_of_here.
Defined.

Lemma excluded_never_monitored_witness :
  timers_of "pm2-monitor"
    (trace (monitorProcesses render_num render_time CONFIG
              (getPm2Processes EXCLUDED_APPS megabytes_exact (Records listing))
              None None seeded)) = 0%nat.
Proof.
  destruct (excluded_never_monitored render_num render_time CONFIG
              EXCLUDED_APPS megabytes_exact listing [api 0 "online" 0]
              None None seeded "pm2-monitor") as (_ & Htimers & _).
  - vm_compute. reflexivity.
  - apply list_elem_of_here.
  - discriminate.
  - rewrite Htimers. reflexivity.
Defined.

Lemma cycle_on_failed_snapshot_witness :
  pollers (monitorProcesses render_num render_time CONFIG
             (getPm2Processes EXCLUDED_APPS megabytes_exact
                (ExecError "Command failed: pm2 jlist"))
             None None polling) = pollers polling.
Proof.
  destruct (cycle_on_failed_snapshot render_num render_time CONFIG
              EXCLUDED_APPS megabytes_exact
              (ExecError "Command failed: pm2 jlist")
              "Command failed: pm2 jlist" None None polling)
    as (_ & _ & Hpollers & _).
  - reflexivity.
  - exact Hpollers.
Defined.

Lemma cycle_on_write_fault_witness :
  notifications
    (trace (monitorProcesses render_num render_time CONFIG
              (FetchOk [worker]) None
              (Some "EACCES: permission denied, open 'status.json'")
              seeded)) =
  notifications
    (trace (monitorProcesses render_num render_time CONFIG
              (FetchOk [worker]) None None seeded)) ++
  [("PM2 Monitor", "Monitoring Script Error",
    "EACCES: permission denied, open 'status.json'", "danger")].
Proof.
  destruct (cycle_on_write_fault render_num render_time CONFIG [worker] None
              "EACCES: permission denied, open 'status.json'" seeded)
    as (_ & _ & Hnotes).
  - reflexivity.
  - exact Hnotes.
Defined.

Lemma restart_reported_once_witness :
  attempts_of "api" "Process Restart Detected"
    (trace (monitorProcesses render_num render_time CONFIG
              (FetchOk [api 0 "online" 5]) None None
              (monitorProcesses render_num render_time CONFIG
                 (FetchOk [api 0 "online" 5]) None None seeded))) = 1%nat.
Proof.
  destruct (restart_reported_once render_num render_time CONFIG
              [api 0 "online" 5] [api 0 "online" 5] None None None None
              seeded "api") as (_ & _ & Hsame).
  - apply list_elem_of_here.
  - rewrite Hsame. vm_compute. reflexivity.
Defined.

(** One instance of the cluster restarts, another is gone: the sum does not
    rise, and the restart goes unnoticed. *)
Lemma total_follows_without_alert_witness :
  appRestartHistory
    (monitorProcesses render_num render_time CONFIG
       (FetchOk [api 0 "online" 3]) None None
       (with_history {[ "api" := 5 ]} (boot 1000))) !! "api" = Some 3.
Proof.
  destruct (total_follows_without_alert render_num render_time CONFIG
              [api 0 "online" 3] None None
              (with_history {[ "api" := 5 ]} (boot 1000)) "api" 5)
    as (Hstored & _).
  - apply list_elem_of_here.
  - reflexivity.
  - vm_compute. discriminate.
  - exact Hstored.
Defined.

Lemma listing_order_irrelevant_witness :
  (detectAndHandleRestarts render_num render_time CONFIG
     [api 0 "online" 3; worker; api 1 "online" 2] seeded).1 =
  (detectAndHandleRestarts render_num render_time CONFIG
     [worker; api 0 "online" 3; api 1 "online" 2] seeded).1.
Proof.
  destruct (listing_order_irrelevant render_num render_time CONFIG
              [api 0 "online" 3; worker; api 1 "online" 2]
              [worker; api 0 "online" 3; api 1 "online" 2] None None seeded)
    as (Hsame & _).
  - apply Permutation_swap.
  - exact Hsame.
Defined.

Lemma poller_is_isolated_witness :
  pollers (run render_num render_time CONFIG
             [Advance 60000;
              Cycle (FetchOk [api 0 "launching" 9]) None None;
              Tick 1 (FetchOk [api 0 "online" 9])]
             (with_history {[ "api" := 3 ]} polling)) !! 0%nat =
  Some (fresh_poller "api").
Proof.
  apply (poller_is_isolated render_num render_time CONFIG).
  - repeat constructor; discriminate.
  - reflexivity.
Defined.

Lemma smallest_budget_witness :
  phase_of 0 (fetch_answer render_num render_time no_retry 0
                (FetchOk [api 0 "launching" 5])
                (fires render_num no_retry 2 0 polling)) = Some Failed /\
  samples_of 0 (trace (fetch_answer render_num render_time no_retry 0
                         (FetchOk [api 0 "launching" 5])
                         (fires render_num no_retry 2 0 polling))) = 2%nat.
Proof.
  destruct (smallest_budget render_num render_time no_retry 0 "api" 2
              (FetchOk [api 0 "launching" 5]) polling)
    as (Hphase & Hsamples & _).
  - vm_compute. discriminate.
  - reflexivity.
  - lia.
  - split; [rewrite Hphase | rewrite Hsamples]; reflexivity.
Defined.

Lemma window_suppresses_all_witness :
  posts_of "api::High CPU Usage"
    (trace (burst render_time CONFIG "api" "High CPU Usage"
              [(2000, "Instance `0` is using `91%` CPU.", "warning");
               (30999, "Instance `1` is using `97%` CPU.", "warning")]
              (with_cache {[ "api::High CPU Usage" := 1000 ]} (boot 1000)))) =
  0%nat.
Proof.
  destruct (window_suppresses_all render_time CONFIG "api" "High CPU Usage"
              [(2000, "Instance `0` is using `91%` CPU.", "warning");
               (30999, "Instance `1` is using `97%` CPU.", "warning")]
              1000
              (with_cache {[ "api::High CPU Usage" := 1000 ]} (boot 1000)))
    as (_ & _ & Hposts & _).
  - reflexivity.
  - repeat constructor.
  - rewrite Hposts. reflexivity.
Defined.

Lemma other_keys_untouched_witness :
  throttled CONFIG "api::High Memory Usage" 1001
    (settle 0 PostOk
       (sendSlackNotification render_time CONFIG "api" "High CPU Usage"
          "Instance `0` is using `91%` CPU." "warning" (boot 1000))).2 =
  false.
Proof.
  transitivity (throttled CONFIG "api::High Memory Usage" 1001 (boot 1000));
    [|reflexivity].
  apply (other_keys_untouched render_time CONFIG "api" "High CPU Usage"
           "Instance `0` is using `91%` CPU." "warning" PostOk
           "api::High Memory Usage" 1001 (boot 1000)).
  discriminate.
Defined.

Lemma status_serves_the_log_witness :
  res_status (handle_request "/status?limit=10" None (boot 1000)) = 404 /\
  res_status (handle_request "/status" None (boot 1000)) = 500.
Proof.
  destruct (status_serves_the_log render_time CONFIG None [worker] (boot 1000)
              "/status?limit=10" None (boot 1000)) as (_ & H404 & H500).
  - vm_compute. discriminate.
  - discriminate.
  - reflexivity.
  - split; [by rewrite H404|exact H500].
Defined.

Lemma never_ahead_of_the_clock_witness :
  timely
    (run render_num render_time CONFIG
       [Cycle (FetchOk [worker]) None None; Advance 1200; Settle 0 PostOk]
       (boot 1000)).
Proof.
  apply (never_ahead_of_the_clock render_num render_time CONFIG
           [Cycle (FetchOk [worker]) None None; Advance 1200; Settle 0 PostOk]
           (boot 1000)).
  - split; cbn; [|apply Forall_nil_2]. intros key last. by rewrite lookup_empty.
  - vm_compute. repeat split; discriminate.
Defined.
